(** * spaces-design: layer actions, menu items and the type tool

  A shallow embedding of three parts of the application layer:

  - [js/actions/layers]: the layer commands ([addLayers], [resetLayers],
    [resetBounds], [select], [setLocking], [reorder], [duplicate],
    [createArtboard], [_getLayersByRef], ...);
  - [js/models/menuitem]: [MenuItem.fromDescriptor], [byID],
    [updateSubmenuProps], [_update] and [exportDescriptor];
  - [js/actions/tool/type]: the modal text-tool listeners and their sessions.

  JavaScript values are modelled by [Js.val]; objects used as dictionaries
  are finite maps; promises are modelled by the list of effects a command
  performs (host requests, dispatches, transfers) together with the value it
  resolves with or the error it rejects with. *)

From stdpp Require Import gmap strings list fin_maps.
From Stdlib Require Import ZArith Lia.

Open Scope Z_scope.

Set Warnings "-register-all".

(** ** JavaScript values *)

Module Js.

(** The fragment of JavaScript values the modelled code manipulates.
    Numbers are integers here: layer IDs, indices and areas. *)
Inductive val : Type :=
| Undefined
| Null
| Bool (b : bool)
| Num (n : Z)
| Str (s : string)
| Obj (fields : list (string * val)).

(** [ToBoolean]: what [if (v)], [!v] and [v && w] test. *)
Definition truthy (v : val) : bool :=
  match v with
  | Undefined | Null => false
  | Bool b => b
  | Num n => negb (n =? 0)
  | Str s => negb (String.eqb s "")
  | Obj _ => true
  end.

(** Own-property lookup on an object written as a list of fields; a later
    field with the same name wins, as a later assignment would. *)
Fixpoint field (fields : list (string * val)) (name : string) : option val :=
  match fields with
  | [] => None
  | (k, v) :: rest =>
      match field rest name with
      | Some w => Some w
      | None => if String.eqb k name then Some v else None
      end
  end.

(** [v.hasOwnProperty(name)] for the values above (property names are
    identifiers, never ["length"] or an index). *)
Definition hasOwnProperty (v : val) (name : string) : bool :=
  match v with
  | Obj fields => bool_decide (is_Some (field fields name))
  | _ => false
  end.

(** [v[name]], [undefined] when the property is missing. *)
Definition get (v : val) (name : string) : val :=
  match v with
  | Obj fields => default Undefined (field fields name)
  | _ => Undefined
  end.

(** A plain object built by assignments: property name to value. *)
Abbreviation object := (gmap string val).

(** [_.assign(target, source)]: own properties of [source] are copied over
    those of [target]; an [undefined] source copies nothing. *)
Definition assign (target : object) (source : option object) : object :=
  match source with
  | Some src => src ∪ target
  | None => target
  end.

(** [array.reduce(callback, init)] with the callback's [index] argument. *)
Fixpoint reduceFrom {A B : Type} (callback : B -> A -> nat -> B)
    (index : nat) (acc : B) (array : list A) : B :=
  match array with
  | [] => acc
  | value :: rest => reduceFrom callback (S index) (callback acc value index) rest
  end.

Definition reduce {A B : Type} (callback : B -> A -> nat -> B)
    (array : list A) (init : B) : B :=
  reduceFrom callback 0%nat init array.

End Js.

(** ** Promises and effects *)

Module Promise.

(** How a promise settles. *)
Inductive settled (A : Type) : Type :=
| Resolved (value : A)
| Rejected (reason : string).
Arguments Resolved {A} value.
Arguments Rejected {A} reason.

(** A command run to completion: the effects it performed, in the order
    they were issued, and how its promise settled. *)
Record run (E A : Type) : Type := Run {
  effects : list E;
  outcome : settled A
}.
Arguments Run {E A} effects outcome.
Arguments effects {E A} r.
Arguments outcome {E A} r.

(** [Promise.resolve(value)] *)
Definition resolve {E A : Type} (value : A) : run E A := Run [] (Resolved value).

(** A synchronous [throw] inside an action, or a rejected promise. *)
Definition reject {E A : Type} (reason : string) : run E A := Run [] (Rejected reason).

(** One effect, performed and complete. *)
Definition perform {E : Type} (e : E) : run E unit := Run [e] (Resolved ()).

(** [p.then(k)]: [k] runs only when [p] resolves. *)
Definition andThen {E A B : Type} (p : run E A) (k : A -> run E B) : run E B :=
  match outcome p with
  | Resolved value => let q := k value in Run (effects p ++ effects q) (outcome q)
  | Rejected reason => Run (effects p) (Rejected reason)
  end.

(** [Promise.join(p, q, f)]: both promises are already running, so the
    effects of both happen; the join rejects when either does. *)
Definition join {E A B C : Type} (p : run E A) (q : run E B) (f : A -> B -> C) : run E C :=
  Run (effects p ++ effects q)
      match outcome p, outcome q with
      | Resolved a, Resolved b => Resolved (f a b)
      | Rejected reason, _ => Rejected reason
      | _, Rejected reason => Rejected reason
      end.

End Promise.

Notation "'let*' x ':=' p 'in' k" := (Promise.andThen p (fun x => k))
(at level 10, x pattern, p at level 100, k at level 200, only parsing).

(** ** The document and layer models, as the commands read them *)

Module Bounds.
Record t : Type := Make { area : Z }.
End Bounds.

Module Layer.
Record t : Type := Make {
  id : Z;
  isBackground : bool;
  (** [null] when the layer has no bounds *)
  bounds : option Bounds.t;
  selected : bool
}.
End Layer.

Module LayerStructure.
(** [document.layers]. The derived queries ([hasArtboard], [byID],
    [selected], [maxDescendantDepth]) are properties of the layer-structure
    model, which the commands only read. *)
Record t : Type := Make {
  all : list Layer.t;
  hasArtboard : bool;
  byID : Z -> option Layer.t;
  selected : list Layer.t;
  maxDescendantDepth : Layer.t -> Z
}.
End LayerStructure.

Module Document.
Record t : Type := Make {
  id : Z;
  layers : LayerStructure.t;
  hasBackgroundLayer : bool;
  unsupported : bool
}.
End Document.

(** ** Layer actions ([js/actions/layers]) *)

Module Layers.

(** *** The host adapter, as the commands use it *)

(** One step of a host reference: [documentLib.referenceBy.id],
    [layerLib.referenceBy.id], [layerLib.referenceBy.index],
    [layerLib.referenceBy.current]. *)
Inductive ref : Type :=
| DocumentById (id : Z)
| LayerById (id : Z)
| LayerByIndex (index : Z)
| LayerCurrent.

Abbreviation reference := (list ref).

(** [{ reference: reference, property: property }] *)
Record refObj : Type := RefObj {
  reference_of : reference;
  property : string
}.

(** Descriptors played on the host. *)
Inductive playObject : Type :=
| GroupSelectedObj
| DeselectAllObj
| SelectObj (layerRef : reference) (makeVisible : bool) (modifier : option string).

Inductive request : Type :=
| BatchGetProperties (refObjs : list refObj) (continueOnError : bool)
| BatchGetProperty (refs : list reference) (property : string)
| PlayObject (obj : playObject)
| GetProperty (ref : ref) (property : string).

(** Payloads of the events dispatched to the stores. *)
Inductive payload : Type :=
| ADD_LAYERS (documentID : Z) (layerIDs : list Z) (descriptors : list Js.object)
    (selected : bool) (replace : Js.val)
| RESET_LAYERS_BY_INDEX (documentID : Z) (descriptors : list Js.object)
| SELECT_LAYERS_BY_ID (documentID : Z) (selectedIDs : list Z)
| SELECT_LAYERS_BY_INDEX (documentID : Z) (selectedIndices : list Z)
| GROUP_SELECTED (documentID : Z) (groupID groupEndID groupname : Js.val).

Inductive effect : Type :=
| Request (r : request)
| Dispatch (p : payload).

Abbreviation command A := (Promise.run effect A).

(** The host's answers. [None] is a rejected request. With
    [continueOnError] the adapter answers [[results, errors]];
    [batchGetPropertiesContinue] is [response[0]]. *)
Record host : Type := Host {
  batchGetProperties : list refObj -> option (list Js.val);
  batchGetPropertiesContinue : list refObj -> option (list Js.val);
  batchGetProperty : list reference -> string -> option (list Js.val);
  play : playObject -> option Js.val;
  targetLayers : Z -> option (list Z)
}.

Definition ask {A : Type} (r : request) (answer : option A) : command A :=
  Promise.Run [Request r]
    match answer with
    | Some a => Promise.Resolved a
    | None => Promise.Rejected "host request failed"
    end.

Definition dispatch (p : payload) : command unit := Promise.perform (Dispatch p).

Definition PS_MAX_NEST_DEPTH : Z := 9.

Definition _layerProperties : list string :=
  [ "layerID"; "name"; "visible"; "layerLocking"; "itemIndex"; "background";
    "boundsNoEffects"; "opacity"; "layerFXVisible"; "mode" ]%string.

Definition _optionalLayerProperties : list string :=
  [ "adjustment"; "AGMStrokeStyleInfo"; "textKey"; "layerKind"; "keyOriginType";
    "fillEnabled"; "fillOpacity"; "layerEffects"; "proportionalScaling";
    "artboard"; "artboardEnabled"; "pathBounds"; "smartObject"; "globalAngle" ]%string.

(** *** [_getLayersByRef] *)

(** [references.reduce(function (refs, reference) { return
    refs.concat(properties.map(...)); }, [])] *)
Definition refObjsFor (properties : list string) (references : list reference)
    : list refObj :=
  fold_left
    (fun refs reference =>
       refs ++ map (fun property => RefObj reference property) properties)
    references [].

(** [results[results.length - 1]], updated in place. *)
Definition updateLast (f : Js.object -> Js.object) (results : list Js.object)
    : list Js.object :=
  alter f (length results - 1)%nat results.

(** The callback that folds the flat list of required values. *)
Definition collectProperty (results : list Js.object) (value : Js.val) (index : nat)
    : list Js.object :=
  let propertyIndex := (index mod length _layerProperties)%nat in
  let results := if (propertyIndex =? 0)%nat then results ++ [∅] else results in
  match _layerProperties !! propertyIndex with
  | Some property => updateLast (fun result => <[property := value]> result) results
  | None => results
  end.

(** The callback that folds the flat list of optional values. *)
Definition collectOptionalProperty (results : list Js.object) (value : Js.val)
    (index : nat) : list Js.object :=
  let propertyIndex := (index mod length _optionalLayerProperties)%nat in
  let results := if (propertyIndex =? 0)%nat then results ++ [∅] else results in
  match _optionalLayerProperties !! propertyIndex with
  | Some property =>
      if Js.truthy value && Js.hasOwnProperty value property
      then updateLast (fun result => <[property := Js.get value property]> result) results
      else results
  | None => results
  end.

(** The function given to [Promise.join]. *)
Definition mergeProperties (allProperties allOptionalProperties : list Js.object)
    : list Js.object :=
  imap (fun index properties =>
          Js.assign properties (allOptionalProperties !! index))
       allProperties.

Definition _getLayersByRef (h : host) (references : list reference)
    : command (list Js.object) :=
  let refObjs := refObjsFor _layerProperties references in
  let layerPropertiesPromise :=
    let* values := ask (BatchGetProperties refObjs false) (batchGetProperties h refObjs) in
    Promise.resolve (Js.reduce collectProperty values []) in
  let refObjsOptional := refObjsFor _optionalLayerProperties references in
  let optionalPropertiesPromise :=
    let* allResults := ask (BatchGetProperties refObjsOptional true)
                           (batchGetPropertiesContinue h refObjsOptional) in
    Promise.resolve (Js.reduce collectOptionalProperty allResults []) in
  Promise.join layerPropertiesPromise optionalPropertiesPromise mergeProperties.

(** *** [addLayers] *)

(** [layerSpec]: a layer ID or an array of layer IDs. *)
Inductive layerSpec : Type :=
| OneID (layerID : Z)
| IDs (layerIDs : list Z).

Definition layerIDsOf (spec : layerSpec) : list Z :=
  match spec with
  | OneID layerID => [layerID]
  | IDs layerIDs => layerIDs
  end.

(** The value of [first && !first.isBackground && first.bounds &&
    !first.bounds.area && (document.layers.hasArtboard && first.selected)]. *)
Definition replaceableLayer (hasArtboard : bool) (first : option Layer.t) : Js.val :=
  match first with
  | None => Js.Null
  | Some first =>
      if Layer.isBackground first then Js.Bool false
      else match Layer.bounds first with
           | None => Js.Null
           | Some bounds =>
               if negb (Bounds.area bounds =? 0) then Js.Bool false
               else Js.Bool (hasArtboard && Layer.selected first)
           end
  end.

(** The body of [if (!replace) { ... }]: the default replacement logic. *)
Definition defaultReplace (document : Document.t) (layerIDs : list Z) : Js.val :=
  let layers := Document.layers document in
  let replace :=
    (length layerIDs =? 1)%nat &&
    (if LayerStructure.hasArtboard layers
     then (length (LayerStructure.all layers) =? 3)%nat
     else (length (LayerStructure.all layers) =? 1)%nat) in
  if replace then
    let first :=
      if LayerStructure.hasArtboard layers
      then LayerStructure.byID layers 2
      else head (LayerStructure.all layers) in
    replaceableLayer (LayerStructure.hasArtboard layers) first
  else Js.Bool false.

(** [replace] after [if (!replace) { replace = ...; }]. *)
Definition replaceOrDefault (document : Document.t) (layerIDs : list Z)
    (replace : Js.val) : Js.val :=
  if negb (Js.truthy replace) then defaultReplace document layerIDs else replace.

(** [selected] is [None] when the argument is [undefined]; [replace] is
    the argument as passed ([Js.Undefined] when omitted). The last [then]
    callback has no [return]: the promise resolves with [undefined]. *)
Definition addLayersCommand (h : host) (document : Document.t) (spec : layerSpec)
    (selected : option bool) (replace : Js.val) : command Js.val :=
  let layerSpec := layerIDsOf spec in
  let selected := default true selected in
  let replace := replaceOrDefault document layerSpec replace in
  let layerRefs :=
    map (fun layerID => [DocumentById (Document.id document); LayerById layerID])
        layerSpec in
  let* descriptors := _getLayersByRef h layerRefs in
  let* _ := dispatch (ADD_LAYERS (Document.id document) layerSpec descriptors
                                 selected replace) in
  Promise.resolve Js.Undefined.

(** The [replace] field of every [ADD_LAYERS] payload among the effects. *)
Definition replaceFlags (effects : list effect) : list Js.val :=
  omap (fun e => match e with
                 | Dispatch (ADD_LAYERS _ _ _ _ replace) => Some replace
                 | _ => None
                 end) effects.

(** The references of every property request among the effects, in order. *)
Definition requestedReferences (effects : list effect) : list reference :=
  flat_map (fun e => match e with
                     | Request (BatchGetProperties refObjs _) => map reference_of refObjs
                     | _ => []
                     end) effects.

(** The host requests among the effects. *)
Definition requests (effects : list effect) : list request :=
  omap (fun e => match e with Request r => Some r | Dispatch _ => None end) effects.

(** The dispatched payloads among the effects. *)
Definition dispatched (effects : list effect) : list payload :=
  omap (fun e => match e with Dispatch p => Some p | Request _ => None end) effects.

(** *** [resetLayersByIndex] *)

(** [layerIndexes]: an iterable of indexes or one index. *)
Inductive indexSpec : Type :=
| OneIndex (idx : Z)
| Indexes (indexList : list Z).

Definition indexListOf (spec : indexSpec) : list Z :=
  match spec with
  | OneIndex idx => [idx]
  | Indexes indexList => indexList
  end.

(** [document.hasBackgroundLayer ? (idx - 1) : idx] *)
Definition adjustIndex (document : Document.t) (idx : Z) : Z :=
  if Document.hasBackgroundLayer document then idx - 1 else idx.

Definition layerRefsByIndex (document : Document.t) (indexList : list Z)
    : list reference :=
  map (fun idx =>
         let index := adjustIndex document idx in
         [DocumentById (Document.id document); LayerByIndex index])
      indexList.

Definition resetLayersByIndexCommand (h : host) (document : Document.t)
    (layerIndexes : indexSpec) : command Js.val :=
  let indexList := indexListOf layerIndexes in
  let layerRefs := layerRefsByIndex document indexList in
  let* descriptors := _getLayersByRef h layerRefs in
  let* _ := dispatch (RESET_LAYERS_BY_INDEX (Document.id document) descriptors) in
  Promise.resolve Js.Undefined.

(** *** [_getLayerIDsForDocument] *)

(** The host's document descriptor, as far as it is read here. *)
Record documentDescriptor : Type := DocumentDescriptor {
  documentID : Z;
  numberOfLayers : Z;
  doc_hasBackgroundLayer : bool
}.

(** [_.range(start, end, -1)]: [start], [start - 1], ... down to [end]
    excluded; empty when [start <= end]. *)
Definition rangeDown (start end_ : Z) : list Z :=
  map (fun k => start - Z.of_nat k) (seq 0 (Z.to_nat (start - end_))).

Definition layerIndicesForDocument (doc : documentDescriptor) : list Z :=
  let layerCount := numberOfLayers doc in
  let startIndex := if doc_hasBackgroundLayer doc then 0 else 1 in
  rangeDown layerCount (startIndex - 1).

Definition _getLayerIDsForDocument (h : host) (doc : documentDescriptor)
    : command (list Js.val) :=
  let layerRefs :=
    map (fun i => [DocumentById (documentID doc); LayerByIndex i])
        (layerIndicesForDocument doc) in
  ask (BatchGetProperty layerRefs "layerID") (batchGetProperty h layerRefs "layerID").

(** *** [select], [deselectAll], [selectAll] *)

(** The [document] argument of a command that falls back to the current
    document when it is [undefined]. *)
Inductive documentArg : Type :=
| NoArgument
| NullDocument
| Given (document : Document.t).

(** [if (document === undefined) { document = getCurrentDocument(); }];
    the store answers [null] when there is no current document. *)
Definition documentOrCurrent (current : option Document.t) (arg : documentArg)
    : option Document.t :=
  match arg with
  | NoArgument => current
  | NullDocument => None
  | Given document => Some document
  end.

(** [!modifier || modifier === "select"] *)
Definition plainSelect (modifier : option string) : bool :=
  match modifier with
  | None => true
  | Some m => String.eqb m "" || String.eqb m "select"
  end.

(** The nested [getProperty] promise of the [then] callback is started but
    not returned; its effects still happen after the select is played. *)
Definition selectLayerCommand (h : host) (document : Document.t)
    (layerSpec : list Layer.t) (modifier : option string) : command Js.val :=
  if Document.unsupported document then Promise.resolve Js.Undefined
  else
    let documentID := Document.id document in
    let dispatchPromise :=
      if plainSelect modifier
      then dispatch (SELECT_LAYERS_BY_ID documentID (map Layer.id layerSpec))
      else Promise.resolve () in
    let layerRef :=
      DocumentById documentID :: map (fun layer => LayerById (Layer.id layer)) layerSpec in
    let selectObj := SelectObj layerRef false modifier in
    let selectPromise :=
      let* _ := ask (PlayObject selectObj) (play h selectObj) in
      if plainSelect modifier then Promise.resolve ()
      else
        let nested :=
          let* indices := ask (GetProperty (DocumentById documentID) "targetLayers")
                              (targetLayers h documentID) in
          dispatch (SELECT_LAYERS_BY_INDEX documentID indices) in
        Promise.Run (Promise.effects nested) (Promise.Resolved ()) in
    Promise.join dispatchPromise selectPromise (fun _ _ => Js.Undefined).

(** [document.layers.all.size === 1 && document.layers.all.first().isBackground] *)
Definition isFlat (document : Document.t) : bool :=
  match LayerStructure.all (Document.layers document) with
  | [first] => Layer.isBackground first
  | _ => false
  end.

Definition deselectAllLayersCommand (h : host) (current : option Document.t)
    (arg : documentArg) : command Js.val :=
  match documentOrCurrent current arg with
  | None => Promise.resolve Js.Undefined
  | Some document =>
      if Document.unsupported document || isFlat document
      then Promise.resolve Js.Undefined
      else
        let deselectPromise := ask (PlayObject DeselectAllObj) (play h DeselectAllObj) in
        let dispatchPromise := dispatch (SELECT_LAYERS_BY_ID (Document.id document) []) in
        (* effects in the order they are started: the play, then the dispatch *)
        Promise.join deselectPromise dispatchPromise (fun _ _ => Js.Undefined)
  end.

Definition selectAllLayersCommand (h : host) (current : option Document.t)
    (arg : documentArg) : command Js.val :=
  match documentOrCurrent current arg with
  | None => Promise.resolve Js.Undefined
  | Some document =>
      if Document.unsupported document
         || bool_decide (LayerStructure.all (Document.layers document) = [])
      then Promise.resolve Js.Undefined
      else selectLayerCommand h document
             (LayerStructure.all (Document.layers document)) None
  end.

(** *** [groupSelected] *)

(** [selectedLayers.some(function (layer) { return
    document.layers.maxDescendantDepth(layer) > PS_MAX_NEST_DEPTH; })] *)
Definition nestingLimitExceeded (document : Document.t) : bool :=
  existsb
    (fun layer =>
       PS_MAX_NEST_DEPTH <? LayerStructure.maxDescendantDepth (Document.layers document) layer)
    (LayerStructure.selected (Document.layers document)).

Definition groupSelectedLayersCommand (h : host) (document : Document.t)
    : command Js.val :=
  let selectedLayers := LayerStructure.selected (Document.layers document) in
  if (length selectedLayers =? 0)%nat then Promise.resolve Js.Undefined
  else if nestingLimitExceeded document then Promise.resolve Js.Undefined
  else
    let* groupResult := ask (PlayObject GroupSelectedObj) (play h GroupSelectedObj) in
    let* _ := dispatch (GROUP_SELECTED (Document.id document)
                          (Js.get groupResult "layerSectionStart")
                          (Js.get groupResult "layerSectionEnd")
                          (Js.get groupResult "name")) in
    Promise.resolve Js.Undefined.

End Layers.

(** ** Menu items ([js/models/menuitem]) *)

Module MenuItem.

(** [rawMenu.shortcut.modifiers]: the modifier keys of a shortcut. *)
Record modifiers : Type := Modifiers {
  shift : bool;
  control : bool;
  alt : bool;
  command_key : bool
}.

(** [{}] *)
Definition noModifiers : modifiers := Modifiers false false false false.

(** [rawMenu.shortcut]; a field is [None] when the descriptor leaves it
    [undefined]. *)
Record rawShortcut : Type := RawShortcut {
  keyChar : option string;
  keyCode : option string;
  raw_modifiers : option modifiers
}.

(** A raw menu descriptor. [raw_separator] and [raw_debug] are the
    truthiness of [rawMenu.separator] and [rawMenu.debug]; an optional field
    is [Some] exactly when [rawMenu.hasOwnProperty] says so. *)
Inductive rawMenu : Type :=
  RawMenu (raw_separator : bool) (raw_id : option string)
          (raw_enabled : option bool) (raw_submenu : option (list rawMenu))
          (raw_commandKind : option string) (raw_shortcut : option rawShortcut)
          (raw_debug : bool).

Definition raw_debug (m : rawMenu) : bool :=
  match m with RawMenu _ _ _ _ _ _ debug => debug end.

(** [new MenuShortcut(rawShortcut)] *)
Record MenuShortcut : Type := MakeShortcut {
  sc_modifiers : Z;
  sc_keyChar : option string;
  sc_keyCode : option Z
}.

(** The [MenuItem] record, with its defaults. *)
Inductive t : Type :=
  Make (type : option string) (id itemID : option string) (label : Js.val)
       (submenu : option (list t)) (command : option string)
       (commandKind : Js.val) (shortcut : option MenuShortcut)
       (enabled : bool) (checked : bool).

(** [new MenuItem({ type: "separator" })] *)
Definition separatorItem : t :=
  Make (Some "separator"%string) None None Js.Null None None Js.Null None true false.

(** What [fromDescriptor] reads from other modules: the [__PG_DEBUG__]
    global, [os.eventKeyCode], [UI.commandKind], [nls.localize] and
    [keyutil.modifiersToBits]. *)
Record env : Type := Env {
  PG_DEBUG : bool;
  eventKeyCode : gmap string Z;
  commandKindOf : string -> Js.val;
  localize : string -> Js.val;
  modifiersToBits : modifiers -> Z
}.

(** [Object.<string, Object.<number, boolean>>] *)
Abbreviation shortcutTable := (gmap string (gmap Z bool)).

(** A value or a thrown [Error] with its message. *)
Inductive thrown (A : Type) : Type :=
| Returns (a : A)
| Throws (message : string).
Arguments Returns {A} a.
Arguments Throws {A} message.

Definition _getLabelForEntry (e : env) (id : string) : Js.val :=
  localize e ("menu." ++ id)%string.

Definition _getLabelForSubmenu (e : env) (id : string) : thrown Js.val :=
  let labels := _getLabelForEntry e id in
  match labels with
  | Js.Undefined | Js.Null => Throws "TypeError"
  | _ =>
      if negb (Js.hasOwnProperty labels "$MENU")
      then Throws ("Missing label for menu: " ++ id)
      else Returns (Js.get labels "$MENU")
  end.

(** Truthiness of a string-valued field that may be [undefined]. *)
Definition given (field : option string) : bool :=
  match field with
  | Some s => negb (String.eqb s "")
  | None => false
  end.

(** The body of [if (rawMenu.hasOwnProperty("shortcut")) { ... }]. The
    table is a shared mutable object: what was written to it before a
    [throw] stays written. *)
Definition processShortcut (e : env) (raw : rawShortcut) (table : shortcutTable)
    : shortcutTable * thrown MenuShortcut :=
  let rawKeyChar := keyChar raw in
  let rawKeyCode := keyCode raw in
  let rawModifiers := default noModifiers (raw_modifiers raw) in
  let rawModifierBits := modifiersToBits e rawModifiers in
  if given rawKeyChar && given rawKeyCode
  then (table, Throws "Menu entry specifies both key char and code")
  else
    let key : thrown (string * MenuShortcut) :=
      if given rawKeyChar then
        let c := default ""%string rawKeyChar in
        Returns (("char-" ++ c)%string, MakeShortcut rawModifierBits (Some c) None)
      else if given rawKeyCode then
        let c := default ""%string rawKeyCode in
        match eventKeyCode e !! c with
        | None => Throws ("Menu entry specifies unknown key code: " ++ c)
        | Some code =>
            Returns (("code-" ++ c)%string, MakeShortcut rawModifierBits None (Some code))
        end
      else Throws "Menu entry does not specify a key for its shortcut" in
    match key with
    | Throws message => (table, Throws message)
    | Returns (shortcutTableKey, rawShortcut) =>
        let table :=
          match table !! shortcutTableKey with
          | Some _ => table
          | None => <[shortcutTableKey := ∅]> table
          end in
        let entry := default ∅ (table !! shortcutTableKey) in
        if default false (entry !! rawModifierBits)
        then (table, Throws ("Menu entry shortcut duplicate: " ++ shortcutTableKey))
        else (<[shortcutTableKey := <[rawModifierBits := true]> entry]> table,
              Returns rawShortcut)
    end.

(** [MenuItem.fromDescriptor(rawMenu, prefix, shortcutTable)]. The inner
    fixpoint is [rawSubMenu.filter(...).map(...)]: entries are processed in
    order against the one shared table, debug-only entries are skipped
    unless [__PG_DEBUG__], and the first [throw] ends the whole call. *)
Fixpoint fromDescriptorWith (e : env) (rawMenu : rawMenu) (prefix : option string)
    (table : shortcutTable) {struct rawMenu} : shortcutTable * thrown t :=
  match rawMenu with
  | RawMenu raw_separator raw_id raw_enabled raw_submenu raw_commandKind
            raw_shortcut _ =>
      if raw_separator then (table, Returns separatorItem)
      else
        match raw_id with
        | None => (table, Throws "Missing menu id")
        | Some rawID =>
            let id := match prefix with
                      | None => rawID
                      | Some prefix => (prefix ++ "." ++ rawID)%string
                      end in
            let enabled := default true raw_enabled in
            let body : shortcutTable * thrown (Js.val * option (list t) * option string) :=
              match raw_submenu with
              | Some rawSubMenu =>
                  match _getLabelForSubmenu e id with
                  | Throws message => (table, Throws message)
                  | Returns label =>
                      let fix each (entries : list MenuItem.rawMenu) (table : shortcutTable)
                          : shortcutTable * thrown (list t) :=
                        match entries with
                        | [] => (table, Returns [])
                        | subMenu :: rest =>
                            if negb (PG_DEBUG e) && raw_debug subMenu
                            then each rest table
                            else
                              match fromDescriptorWith e subMenu (Some id) table with
                              | (table, Throws message) => (table, Throws message)
                              | (table, Returns item) =>
                                  match each rest table with
                                  | (table, Throws message) => (table, Throws message)
                                  | (table, Returns items) => (table, Returns (item :: items))
                                  end
                              end
                        end in
                      match each rawSubMenu table with
                      | (table, Throws message) => (table, Throws message)
                      | (table, Returns items) => (table, Returns (label, Some items, None))
                      end
                  end
              | None => (table, Returns (_getLabelForEntry e id, None, Some id))
              end in
            match body with
            | (table, Throws message) => (table, Throws message)
            | (table, Returns (label, submenu, command)) =>
                let commandKind :=
                  match raw_commandKind with
                  | Some kind => commandKindOf e kind
                  | None => Js.Null
                  end in
                match raw_shortcut with
                | None =>
                    (table, Returns (Make None (Some id) (Some rawID) label submenu command
                                          commandKind None enabled false))
                | Some raw =>
                    match processShortcut e raw table with
                    | (table, Throws message) => (table, Throws message)
                    | (table, Returns shortcut) =>
                        (table, Returns (Make None (Some id) (Some rawID) label submenu
                                              command commandKind (Some shortcut)
                                              enabled false))
                    end
                end
            end
        end
  end.

(** [if (shortcutTable === undefined) { shortcutTable = {}; }] *)
Definition fromDescriptor (e : env) (rawMenu : rawMenu) (prefix : option string)
    (table : option shortcutTable) : shortcutTable * thrown t :=
  fromDescriptorWith e rawMenu prefix (default ∅ table).

End MenuItem.

(** ** The type tool ([js/actions/tool/type]) *)

Module TypeTool.

(** *** The adapter's event emitter *)

(** A listener is a function object. Every [select] builds fresh closures,
    so each gets an identity of its own; [Foreign] listeners belong to
    other modules. *)
Inductive handler : Type :=
| Own (closure : nat)
| Foreign (closure : nat).

#[global] Instance handler_eq_dec : EqDecision handler.
Proof. solve_decision. Defined.

(** The emitter's listeners, oldest first: event name and function. *)
Abbreviation registry := (list (string * handler)).

(** [descriptor.addListener(name, listener)] *)
Definition addListener (name : string) (listener : handler) (r : registry) : registry :=
  r ++ [(name, listener)].

Fixpoint removeFirst (name : string) (listener : handler) (r : registry) : registry :=
  match r with
  | [] => []
  | entry :: rest =>
      if decide (entry = (name, listener)) then rest
      else entry :: removeFirst name listener rest
  end.

(** [descriptor.removeListener(name, listener)]: drops the most recently
    added registration of that function for that event, if there is one. *)
Definition removeListener (name : string) (listener : handler) (r : registry) : registry :=
  rev (removeFirst name listener (rev r)).

(** [removeListener] with the module variable as it is: [null] and
    [undefined] are no function, nothing is registered under them. *)
Definition removeListenerVar (name : string) (listener : option handler) (r : registry)
    : registry :=
  match listener with
  | Some listener => removeListener name listener r
  | None => r
  end.

(** *** Events, stores and effects *)

Record createTextLayerEvent : Type := CreateEvent {
  created_layerID : Z;
  currentTextStyle : Js.val
}.

Record deleteTextLayerEvent : Type := DeleteEvent {
  deleted_layerID : Z
}.

(** [event.kind._value], [event.tool.ID], [event.state._value],
    [event.reason._value] *)
Record toolModalStateChangedEvent : Type := ModalEvent {
  kind : string;
  toolID : string;
  modal_state : string;
  reason : string
}.

Inductive hostEvent : Type :=
| updateTextProperties (event : Js.val)
| createTextLayer (event : createTextLayerEvent)
| deleteTextLayer (event : deleteTextLayerEvent)
| toolModalStateChanged (event : toolModalStateChangedEvent).

Definition eventName (e : hostEvent) : string :=
  match e with
  | updateTextProperties _ => "updateTextProperties"
  | createTextLayer _ => "createTextLayer"
  | deleteTextLayer _ => "deleteTextLayer"
  | toolModalStateChanged _ => "toolModalStateChanged"
  end.

(** The text properties built by [_getPropertiesFromEvent]. *)
Record textProperties : Type := TextProperties {
  textSize : Js.val;
  postScriptName : Js.val;
  color : Js.val;
  tracking : Js.val;
  alignment : Js.val;
  leading : Js.val
}.

(** What the handlers read while an event is handled: the application
    store's current document, the document store, the host's answers to the
    layer queries, whether the two host calls of [select] and [deselect]
    succeed, and [Color.fromPhotoshopColorObj]. *)
Record world : Type := World {
  getCurrentDocument : option Document.t;
  getDocument : Z -> option Document.t;
  layersHost : Layers.host;
  setSuppressTargetPathsOk : bool;
  resetTypeToolOk : bool;
  fromPhotoshopColorObj : Js.val -> Z -> Js.val
}.

(** The argument given to [layers.resetLayers]: one layer or a collection. *)
Inductive layersArg : Type :=
| OneLayer (layer : Layer.t)
| LayerList (layers : list Layer.t).

Inductive effect : Type :=
| LogError (message : string)
| LogWarn (message : string)
| SetSuppressTargetPaths (suppress : bool)
| PlayResetTypeTool
| OfLayers (e : Layers.effect)
| UpdateTextPropertiesHandlerThrottled (event : Js.val)
| UpdatePropertiesThrottled (document : Document.t) (layers : list (option Layer.t))
    (properties : textProperties)
| ResetLayers (document : Document.t) (layers : layersArg)
| RemoveLayers (document : Document.t) (layer : Layer.t) (flag : bool)
| UpdateDocument.

(** The module's variables together with the emitter they act on. *)
Record state : Type := State {
  _typeChangedHandler : option handler;
  _layerCreatedHandler : option handler;
  _layerDeletedHandler : option handler;
  _toolModalStateChangedHandler : option handler;
  _layersReplaced : Js.val;
  _layerDeleted : Js.val;
  firstLaunch : bool;
  listeners : registry;
  (** the identity the next closure gets *)
  nextClosure : nat
}.

(** The module as loaded, on an emitter that already holds the listeners
    of other modules. *)
Definition initial (others : list (string * nat)) : state :=
  State None None None None (Js.Bool false) Js.Null true
        (map (fun '(name, n) => (name, Foreign n)) others) 0.

Definition hasOwn (style : Js.val) (name : string) : Js.val :=
  if Js.hasOwnProperty style name then Js.get style name else Js.Null.

Definition _getPropertiesFromEvent (w : world) (event : createTextLayerEvent)
    : option textProperties :=
  let style := currentTextStyle event in
  if negb (Js.truthy style) then None
  else Some {|
    textSize := hasOwn style "size";
    postScriptName := hasOwn style "fontName";
    color := if Js.hasOwnProperty style "color"
             then fromPhotoshopColorObj w (Js.get style "color") 100
             else Js.Null;
    tracking := hasOwn style "tracking";
    alignment := if Js.hasOwnProperty style "align"
                 then Js.get (Js.get style "align") "_value"
                 else Js.Null;
    leading := if Js.truthy (Js.get style "autoLeading") then Js.Num (-1)
               else hasOwn style "leading"
  |}.

(** *** The actions *)

(** [this.transfer(action, ...)]: the transferred action is recorded as an
    effect; its own settlement lies with that action. *)
Definition transfer (e : effect) : Promise.run effect Js.val :=
  Promise.Run [e] (Promise.Resolved Js.Undefined).

Definition handleDeletedLayer (w : world) (event : deleteTextLayerEvent)
    (layersReplaced : Js.val) : Promise.run effect Js.val :=
  match getCurrentDocument w with
  | None => Promise.reject "Unexpected deleteTextLayer event: no active document"
  | Some document =>
      if Js.truthy layersReplaced then transfer UpdateDocument
      else
        let layerID := deleted_layerID event in
        match LayerStructure.byID (Document.layers document) layerID with
        | None =>
            let* _ := Promise.perform
              (LogWarn "Unable to handle deleted text layer because it does not exist") in
            transfer UpdateDocument
        | Some layer => transfer (RemoveLayers document layer true)
        end
  end.

Definition handleTypeModalStateCanceled (w : world) : Promise.run effect Js.val :=
  match getCurrentDocument w with
  | None => Promise.reject "Unexpected toolModalStateChanged event: no active document"
  | Some document =>
      transfer (ResetLayers document
                  (LayerList (LayerStructure.selected (Document.layers document))))
  end.

(** *** The listeners installed by [select] *)

Definition set_layersReplaced (v : Js.val) (s : state) : state :=
  State (_typeChangedHandler s) (_layerCreatedHandler s) (_layerDeletedHandler s)
        (_toolModalStateChangedHandler s) v (_layerDeleted s) (firstLaunch s)
        (listeners s) (nextClosure s).

Definition set_layerDeleted (v : Js.val) (s : state) : state :=
  State (_typeChangedHandler s) (_layerCreatedHandler s) (_layerDeletedHandler s)
        (_toolModalStateChangedHandler s) (_layersReplaced s) v (firstLaunch s)
        (listeners s) (nextClosure s).

(** The [createTextLayer] listener, run until the promise of [addLayers]
    has settled. The [layers.addLayers] action resolves with what its
    command resolves with. *)
Definition layerCreated (w : world) (event : createTextLayerEvent) (s : state)
    : state * list effect :=
  match getCurrentDocument w with
  | None => (s, [LogError "Unexpected createTextLayer event: no active document"])
  | Some document =>
      let layerID := created_layerID event in
      match LayerStructure.byID (Document.layers document) layerID with
      | Some currentLayer =>
          (s, [LogWarn "Unexpected createTextLayer event for layer";
               ResetLayers document (OneLayer currentLayer)])
      | None =>
          let s := set_layersReplaced (Js.Bool false) s in
          let added := Layers.addLayersCommand (layersHost w) document
                         (Layers.OneID layerID) (Some true) Js.Undefined in
          let effects := map OfLayers (Promise.effects added) in
          match Promise.outcome added with
          | Promise.Rejected _ => (s, effects)
          | Promise.Resolved layersReplaced =>
              let s := set_layersReplaced layersReplaced s in
              match _getPropertiesFromEvent w event with
              | None => (s, effects)
              | Some properties =>
                  match getDocument w (Document.id document) with
                  | None => (s, effects)
                  | Some nextDocument =>
                      let layer := LayerStructure.byID (Document.layers nextDocument) layerID in
                      (s, effects ++ [UpdatePropertiesThrottled document [layer] properties])
                  end
              end
          end
      end
  end.

(** The [deleteTextLayer] listener. *)
Definition layerDeleted (w : world) (event : deleteTextLayerEvent) (s : state)
    : state * list effect :=
  let s := set_layerDeleted (Js.Num (deleted_layerID event)) s in
  (s, Promise.effects (handleDeletedLayer w event (_layersReplaced s))).

(** [event.kind._value === "tool" && event.tool.ID === "txBx" &&
    event.state._value === "exit" && event.reason._value === "cancel"] *)
Definition isTypeCancel (event : toolModalStateChangedEvent) : bool :=
  String.eqb (kind event) "tool" && String.eqb (toolID event) "txBx" &&
  String.eqb (modal_state event) "exit" && String.eqb (reason event) "cancel".

(** The [toolModalStateChanged] listener. *)
Definition toolModalStateChangedHandler (w : world) (event : toolModalStateChangedEvent)
    (s : state) : state * list effect :=
  if isTypeCancel event then
    if Js.truthy (_layerDeleted s) then (set_layerDeleted Js.Null s, [])
    else (s, Promise.effects (handleTypeModalStateCanceled w))
  else (s, []).

(** What one of this module's listeners does with an event. *)
Definition listener (w : world) (e : hostEvent) (s : state) : state * list effect :=
  match e with
  | updateTextProperties event => (s, [UpdateTextPropertiesHandlerThrottled event])
  | createTextLayer event => layerCreated w event s
  | deleteTextLayer event => layerDeleted w event s
  | toolModalStateChanged event => toolModalStateChangedHandler w event s
  end.

(** This module's listeners registered for an event, oldest first. *)
Definition installed (name : string) (r : registry) : list nat :=
  omap (fun entry =>
          match entry with
          | (n, Own closure) => if String.eqb n name then Some closure else None
          | (_, Foreign _) => None
          end) r.

(** The host emits an event: each registration of this module's listeners
    for it runs once, in order. *)
Definition emit (w : world) (e : hostEvent) (s : state) : state * list effect :=
  fold_left
    (fun acc _ => let '(s, effects) := acc in
                  let '(s, more) := listener w e s in
                  (s, effects ++ more))
    (installed (eventName e) (listeners s)) (s, []).

(** *** [select] and [deselect] *)

Definition select (w : world) (s : state) : state * Promise.run effect Js.val :=
  (* If this is set, means we didn't get to deselect the tool last time *)
  let r := listeners s in
  let r := removeListenerVar "updateTextProperties" (_typeChangedHandler s) r in
  let r := removeListenerVar "createTextLayer" (_layerCreatedHandler s) r in
  let r := removeListenerVar "deleteTextLayer" (_layerDeletedHandler s) r in
  let r := removeListenerVar "toolModalStateChanged" (_toolModalStateChangedHandler s) r in
  let n := nextClosure s in
  let typeChanged := Own n in
  let r := addListener "updateTextProperties" typeChanged r in
  let layerCreatedHandler := Own (n + 1) in
  let r := addListener "createTextLayer" layerCreatedHandler r in
  let layerDeletedHandler := Own (n + 2) in
  let r := addListener "deleteTextLayer" layerDeletedHandler r in
  let modalHandler := Own (n + 3) in
  let r := addListener "toolModalStateChanged" modalHandler r in
  let next first :=
    State (Some typeChanged) (Some layerCreatedHandler) (Some layerDeletedHandler)
          (Some modalHandler) (_layersReplaced s) (_layerDeleted s) first r (n + 4) in
  if setSuppressTargetPathsOk w then
    if firstLaunch s then
      (next false,
       Promise.Run [SetSuppressTargetPaths true; PlayResetTypeTool]
         (if resetTypeToolOk w then Promise.Resolved Js.Undefined
          else Promise.Rejected "host request failed"))
    else (next (firstLaunch s),
          Promise.Run [SetSuppressTargetPaths true] (Promise.Resolved Js.Undefined))
  else (next (firstLaunch s),
        Promise.Run [SetSuppressTargetPaths true] (Promise.Rejected "host request failed")).

Definition deselect (w : world) (s : state) : state * Promise.run effect Js.val :=
  let r := listeners s in
  let r := removeListenerVar "updateTextProperties" (_typeChangedHandler s) r in
  let r := removeListenerVar "createTextLayer" (_layerCreatedHandler s) r in
  let r := removeListenerVar "deleteTextLayer" (_layerDeletedHandler s) r in
  let r := removeListenerVar "toolModalStateChanged" (_toolModalStateChangedHandler s) r in
  (State None None None None (_layersReplaced s) (_layerDeleted s) (firstLaunch s)
         r (nextClosure s),
   Promise.Run [SetSuppressTargetPaths false]
     (if setSuppressTargetPathsOk w then Promise.Resolved Js.Undefined
      else Promise.Rejected "host request failed")).

(** *** Sessions *)

(** What can happen to the module, one thing at a time. *)
Inductive input : Type :=
| Select
| Deselect
| Emit (e : hostEvent).

Definition step (w : world) (i : input) (s : state) : state * list effect :=
  match i with
  | Select => let '(s, p) := select w s in (s, Promise.effects p)
  | Deselect => let '(s, p) := deselect w s in (s, Promise.effects p)
  | Emit e => emit w e s
  end.

(** A session: each input comes with the world as it is at that moment. *)
Fixpoint run (inputs : list (world * input)) (s : state) : state * list effect :=
  match inputs with
  | [] => (s, [])
  | (w, i) :: rest =>
      let '(s, effects) := step w i s in
      let '(s, more) := run rest s in
      (s, effects ++ more)
  end.

End TypeTool.

(** ** Fixtures: a host that answers every request, and small documents *)

Module Fixtures.
Import Layers.


Definition answeringHost : host :=
  Host (fun refObjs => Some (map (fun r => Js.Str (property r)) refObjs))
       (fun refObjs => Some (map (fun _ => Js.Undefined) refObjs))
       (fun refs _ => Some (map (fun _ => Js.Num 1) refs))
       (fun _ => Some (Js.Obj []))
       (fun _ => Some []).

Definition emptyLayer (id : Z) (selected : bool) : Layer.t :=
  Layer.Make id false (Some (Bounds.Make 0)) selected.

Definition structureOf (all : list Layer.t) (hasArtboard : bool) (depth : Z)
    : LayerStructure.t :=
  LayerStructure.Make all hasArtboard
    (fun id => find (fun layer => Layer.id layer =? id) all)
    (filter (fun layer => Layer.selected layer = true) all)
    (fun _ => depth).

(** One zero-area, non-background, unselected layer; no artboard. *)
Definition placeholderDocument : Document.t :=
  Document.Make 1 (structureOf [emptyLayer 5 false] false 0) false false.

(** An artboard document in its initial state: the artboard group (IDs 1
    and 3) around the selected, empty layer 2. *)
Definition artboardDocument : Document.t :=
  Document.Make 1
    (structureOf [Layer.Make 1 false (Some (Bounds.Make 100)) false;
                  emptyLayer 2 true;
                  Layer.Make 3 false None false] true 1)
    false false.

(** A host whose optional answers carry a text key for layer 6 only. *)
Definition textHost : host :=
  Host (fun refObjs => Some (map (fun r => Js.Str (property r)) refObjs))
       (fun refObjs =>
          Some (map (fun r =>
                       match reference_of r, property r with
                       | [_; LayerById 6], "textKey"%string =>
                           Js.Obj [("textKey"%string, Js.Str "T")]
                       | [_; LayerById 6], "artboard"%string => Js.Null
                       | _, _ => Js.Undefined
                       end) refObjs))
       (fun refs _ => Some (map (fun _ => Js.Num 1) refs))
       (fun _ => Some (Js.Obj []))
       (fun _ => Some []).

Definition twoReferences : list reference :=
  [[DocumentById 1; LayerById 5]; [DocumentById 1; LayerById 6]].

(** A document without a background layer and one with it. *)
Definition documentWithoutBackground : Document.t :=
  Document.Make 7 (structureOf [emptyLayer 5 false] false 0) false false.

Definition backgroundLayer : Layer.t :=
  Layer.Make 1 true (Some (Bounds.Make 100)) false.

(** A flat document: nothing but the background layer. *)
Definition flatDocument : Document.t :=
  Document.Make 7 (structureOf [backgroundLayer] false 0) true false.

(** A document without layers. *)
Definition emptyDocument : Document.t :=
  Document.Make 8 (structureOf [] false 0) false false.

(** One selected layer whose subtree is already ten levels deep. *)
Definition deepDocument : Document.t :=
  Document.Make 9 (structureOf [emptyLayer 4 true] false 10) false false.

End Fixtures.

(** ** The grouping done by the two callbacks of [_getLayersByRef]

  Both [reduce] callbacks walk a flat list of values, [length props] values
  per reference; [val] says what, if anything, is stored for a value. *)

Module Grouping.
Import Layers.

(** What the callback stores for the value at property index [p]. *)
Definition put (props : list string) (val : string -> Js.val -> option Js.val)
    (p : nat) (value : Js.val) (result : Js.object) : Js.object :=
  match props !! p with
  | Some property =>
      match val property value with
      | Some x => <[property := x]> result
      | None => result
      end
  | None => result
  end.

(** The common shape of [collectProperty] and [collectOptionalProperty]. *)
Definition collect (props : list string) (val : string -> Js.val -> option Js.val)
    (results : list Js.object) (value : Js.val) (index : nat) : list Js.object :=
  let propertyIndex := (index mod length props)%nat in
  let results := if (propertyIndex =? 0)%nat then results ++ [∅] else results in
  match props !! propertyIndex with
  | Some property =>
      match val property value with
      | Some x => updateLast (fun result => <[property := x]> result) results
      | None => results
      end
  | None => results
  end.

(** The object built from the values of one reference, from property
    index [p] on. *)
Fixpoint fill (props : list string) (val : string -> Js.val -> option Js.val)
    (p : nat) (result : Js.object) (chunk : list Js.val) : Js.object :=
  match chunk with
  | [] => result
  | value :: rest => fill props val (S p) (put props val p value result) rest
  end.

(** The first [n] runs of [k] values. *)
Fixpoint chunks (k n : nat) (values : list Js.val) : list (list Js.val) :=
  match n with
  | O => []
  | S n => take k values :: chunks k n (drop k values)
  end.

(** A required value is stored as it is. *)
Definition required (property : string) (value : Js.val) : option Js.val := Some value.

(** An optional value is stored when [value && value.hasOwnProperty(property)]. *)
Definition optional (property : string) (value : Js.val) : option Js.val :=
  if Js.truthy value && Js.hasOwnProperty value property
  then Some (Js.get value property) else None.

End Grouping.

(** ** [MenuItem.fromDescriptor]: its sub-menu loop on its own, and the
  validation errors as the specification lists them *)

Module MenuItemSpec.
Import MenuItem.

(** [rawSubMenu.filter(...).map(function (rawSubMenu) { return
    MenuItem.fromDescriptor(rawSubMenu, id, shortcutTable); })], the loop
    inside [fromDescriptorWith], as a function of its own. *)
Fixpoint fromDescriptors (e : env) (entries : list rawMenu) (id : string)
    (table : shortcutTable) : shortcutTable * thrown (list t) :=
  match entries with
  | [] => (table, Returns [])
  | subMenu :: rest =>
      if negb (PG_DEBUG e) && raw_debug subMenu
      then fromDescriptors e rest id table
      else
        match fromDescriptorWith e subMenu (Some id) table with
        | (table, Throws message) => (table, Throws message)
        | (table, Returns item) =>
            match fromDescriptors e rest id table with
            | (table, Throws message) => (table, Throws message)
            | (table, Returns items) => (table, Returns (item :: items))
            end
        end
  end.

(** [shortcutTable[key][bits]] is truthy. *)
Definition registered (table : shortcutTable) (key : string) (bits : Z) : bool :=
  default false (default ∅ (table !! key) !! bits).

(** Every registered shortcut of [table] is registered in [table']. *)
Definition grows (table table' : shortcutTable) : Prop :=
  forall key bits, registered table key bits = true -> registered table' key bits = true.

(** Whether a call threw. *)
Definition throws {A : Type} (r : shortcutTable * thrown A) : bool :=
  match snd r with
  | Throws _ => true
  | Returns _ => false
  end.

(** The specification's words for a shortcut: it "specifies both a key
    char and a key code or neither", "names an unknown key code", or
    "already exists in the shortcut table". *)
Definition shortcutError (e : env) (raw : rawShortcut) (table : shortcutTable) : bool :=
  let bits := modifiersToBits e (default noModifiers (raw_modifiers raw)) in
  let char := default ""%string (keyChar raw) in
  let code := default ""%string (keyCode raw) in
  (given (keyChar raw) && given (keyCode raw))
  || (negb (given (keyChar raw)) && negb (given (keyCode raw)))
  || (given (keyCode raw) && bool_decide (eventKeyCode e !! code = None))
  || (given (keyChar raw) && registered table ("char-" ++ char) bits)
  || (given (keyCode raw) && registered table ("code-" ++ code) bits).

(** The specification's list of validation errors for a descriptor: "a
    non-separator descriptor lacks an id", or its shortcut is in error. *)
Definition listedError (e : env) (m : rawMenu) (table : shortcutTable) : bool :=
  match m with
  | RawMenu raw_separator raw_id _ _ _ raw_shortcut _ =>
      negb raw_separator &&
      (bool_decide (raw_id = None) ||
       match raw_shortcut with
       | Some raw => shortcutError e raw table
       | None => false
       end)
  end.

Definition raw_submenu (m : rawMenu) : option (list rawMenu) :=
  match m with RawMenu _ _ _ raw_submenu _ _ _ => raw_submenu end.

(** An environment whose localized labels are plain strings, and a
    sub-menu descriptor with an id and no shortcut. *)
Definition plainLabels : env :=
  Env false ∅ (fun _ => Js.Null) (fun _ => Js.Str "File") (fun _ => 0).

Definition fileMenu : rawMenu :=
  RawMenu false (Some "FILE"%string) None (Some []) None None false.

(** An environment that knows the escape key, and leaf descriptors. *)
Definition keys : env :=
  Env false {[ "ESCAPE"%string := 27 ]} (fun _ => Js.Null) (fun _ => Js.Str "Label")
      (fun m => (if shift m then 1 else 0) + (if control m then 2 else 0)
                + (if alt m then 4 else 0) + (if command_key m then 8 else 0)).

Definition newItem : rawMenu :=
  RawMenu false (Some "NEW"%string) None None None
          (Some (RawShortcut (Some "n"%string) None None)) false.

Definition bothKeys : rawMenu :=
  RawMenu false (Some "NEW"%string) None None None
          (Some (RawShortcut (Some "n"%string) (Some "ESCAPE"%string) None)) false.

(** The specification's words for a sub-menu descriptor, given the id it
    gets: its localized label "has no [$MENU] entry", "one of its sub-menu
    entries fails", or its shortcut is in error; the shortcut is looked up
    in the table as the sub-menu entries leave it. *)
Definition submenuError (e : env) (id : string) (entries : list rawMenu)
    (raw_shortcut : option rawShortcut) (table : shortcutTable) : bool :=
  negb (Js.hasOwnProperty (localize e ("menu." ++ id)) "$MENU")
  || throws (fromDescriptors e entries id table)
  || match raw_shortcut with
     | Some raw => shortcutError e raw (fst (fromDescriptors e entries id table))
     | None => false
     end.

(** An environment whose localized labels carry a [$MENU] entry, a
    sub-menu descriptor with one command, and a separator that carries a
    shortcut without key. *)
Definition menuEntries : env :=
  Env false {[ "ESCAPE"%string := 27 ]} (fun _ => Js.Null)
      (fun _ => Js.Obj [("$MENU"%string, Js.Str "Menu")]) (fun _ => 0).

Definition fileWithNew : rawMenu :=
  RawMenu false (Some "FILE"%string) None (Some [newItem]) None None false.

Definition separatorWithShortcut : rawMenu :=
  RawMenu true None None None None (Some (RawShortcut None None None)) false.

End MenuItemSpec.

(** ** The type tool: sessions, and what is observed of them *)

Module TypeToolSpec.
Import TypeTool.

(** The four modal events the type tool listens to. *)
Definition modalEvents : list string :=
  [ "updateTextProperties"; "createTextLayer"; "deleteTextLayer";
    "toolModalStateChanged" ]%string.

(** Exactly one listener of this module is registered for each of them. *)
Definition listening (s : state) : Prop :=
  Forall (fun name => length (installed name (listeners s)) = 1%nat) modalEvents.

(** None of this module's listeners is registered. *)
Definition silent (s : state) : Prop :=
  Forall (fun name => installed name (listeners s) = []) modalEvents.

(** The registrations agree with the module's handler variables. *)
Definition closures (handler : option handler) : list nat :=
  match handler with
  | Some (Own closure) => [closure]
  | _ => []
  end.

Definition consistent (s : state) : Prop :=
  installed "updateTextProperties" (listeners s) = closures (_typeChangedHandler s) /\
  installed "createTextLayer" (listeners s) = closures (_layerCreatedHandler s) /\
  installed "deleteTextLayer" (listeners s) = closures (_layerDeletedHandler s) /\
  installed "toolModalStateChanged" (listeners s)
    = closures (_toolModalStateChangedHandler s).

(** Two states with the same registrations and handler variables. *)
Definition sameListeners (s s' : state) : Prop :=
  listeners s' = listeners s /\
  _typeChangedHandler s' = _typeChangedHandler s /\
  _layerCreatedHandler s' = _layerCreatedHandler s /\
  _layerDeletedHandler s' = _layerDeletedHandler s /\
  _toolModalStateChangedHandler s' = _toolModalStateChangedHandler s.

(** [emit] as a loop over the registered closures. *)
Fixpoint emitLoop (w : world) (e : hostEvent) (registered : list nat)
    (acc : state * list effect) : state * list effect :=
  match registered with
  | [] => acc
  | _ :: rest =>
      emitLoop w e rest
        (let '(s, effects) := acc in
         let '(s, more) := listener w e s in (s, effects ++ more))
  end.

(** An event that neither records a deleted layer nor is a type-tool
    cancel. *)
Definition neutral (e : hostEvent) : Prop :=
  match e with
  | deleteTextLayer _ => False
  | toolModalStateChanged event => isTypeCancel event = false
  | _ => True
  end.

Definition emits (events : list (world * hostEvent)) : list (world * input) :=
  map (fun '(w, e) => (w, Emit e)) events.

(** The actions transferred to or called, among the effects. *)
Definition actions (effects : list effect) : list effect :=
  List.filter (fun e => match e with
                        | ResetLayers _ _ | RemoveLayers _ _ _ | UpdateDocument => true
                        | _ => false
                        end) effects.

(** The [replace] flags of the [ADD_LAYERS] payloads among the effects. *)
Definition replaceFlags (effects : list effect) : list Js.val :=
  Layers.replaceFlags
    (omap (fun e => match e with OfLayers e => Some e | _ => None end) effects).

(** A world around a document. *)
Definition worldOf (document : Document.t) : world :=
  World (Some document) (fun _ => Some document) Fixtures.answeringHost true true
        (fun color _ => color).

Definition textLayer : Layer.t := Layer.Make 10 false (Some (Bounds.Make 600)) true.

(** The artboard document once text layer 10 has taken the place of the
    empty layer 2. *)
Definition artboardDocumentWithText : Document.t :=
  Document.Make 1
    (Fixtures.structureOf [Layer.Make 1 false (Some (Bounds.Make 100)) false;
                           textLayer;
                           Layer.Make 3 false None false] true 1)
    false false.

Definition cancelEvent : toolModalStateChangedEvent :=
  ModalEvent "tool" "txBx" "exit" "cancel".

(** The session of the scenario: the tool is selected, the host creates
    text layer 10 over the placeholder, then deletes it. *)
Definition replacedThenDeleted : list (world * input) :=
  [ (worldOf Fixtures.artboardDocument, Select);
    (worldOf Fixtures.artboardDocument,
     Emit (createTextLayer (CreateEvent 10 Js.Undefined)));
    (worldOf artboardDocumentWithText, Emit (deleteTextLayer (DeleteEvent 10))) ].

End TypeToolSpec.

(** ** Menu items: lookup, update and export ([js/models/menuitem]) *)

Module MenuItemOps.
Import MenuItem.

(** The fields of a [MenuItem]. *)
Definition item_type (m : t) : option string :=
  match m with Make type _ _ _ _ _ _ _ _ _ => type end.
Definition item_id (m : t) : option string :=
  match m with Make _ id _ _ _ _ _ _ _ _ => id end.
Definition item_itemID (m : t) : option string :=
  match m with Make _ _ itemID _ _ _ _ _ _ _ => itemID end.
Definition item_label (m : t) : Js.val :=
  match m with Make _ _ _ label _ _ _ _ _ _ => label end.
Definition item_submenu (m : t) : option (list t) :=
  match m with Make _ _ _ _ submenu _ _ _ _ _ => submenu end.
Definition item_command (m : t) : option string :=
  match m with Make _ _ _ _ _ command _ _ _ _ => command end.
Definition item_commandKind (m : t) : Js.val :=
  match m with Make _ _ _ _ _ _ commandKind _ _ _ => commandKind end.
Definition item_shortcut (m : t) : option MenuShortcut :=
  match m with Make _ _ _ _ _ _ _ shortcut _ _ => shortcut end.
Definition item_enabled (m : t) : bool :=
  match m with Make _ _ _ _ _ _ _ _ enabled _ => enabled end.
Definition item_checked (m : t) : bool :=
  match m with Make _ _ _ _ _ _ _ _ _ checked => checked end.

(** [entry.type === "separator"] *)
Definition isSeparator (entry : t) : bool :=
  match item_type entry with
  | Some type => String.eqb type "separator"
  | None => false
  end.

(** The callback of the [reduce] in [submenuMap]. The keys are item IDs,
    [null] included. *)
Definition indexEntry (map : gmap (option string) nat) (entry : t) (index : nat)
    : gmap (option string) nat :=
  if isSeparator entry then map else <[item_itemID entry := index]> map.

(** The cached [submenuMap]: from item ID to index, separators left out;
    [null] without a sub-menu. *)
Definition submenuMap (m : t) : option (gmap (option string) nat) :=
  match item_submenu m with
  | None => None
  | Some submenu => Some (Js.reduce indexEntry submenu ∅)
  end.

(** [MenuItem.prototype.byID]. Without a sub-menu [this.submenuMap] is
    [null] and the call of [get] on it throws. *)
Definition byID (m : t) (menuID : string) : thrown (option t) :=
  match submenuMap m, item_submenu m with
  | Some map, Some submenu =>
      match map !! Some menuID with
      | None => Returns None
      | Some index => Returns (submenu !! index)
      end
  | _, _ => Throws "TypeError"
  end.

(** The properties given to [merge]: for each field, the new value when
    the object has that key. The items of a sub-menu are not merged in this
    way, they are replaced by [updateSubmenuProps] on their parent. *)
Record props : Type := Props {
  p_type : option (option string);
  p_id : option (option string);
  p_itemID : option (option string);
  p_label : option Js.val;
  p_command : option (option string);
  p_commandKind : option Js.val;
  p_shortcut : option (option MenuShortcut);
  p_enabled : option bool;
  p_checked : option bool
}.

(** [{}] *)
Definition noProps : props := Props None None None None None None None None None.

(** [menuItem.merge(props)] *)
Definition merge (m : t) (p : props) : t :=
  Make (default (item_type m) (p_type p)) (default (item_id m) (p_id p))
       (default (item_itemID m) (p_itemID p)) (default (item_label m) (p_label p))
       (item_submenu m) (default (item_command m) (p_command p))
       (default (item_commandKind m) (p_commandKind p))
       (default (item_shortcut m) (p_shortcut p))
       (default (item_enabled m) (p_enabled p))
       (default (item_checked m) (p_checked p)).

(** [this.set("submenu", submenu)] *)
Definition withSubmenu (m : t) (submenu : option (list t)) : t :=
  Make (item_type m) (item_id m) (item_itemID m) (item_label m) submenu
       (item_command m) (item_commandKind m) (item_shortcut m) (item_enabled m)
       (item_checked m).

(** [MenuItem.prototype.updateSubmenuProps] *)
Definition updateSubmenuProps (m : t) (submenuID : string) (p : props) : thrown t :=
  match byID m submenuID with
  | Throws message => Throws message
  | Returns None => Throws ("Unable to find submenu with ID " ++ submenuID)
  | Returns (Some menuItem) =>
      match submenuMap m, item_submenu m with
      | Some map, Some submenu =>
          match map !! Some submenuID with
          | Some menuIndex =>
              let nextMenuItem := merge menuItem p in
              Returns (withSubmenu m (Some (<[menuIndex := nextMenuItem]> submenu)))
          | None => Throws "TypeError"
          end
      | _, _ => Throws "TypeError"
      end
  end.

(** [itemRules.isEmpty() ? false : itemRules.every(function (rule) {
    return rules[rule]; })]. [rules] is read by property access: what counts
    is whether [rules[rule]] is truthy, own property or not. *)
Definition rulesHold (rules : string -> bool) (itemRules : list string) : bool :=
  match itemRules with
  | [] => false
  | _ => forallb rules itemRules
  end.

(** [enablers.get(this.id, Immutable.List())] *)
Definition rulesOf (enablers : gmap string (list string)) (id : option string)
    : list string :=
  match id with
  | Some id => default [] (enablers !! id)
  | None => []
  end.

(** [MenuItem.prototype._update] *)
Fixpoint _update (enablers : gmap string (list string)) (rules : string -> bool)
    (m : t) : t :=
  match m with
  | Make type id itemID label submenu command commandKind shortcut enabled checked =>
      let newSubmenu :=
        match submenu with
        | Some submenu => Some (map (_update enablers rules) submenu)
        | None => None
        end in
      let itemRules := rulesOf enablers id in
      let newEnabled := rulesHold rules itemRules in
      Make type id itemID label newSubmenu command commandKind shortcut newEnabled checked
  end.



(** The object built by [exportDescriptor]: a field is [None] when the key
    is omitted or deleted. The keys [id], [itemID] and [submenuMap] are always
    deleted; [enabled] is always there. *)
Inductive exported : Type :=
  Exported (e_type : option string) (e_label : option Js.val)
           (e_submenu : option (list exported)) (e_command : option string)
           (e_commandKind : option Js.val) (e_shortcut : option Js.val)
           (e_enabled : bool) (e_checked : option string).

Definition e_submenu (x : exported) : option (list exported) :=
  match x with Exported _ _ submenu _ _ _ _ _ => submenu end.
Definition e_enabled (x : exported) : bool :=
  match x with Exported _ _ _ _ _ _ enabled _ => enabled end.
Definition e_command (x : exported) : option string :=
  match x with Exported _ _ _ command _ _ _ _ => command end.
Definition e_checked (x : exported) : option string :=
  match x with Exported _ _ _ _ _ _ _ checked => checked end.

(** [MenuItem.prototype.exportDescriptor]; [exportShortcut] is
    [MenuShortcut.prototype.exportDescriptor]. *)
Fixpoint exportDescriptor (exportShortcut : MenuShortcut -> Js.val) (m : t) : exported :=
  match m with
  | Make type id itemID label submenu command commandKind shortcut enabled checked =>
      Exported
        (match type with
         | Some type => if String.eqb type "" then None else Some type
         | None => None
         end)
        (match label with Js.Null => None | _ => Some label end)
        (match submenu with
         | Some submenu => Some (map (exportDescriptor exportShortcut) submenu)
         | None => None
         end)
        command
        (if Js.truthy commandKind then Some commandKind else None)
        (match shortcut with
         | Some shortcut => Some (exportShortcut shortcut)
         | None => None
         end)
        (match submenu with
         | Some [] => false
         | _ => enabled
         end)
        (if checked then Some "on"%string else None)
  end.

(** The path of an item: [prefix + "." + rawMenu.id], or the id alone at the
    root. *)
Definition path (prefix : option string) (rawID : string) : string :=
  match prefix with
  | None => rawID
  | Some prefix => (prefix ++ "." ++ rawID)%string
  end.

(** Every item below carries its path as [id]: its parent's [id], a dot and
    its own [itemID]; separators carry none. *)
Fixpoint pathsFrom (prefix : option string) (m : t) : Prop :=
  match m with
  | Make type id itemID _ submenu _ _ _ _ _ =>
      m = separatorItem \/
      exists rawID,
        itemID = Some rawID /\ id = Some (path prefix rawID) /\
        match submenu with
        | Some items =>
            (fix all (items : list t) : Prop :=
               match items with
               | [] => True
               | item :: rest => pathsFrom (Some (path prefix rawID)) item /\ all rest
               end) items
        | None => True
        end
  end.

(** The fields of a raw descriptor. *)
Definition raw_separator_of (m : rawMenu) : bool :=
  match m with RawMenu separator _ _ _ _ _ _ => separator end.
Definition raw_shortcut_of (m : rawMenu) : option rawShortcut :=
  match m with RawMenu _ _ _ _ _ shortcut _ => shortcut end.

(** The entries [rawSubMenu.filter(...)] keeps. *)
Definition kept (e : env) (entries : list rawMenu) : list rawMenu :=
  List.filter (fun subMenu => negb (negb (PG_DEBUG e) && raw_debug subMenu)) entries.

(** The index [submenuMap] holds for [key] after the entries [entries],
    the first of which has index [start]: that of the last entry with that
    item ID that is no separator. *)
Fixpoint lastIndex (key : option string) (entries : list t) (start : nat) : option nat :=
  match entries with
  | [] => None
  | entry :: rest =>
      match lastIndex key rest (S start) with
      | Some index => Some index
      | None =>
          if negb (isSeparator entry) && bool_decide (item_itemID entry = key)
          then Some start else None
      end
  end.

(** The shape of a menu: how many entries at each level. *)
Inductive shape : Type := Shape (entries : option (list shape)).

Fixpoint shapeOf (m : t) : shape :=
  match m with
  | Make _ _ _ _ submenu _ _ _ _ _ =>
      Shape match submenu with
            | Some submenu => Some (map shapeOf submenu)
            | None => None
            end
  end.

Fixpoint shapeOfExported (x : exported) : shape :=
  match x with
  | Exported _ _ submenu _ _ _ _ _ =>
      Shape match submenu with
            | Some submenu => Some (map shapeOfExported submenu)
            | None => None
            end
  end.

(** An environment whose labels have a [$MENU] entry, and a FILE menu with
    a command, a separator and a debug-only command. *)
Definition menuLabels : env :=
  Env false {[ "ESCAPE"%string := 27 ]} (fun _ => Js.Null)
      (fun _ => Js.Obj [("$MENU"%string, Js.Str "Menu")]) (fun _ => 0).

Definition fileTree : rawMenu :=
  RawMenu false (Some "FILE"%string) None
    (Some [ RawMenu false (Some "NEW"%string) None None None
                    (Some (RawShortcut (Some "n"%string) None None)) false;
            RawMenu true None None None None None false;
            RawMenu false (Some "DUMP"%string) None None None None true ])
    None None false.

(** A small menu: two commands around a separator, one of them twice. *)
Definition editItem (itemID : string) (enabled : bool) : t :=
  Make None (Some ("EDIT." ++ itemID)%string) (Some itemID) (Js.Str itemID) None
       (Some ("EDIT." ++ itemID)%string) Js.Null None enabled false.

Definition editMenu : t :=
  Make None (Some "EDIT"%string) (Some "EDIT"%string) (Js.Str "Edit")
       (Some [editItem "CUT" true; separatorItem; editItem "PASTE" false;
              editItem "CUT" false])
       None Js.Null None true false.

End MenuItemOps.

(** ** Further layer actions ([js/actions/layers]) *)

Module LayerCommands.
Import Layers.

(** *** What these commands read of the models beyond the fields above *)

(** [layer.kind], as far as the commands tell kinds apart. *)
Inductive kind : Type :=
| SMARTOBJECT
| VECTOR
| GROUPEND
| OtherKind.

(** [layer.bounds], with the derived [width]. *)
Record bounds : Type := Bounds {
  top : Z;
  bottom : Z;
  left : Z;
  right : Z;
  width : Z
}.

Record details : Type := Details {
  kind_of : kind;
  isArtboard : bool;
  isText : bool;
  bounds_of : bounds
}.

(** The further fields of a layer, and the further queries of
    [document.layers]. *)
Record models : Type := Models {
  detailsOf : Layer.t -> details;
  allSelected : LayerStructure.t -> list Layer.t;
  selectedLayersDeletable : LayerStructure.t -> bool
}.

(** *** The host adapter *)

(** [layerLib.referenceBy.none] and [layerLib.referenceBy.current] *)
Inductive target : Type :=
| TargetNone
| TargetCurrent.

(** [{ top: ..., bottom: ..., left: ..., right: ... }] *)
Record box : Type := Box {
  box_top : Z;
  box_bottom : Z;
  box_left : Z;
  box_right : Z
}.

Inductive playObject : Type :=
| Rename (layerRef : reference) (name : string)
| Show (layerRef : reference)
| Hide (layerRef : reference)
| SetLocking (layerRef : reference) (locked : bool)
| UnlockBackground (layerID : Z)
| SetProportionalScaling (layerRef : ref) (proportional : bool)
| Delete (layerRef : ref)
| Reorder (layerRef : reference) (targetRef : ref)
| MakeArtboard (layerRef : target) (finalBounds : box)
| Duplicate (fromRef : reference) (toRef : ref).

(** [{ ref: "property", property: property }] at the end of a reference. *)
Record propertyRef : Type := PropertyRef {
  of_reference : reference;
  of_property : string
}.

(** The name of a history state is given by its key in [strings.ACTIONS]. *)
Inductive request : Type :=
| Play (obj : playObject)
| BatchPlay (objs : list playObject) (historyName : string)
| BatchGet (refs : list propertyRef)
| GetDocument (documentRef : ref)
| PlayWithLockOverride (documentID : Z) (layerIDs : list Z) (objs : list playObject)
    (historyName : string) (flag : bool)
| PlayLayerActions (documentID : Z) (actions : list (Z * playObject)) (flag : bool)
    (historyName : string).

Inductive payload : Type :=
| RESET_LAYERS (documentID : Z) (layers : list (Z * option Js.object))
| RESET_BOUNDS (documentID : Z) (bounds : list (Z * Js.val))
| RENAME_LAYER (documentID layerID : Z) (name : string)
| DELETE_LAYERS (documentID : Z) (layerIDs : list Z)
| VISIBILITY_CHANGED (documentID layerID : Z) (visible : bool)
| LOCK_CHANGED (documentID layerID : Z) (locked : bool)
| REORDER_LAYERS (documentID : Z) (layerIDs : list Js.val)
| SET_LAYERS_PROPORTIONAL (documentID : Z) (layerIDs : list Z) (proportional : bool).

Inductive effect : Type :=
| Request (r : request)
| Dispatch (p : payload)
| OfLayers (e : Layers.effect)
| TransferUpdateDocument (documentID : Z).

Abbreviation command A := (Promise.run effect A).

(** The host's answers; [None] is a rejected request. [batchPlayAnswer] is
    the list of the results' [ID] arrays. *)
Record host : Type := Host {
  layersHost : Layers.host;
  playAnswer : playObject -> option Js.val;
  batchPlayAnswer : list playObject -> option (list (list Z));
  batchGetAnswer : list propertyRef -> option (list Js.val);
  documentAnswer : Z -> option documentDescriptor;
  lockOverrideAnswer : list playObject -> option Js.val;
  layerActionsAnswer : list (Z * playObject) -> option Js.val
}.

Definition ask {A : Type} (r : request) (answer : option A) : command A :=
  Promise.Run [Request r]
    match answer with
    | Some a => Promise.Resolved a
    | None => Promise.Rejected "host request failed"
    end.

Definition dispatch (p : payload) : command unit := Promise.perform (Dispatch p).

(** A command of the first part run from here: its effects are its own. *)
Definition ofLayers {A : Type} (c : Layers.command A) : command A :=
  Promise.Run (map OfLayers (Promise.effects c)) (Promise.outcome c).

(** [Promise.all(promises)]: all of them are running; the first rejection
    in the list is the one reported. *)
Fixpoint all {A : Type} (promises : list (command A)) : command (list A) :=
  match promises with
  | [] => Promise.resolve []
  | p :: rest => Promise.join p (all rest) cons
  end.

(** [[documentLib.referenceBy.id(document.id), layerLib.referenceBy.id(layer.id)]] *)
Definition layerRefOf (document : Document.t) (layer : Layer.t) : reference :=
  [DocumentById (Document.id document); LayerById (Layer.id layer)].

(** *** [resetLayers] *)

(** [layers.map(function (layer) { return { layerID: layer.id, descriptor:
    descriptors[index++] }; })] *)
Definition pairWith {B : Type} (at_ : nat -> B) (layers : list Layer.t)
    : list (Z * B) :=
  imap (fun index layer => (Layer.id layer, at_ index)) layers.

Definition resetLayersCommand (h : host) (document : Document.t) (layers : list Layer.t)
    : command Js.val :=
  let layerRefs := map (layerRefOf document) layers in
  let* descriptors := ofLayers (_getLayersByRef (layersHost h) layerRefs) in
  let* _ := dispatch (RESET_LAYERS (Document.id document)
                        (pairWith (fun index => descriptors !! index) layers)) in
  Promise.resolve Js.Undefined.

(** *** [resetBounds] and [resetLinkedLayers] *)

(** The property asked for a layer. *)
Definition boundsProperty (m : models) (layer : Layer.t) : string :=
  if isArtboard (detailsOf m layer) then "artboard"
  else match kind_of (detailsOf m layer) with
       | VECTOR => "pathBounds"
       | _ => "boundsNoEffects"
       end.

Definition resetBoundsCommand (m : models) (h : host) (document : Document.t)
    (layers : list Layer.t) : command Js.val :=
  let propertyRefs :=
    map (fun layer => PropertyRef (layerRefOf document layer) (boundsProperty m layer))
        layers in
  let* bounds := ask (BatchGet propertyRefs) (batchGetAnswer h propertyRefs) in
  let* _ := dispatch (RESET_BOUNDS (Document.id document)
                        (pairWith (fun index => default Js.Undefined (bounds !! index))
                                  layers)) in
  Promise.resolve Js.Undefined.

(** [layer.kind === layer.layerKinds.SMARTOBJECT] *)
Definition isSmartObject (m : models) (layer : Layer.t) : bool :=
  match kind_of (detailsOf m layer) with
  | SMARTOBJECT => true
  | _ => false
  end.

Definition resetLinkedLayersCommand (m : models) (h : host) (document : option Document.t)
    : command Js.val :=
  match document with
  | None => Promise.resolve Js.Undefined
  | Some document =>
      let linkedLayers :=
        List.filter (isSmartObject m) (LayerStructure.all (Document.layers document)) in
      match linkedLayers with
      | [] => Promise.resolve Js.Undefined
      | _ => resetBoundsCommand m h document linkedLayers
      end
  end.

(** *** [rename], [setVisibility], [setLocking] *)



(** [this.transfer(addLayers, document, event.layerID, true, true)]; a
    [layerID] that is no number has no [map]. *)
Definition addUnlockedLayer (h : host) (document : Document.t) (event : Js.val)
    : command Js.val :=
  match Js.get event "layerID" with
  | Js.Num layerID =>
      ofLayers (addLayersCommand (layersHost h) document (OneID layerID) (Some true)
                                 (Js.Bool true))
  | _ => Promise.reject "TypeError"
  end.

Definition _unlockBackgroundLayer (h : host) (document : Document.t) (layer : Layer.t)
    : command Js.val :=
  let unlockObj := UnlockBackground (Layer.id layer) in
  let* event := ask (Play unlockObj) (playAnswer h unlockObj) in
  addUnlockedLayer h document event.

Definition setLockingCommand (h : host) (document : Document.t) (layer : Layer.t)
    (locked : bool) : command Js.val :=
  let dispatchPromise :=
    dispatch (LOCK_CHANGED (Document.id document) (Layer.id layer) locked) in
  let lockPromise :=
    if Layer.isBackground layer then _unlockBackgroundLayer h document layer
    else
      let lockObj := SetLocking (layerRefOf document layer) locked in
      ask (Play lockObj) (playAnswer h lockObj) in
  Promise.join dispatchPromise lockPromise (fun _ _ => Js.Undefined).

Definition _setLockingInCurrentDocument (h : host) (current : option Document.t)
    (locked : bool) : command (list Js.val) :=
  match current with
  | None => Promise.resolve []
  | Some currentDocument =>
      let lockPromises :=
        map (fun layer => setLockingCommand h currentDocument layer locked)
            (LayerStructure.selected (Document.layers currentDocument)) in
      all lockPromises
  end.

Definition lockSelectedInCurrentDocumentCommand (h : host) (current : option Document.t)
    : command (list Js.val) :=
  _setLockingInCurrentDocument h current true.

Definition unlockSelectedInCurrentDocumentCommand (h : host) (current : option Document.t)
    : command (list Js.val) :=
  _setLockingInCurrentDocument h current false.

(** *** [deleteSelected] and [groupSelectedInCurrentDocument] *)

Definition deleteSelectedLayersCommand (m : models) (h : host)
    (current : option Document.t) (arg : documentArg) : command Js.val :=
  match documentOrCurrent current arg with
  | None => Promise.resolve Js.Undefined
  | Some document =>
      if Document.unsupported document
         || bool_decide (LayerStructure.all (Document.layers document) = [])
         || negb (selectedLayersDeletable m (Document.layers document))
      then Promise.resolve Js.Undefined
      else
        let documentID := Document.id document in
        let layers := allSelected m (Document.layers document) in
        let layerIDs := map Layer.id layers in
        let deletePlayObject := Delete LayerCurrent in
        let dispatchPromise := dispatch (DELETE_LAYERS documentID layerIDs) in
        let deletePromise :=
          ask (PlayWithLockOverride documentID layerIDs [deletePlayObject]
                                    "DELETE_LAYERS" true)
              (lockOverrideAnswer h [deletePlayObject]) in
        Promise.join dispatchPromise deletePromise (fun _ _ => Js.Undefined)
  end.

Definition groupSelectedLayersInCurrentDocumentCommand (h : host)
    (current : option Document.t) : command Js.val :=
  match current with
  | None => Promise.resolve Js.Undefined
  | Some currentDocument =>
      ofLayers (groupSelectedLayersCommand (layersHost h) currentDocument)
  end.

(** *** [reorder] *)

Definition reorderLayersCommand (h : host) (documentID : Z) (layerSpec : layerSpec)
    (targetIndex : Z) : command Js.val :=
  let documentRef := DocumentById documentID in
  let layerRef := documentRef :: map LayerById (layerIDsOf layerSpec) in
  let targetRef := LayerByIndex targetIndex in
  let reorderObj := Reorder layerRef targetRef in
  let* _ := ask (Play reorderObj) (playAnswer h reorderObj) in
  let* doc := ask (GetDocument documentRef) (documentAnswer h documentID) in
  let* layerIDs := ofLayers (_getLayerIDsForDocument (layersHost h) doc) in
  let* _ := dispatch (REORDER_LAYERS documentID layerIDs) in
  Promise.resolve Js.Undefined.

(** *** [setProportional] *)



(** *** [createArtboard] *)

Definition DEFAULT_ARTBOARD_BOUNDS : box := Box 0 1960 0 1080.

(** [artboards.reduce(function (selectedLayer, currentLayer) { ... },
    artboards.first())]: the artboard furthest to the right, the first of
    them when several are. *)
Definition rightmost (first : bounds) (artboards : list bounds) : bounds :=
  fold_left (fun selectedLayer currentLayer =>
               if right selectedLayer <? right currentLayer
               then currentLayer else selectedLayer)
            artboards first.

(** The reference and the bounds given to [artboardLib.make]; [artboards]
    are the bounds of the layers with [isArtboard]. *)
Definition artboardPlacement (artboardBounds : option box) (artboards : list bounds)
    : target * box :=
  match artboardBounds with
  | Some given => (TargetNone, given)
  | None =>
      match artboards with
      | [] => (TargetCurrent, DEFAULT_ARTBOARD_BOUNDS)
      | first :: _ =>
          let layer := rightmost first artboards in
          let offset := width layer + 100 in
          (TargetNone,
           Box (top layer) (bottom layer) (left layer + offset) (right layer + offset))
      end
  end.

(** Without a current document the first property access throws. *)
Definition createArtboardCommand (m : models) (h : host) (current : option Document.t)
    (artboardBounds : option box) : command Js.val :=
  match current with
  | None => Promise.reject "TypeError"
  | Some document =>
      let artboards :=
        List.filter (fun layer => isArtboard (detailsOf m layer))
                    (LayerStructure.all (Document.layers document)) in
      let '(layerRef, finalBounds) :=
        artboardPlacement artboardBounds
                          (map (fun layer => bounds_of (detailsOf m layer)) artboards) in
      let createObj := MakeArtboard layerRef finalBounds in
      let* _ := ask (Play createObj) (playAnswer h createObj) in
      Promise.Run [TransferUpdateDocument (Document.id document)]
                  (Promise.Resolved Js.Undefined)
  end.

(** *** [duplicate] *)

Definition duplicateCommand (h : host) (document fromDocument : Document.t)
    (fromLayers : list Layer.t) : command Js.val :=
  match fromLayers with
  | [] => Promise.resolve Js.Undefined
  | _ =>
      let duplicatePlayObjects :=
        map (fun fromLayer =>
               Duplicate [LayerById (Layer.id fromLayer);
                          DocumentById (Document.id fromDocument)]
                         (DocumentById (Document.id document)))
            fromLayers in
      let* results := ask (BatchPlay duplicatePlayObjects "DUPLICATE_LAYERS")
                          (batchPlayAnswer h duplicatePlayObjects) in
      let allLayerIDs := fold_left (fun allLayerIDs layerIDs => allLayerIDs ++ layerIDs)
                                   results [] in
      ofLayers (addLayersCommand (layersHost h) document (IDs allLayerIDs) None
                                 Js.Undefined)
  end.

(** *** What is observed of a run *)

Definition requests (effects : list effect) : list request :=
  omap (fun e => match e with Request r => Some r | _ => None end) effects.

(** The payloads dispatched by the command itself. *)
Definition dispatched (effects : list effect) : list payload :=
  omap (fun e => match e with Dispatch p => Some p | _ => None end) effects.

(** The payloads dispatched by the commands of the first part it ran. *)
Definition dispatchedOfLayers (effects : list effect) : list Layers.payload :=
  Layers.dispatched (omap (fun e => match e with OfLayers e => Some e | _ => None end)
                          effects).

(** The host requests of the commands of the first part it ran. *)
Definition requestsOfLayers (effects : list effect) : list Layers.request :=
  Layers.requests (omap (fun e => match e with OfLayers e => Some e | _ => None end)
                        effects).

Definition rejected {A : Type} (c : command A) : bool :=
  match Promise.outcome c with
  | Promise.Rejected _ => true
  | Promise.Resolved _ => false
  end.


(** A host and models for the examples: every request is answered, the
    layer with ID 4 is a smart object, the one with ID 8 an artboard. *)
Definition someModels : models :=
  Models (fun layer =>
            Details (if Layer.id layer =? 4 then SMARTOBJECT else OtherKind)
                    (Layer.id layer =? 8) false (Bounds 0 100 0 50 50))
         (fun layers => LayerStructure.selected layers)
         (fun _ => true).

Definition someHost : host :=
  Host Fixtures.answeringHost
       (fun _ => Some (Js.Obj [("layerID"%string, Js.Num 12)]))
       (fun objs => Some (map (fun _ => [20; 21]) objs))
       (fun refs => Some (map (fun _ => Js.Null) refs))
       (fun id => Some (DocumentDescriptor id 3 false))
       (fun _ => Some Js.Null)
       (fun _ => Some Js.Null).

(** A document with a locked background layer (ID 1), a smart object
    (ID 4), an artboard (ID 8) and a selected layer (ID 9); the background
    layer is selected too. *)
Definition mixedDocument : Document.t :=
  Document.Make 3
    (Fixtures.structureOf
       [Layer.Make 9 false (Some (Bounds.Make 10)) true;
        Layer.Make 8 false (Some (Bounds.Make 10)) false;
        Layer.Make 4 false (Some (Bounds.Make 10)) false;
        Layer.Make 1 true (Some (Bounds.Make 10)) true] true 1)
    true false.

(** Three artboards that reach 100, 150 and 150. *)
Definition wideModels : models :=
  Models (fun layer =>
            Details OtherKind true false
                    (if Layer.id layer =? 8 then Bounds 0 100 0 100 100
                     else if Layer.id layer =? 7 then Bounds 0 100 0 150 150
                     else Bounds 10 90 100 150 50))
         (fun layers => LayerStructure.selected layers)
         (fun _ => true).

Definition threeArtboards : Document.t :=
  Document.Make 5
    (Fixtures.structureOf
       [Layer.Make 8 false (Some (Bounds.Make 10)) false;
        Layer.Make 7 false (Some (Bounds.Make 10)) false;
        Layer.Make 6 false (Some (Bounds.Make 10)) false] true 1)
    false false.

(** A host that rejects everything. *)
Definition deafHost : host :=
  Host (Layers.Host (fun _ => None) (fun _ => None) (fun _ _ => None) (fun _ => None)
                    (fun _ => None))
       (fun _ => None) (fun _ => None) (fun _ => None) (fun _ => None) (fun _ => None)
       (fun _ => None).

End LayerCommands.

(** ** Sessions of the type tool: what is observed of them *)

Module TypeToolSessions.
Import TypeTool TypeToolSpec.

(** The listeners of other modules on the emitter, oldest first. *)
Definition foreign (r : registry) : list (string * nat) :=
  omap (fun entry =>
          match entry with
          | (name, Foreign closure) => Some (name, closure)
          | (_, Own _) => None
          end) r.

(** A handler variable holds nothing or a closure of this module. *)
Definition own (handler : option handler) : Prop :=
  match handler with
  | Some (Foreign _) => False
  | _ => True
  end.

Definition ownHandlers (s : state) : Prop :=
  own (_typeChangedHandler s) /\ own (_layerCreatedHandler s) /\
  own (_layerDeletedHandler s) /\ own (_toolModalStateChangedHandler s).

(** How often the defaults of the type tool are reset. *)
Definition resets (effects : list effect) : nat :=
  length (List.filter (fun e => match e with PlayResetTypeTool => true | _ => false end)
                      effects).

(** A [select] whose [setSuppressTargetPaths] call succeeds. *)
Definition completedSelect (wi : world * input) : bool :=
  match wi with
  | (w, Select) => setSuppressTargetPathsOk w
  | _ => false
  end.

(** An input that neither records a deleted layer nor is a type-tool
    cancel: selecting, deselecting, and the neutral events. *)
Definition quiet (i : input) : Prop :=
  match i with
  | Emit e => neutral e
  | _ => True
  end.

(** A session in which the tool is selected, a text layer is deleted, the
    tool is deselected and selected again. *)
Definition deletedThenReselected : list (world * input) :=
  [ (worldOf artboardDocumentWithText, Select);
    (worldOf artboardDocumentWithText, Emit (deleteTextLayer (DeleteEvent 10)));
    (worldOf Fixtures.artboardDocument, Deselect);
    (worldOf Fixtures.artboardDocument, Select) ].

End TypeToolSessions.
(** * Properties of the layer actions *)

Module LayersProofs.
Import Layers Fixtures.

(** ** Effects of [_getLayersByRef] and [addLayers] *)

Lemma refObjsFor_flat_map properties references :
  refObjsFor properties references =
  flat_map (fun reference => map (RefObj reference) properties) references.
Proof.
  unfold refObjsFor.
  change (flat_map _ references) with
    ([] ++ flat_map (fun reference => map (RefObj reference) properties) references).
  generalize (@nil refObj) as acc.
  induction references as [|reference rest IH]; intros acc; simpl.
  - by rewrite app_nil_r.
  - rewrite IH. by rewrite <- app_assoc.
Qed.

Lemma getLayersByRef_effects h references :
  Promise.effects (_getLayersByRef h references) =
  [Request (BatchGetProperties (refObjsFor _layerProperties references) false);
   Request (BatchGetProperties (refObjsFor _optionalLayerProperties references) true)].
Proof.
  unfold _getLayersByRef, Promise.join, Promise.andThen, ask; simpl.
  destruct (batchGetProperties h _), (batchGetPropertiesContinue h _); reflexivity.
Qed.

Lemma addLayers_effects h document spec selected replace :
  let refs := map (fun layerID => [DocumentById (Document.id document); LayerById layerID])
                  (layerIDsOf spec) in
  Promise.effects (addLayersCommand h document spec selected replace) =
  Promise.effects (_getLayersByRef h refs) ++
  match Promise.outcome (_getLayersByRef h refs) with
  | Promise.Resolved descriptors =>
      [Dispatch (ADD_LAYERS (Document.id document) (layerIDsOf spec) descriptors
                            (default true selected)
                            (replaceOrDefault document (layerIDsOf spec) replace))]
  | Promise.Rejected _ => []
  end.
Proof.
  intros refs. unfold addLayersCommand. fold refs.
  generalize (_getLayersByRef h refs). intros [effects [descriptors|reason]];
    unfold Promise.andThen; simpl.
  - reflexivity.
  - by rewrite app_nil_r.
Qed.

Lemma replaceFlags_app l1 l2 : replaceFlags (l1 ++ l2) = replaceFlags l1 ++ replaceFlags l2.
Proof. unfold replaceFlags. apply omap_app. Qed.

Lemma addLayers_replaceFlags h document spec selected replace :
  let refs := map (fun layerID => [DocumentById (Document.id document); LayerById layerID])
                  (layerIDsOf spec) in
  replaceFlags (Promise.effects (addLayersCommand h document spec selected replace)) =
  match Promise.outcome (_getLayersByRef h refs) with
  | Promise.Resolved _ => [replaceOrDefault document (layerIDsOf spec) replace]
  | Promise.Rejected _ => []
  end.
Proof.
  intros refs. rewrite addLayers_effects. fold refs.
  rewrite replaceFlags_app, getLayersByRef_effects.
  destruct (Promise.outcome (_getLayersByRef h refs)); reflexivity.
Qed.

(** The promise of [addLayers] never resolves with anything but
    [undefined]. *)
Lemma addLayers_resolves_undefined h document spec selected replace v :
  Promise.outcome (addLayersCommand h document spec selected replace) = Promise.Resolved v ->
  v = Js.Undefined.
Proof.
  unfold addLayersCommand.
  generalize (_getLayersByRef h
    (map (fun layerID => [DocumentById (Document.id document); LayerById layerID])
         (layerIDsOf spec))).
  intros [effects [descriptors|reason]]; unfold Promise.andThen; simpl; congruence.
Qed.

(** ** The replacement heuristic of [addLayers] *)

(** Without an artboard the default never replaces: the last conjunct of
    the heuristic is [document.layers.hasArtboard && first.selected]. *)
Lemma defaultReplace_without_artboard document layerIDs :
  LayerStructure.hasArtboard (Document.layers document) = false ->
  Js.truthy (defaultReplace document layerIDs) = false.
Proof.
  intros Hno. unfold defaultReplace. rewrite Hno.
  destruct (_ && _); [|reflexivity].
  unfold replaceableLayer.
  destruct (head _) as [first|]; [|reflexivity].
  destruct (Layer.isBackground first); [reflexivity|].
  destruct (Layer.bounds first) as [bounds|]; [|reflexivity].
  destruct (negb _); reflexivity.
Qed.

(** With an artboard the default replaces exactly when one layer is added
    to the three-layer document whose layer 2 is an empty, selected,
    non-background layer. *)
Lemma defaultReplace_with_artboard document layerIDs :
  LayerStructure.hasArtboard (Document.layers document) = true ->
  (Js.truthy (defaultReplace document layerIDs) = true <->
   length layerIDs = 1%nat /\
   length (LayerStructure.all (Document.layers document)) = 3%nat /\
   exists first bounds,
     LayerStructure.byID (Document.layers document) 2 = Some first /\
     Layer.isBackground first = false /\
     Layer.bounds first = Some bounds /\ Bounds.area bounds = 0 /\
     Layer.selected first = true).
Proof.
  intros Hart. unfold defaultReplace. rewrite Hart.
  destruct (Nat.eqb_spec (length layerIDs) 1) as [Hone|Hone]; simpl;
    [|split; [discriminate | intros (? & _); contradiction]].
  destruct (Nat.eqb_spec (length (LayerStructure.all (Document.layers document))) 3)
    as [Hsize|Hsize]; simpl;
    [|split; [discriminate | intros (_ & ? & _); contradiction]].
  unfold replaceableLayer.
  destruct (LayerStructure.byID _ 2) as [first|];
    [|split; [discriminate | intros (_ & _ & ? & ? & ? & _); discriminate]].
  destruct (Layer.isBackground first) eqn:Hbg;
    [split; [discriminate | intros (_ & _ & ? & ? & [= <-] & ? & _); congruence]|].
  destruct (Layer.bounds first) as [bounds|] eqn:Hbounds;
    [|split; [discriminate | intros (_ & _ & ? & ? & [= <-] & _ & ? & _); congruence]].
  destruct (Z.eqb_spec (Bounds.area bounds) 0) as [Harea|Harea]; simpl.
  - split.
    + intros Hsel. repeat split; try done. exists first, bounds. repeat split; done.
    + intros (_ & _ & ? & ? & [= <-] & _ & _ & _ & Hsel). exact Hsel.
  - split; [discriminate|].
    intros (_ & _ & ? & ? & [= <-] & _ & Hb & Ha & _).
    rewrite Hbounds in Hb. injection Hb as <-. contradiction.
Qed.

(** C1, evaluated on the code: on the document of the scenario (one
    zero-area, non-background, unselected layer, no artboard) [addLayers]
    with no [replace] argument dispatches one [ADD_LAYERS] payload, and its
    [replace] is [false]; on every host, no payload for that document
    carries a truthy [replace]. *)
Theorem addLayers_placeholder_without_artboard :
  replaceFlags (Promise.effects
    (addLayersCommand answeringHost placeholderDocument (OneID 6) None Js.Undefined))
    = [Js.Bool false] /\
  forall h selected,
    Forall (fun replace => Js.truthy replace = false)
      (replaceFlags (Promise.effects
        (addLayersCommand h placeholderDocument (OneID 6) selected Js.Undefined))).
Proof.
  split.
  - rewrite addLayers_replaceFlags. reflexivity.
  - intros h selected. rewrite addLayers_replaceFlags.
    destruct (Promise.outcome _); constructor; [|constructor].
    reflexivity.
Qed.

(** C10. An explicit [replace = false] is handled exactly as an omitted
    [replace]: the command is the same function of its other arguments for
    every falsy [replace]; every dispatched payload carries the given
    [replace] when it is truthy and the heuristic's value otherwise, so where
    the heuristic says [true] an explicit [false] still dispatches [true]. *)
Theorem addLayers_falsy_replace_runs_heuristic
    (h : host) (document : Document.t) (spec : layerSpec) (selected : option bool)
    (replace : Js.val) :
  addLayersCommand h document spec selected (Js.Bool false) =
  addLayersCommand h document spec selected Js.Undefined /\
  addLayersCommand h document spec selected replace =
  addLayersCommand h document spec selected
    (if Js.truthy replace then replace else Js.Undefined) /\
  Forall (fun flag => flag = if Js.truthy replace then replace
                             else defaultReplace document (layerIDsOf spec))
    (replaceFlags (Promise.effects (addLayersCommand h document spec selected replace))) /\
  (defaultReplace document (layerIDsOf spec) = Js.Bool true ->
   Forall (fun flag => flag = Js.Bool true)
     (replaceFlags (Promise.effects
        (addLayersCommand h document spec selected (Js.Bool false))))).
Proof.
  split; [reflexivity|]. split.
  { unfold addLayersCommand.
    replace (replaceOrDefault document (layerIDsOf spec)
               (if Js.truthy replace then replace else Js.Undefined))
      with (replaceOrDefault document (layerIDsOf spec) replace); [reflexivity|].
    unfold replaceOrDefault.
    destruct (Js.truthy replace) eqn:Ht; simpl; [rewrite Ht|]; reflexivity. }
  split.
  - rewrite addLayers_replaceFlags. unfold replaceOrDefault.
    destruct (Promise.outcome _); constructor; [|constructor].
    destruct (Js.truthy replace); reflexivity.
  - intros Hdefault. rewrite addLayers_replaceFlags. unfold replaceOrDefault.
    destruct (Promise.outcome _); constructor; [|constructor].
    simpl. exact Hdefault.
Qed.

Lemma addLayers_falsy_replace_runs_heuristic_witness :
  defaultReplace artboardDocument (layerIDsOf (OneID 10)) = Js.Bool true /\
  replaceFlags (Promise.effects
    (addLayersCommand answeringHost artboardDocument (OneID 10) (Some true) (Js.Bool false)))
    = [Js.Bool true] /\
  Forall (fun flag => flag = Js.Bool true)
    (replaceFlags (Promise.effects
       (addLayersCommand answeringHost artboardDocument (OneID 10) (Some true)
          (Js.Bool false)))).
Proof.
  split; [reflexivity|]. split.
  - rewrite addLayers_replaceFlags. reflexivity.
  - apply (addLayers_falsy_replace_runs_heuristic answeringHost artboardDocument
             (OneID 10) (Some true) (Js.Bool false)).
    reflexivity.
Defined.

(** ** [groupSelected] *)

(** C3. When some selected layer's subtree is deeper than
    [PS_MAX_NEST_DEPTH], or when nothing is selected, [groupSelected]
    resolves without any effect: no host request and no dispatch. *)
Theorem groupSelected_skips (h : host) (document : Document.t) :
  LayerStructure.selected (Document.layers document) = [] \/
  Exists (fun layer =>
            9 < LayerStructure.maxDescendantDepth (Document.layers document) layer)
         (LayerStructure.selected (Document.layers document)) ->
  groupSelectedLayersCommand h document = Promise.resolve Js.Undefined /\
  requests (Promise.effects (groupSelectedLayersCommand h document)) = [] /\
  dispatched (Promise.effects (groupSelectedLayersCommand h document)) = [].
Proof.
  intros Hskip.
  assert (Hrun : groupSelectedLayersCommand h document = Promise.resolve Js.Undefined).
  { unfold groupSelectedLayersCommand.
    destruct Hskip as [Hnone|Hdeep].
    - rewrite Hnone. reflexivity.
    - destruct (length _ =? 0)%nat; [reflexivity|].
      replace (nestingLimitExceeded document) with true; [reflexivity|].
      symmetry. unfold nestingLimitExceeded. apply existsb_exists.
      apply Exists_exists in Hdeep as (layer & Hin & Hdepth).
      exists layer. split; [by apply list_elem_of_In|].
      unfold PS_MAX_NEST_DEPTH. by apply Z.ltb_lt. }
  rewrite Hrun. repeat split.
Qed.

Lemma groupSelected_skips_witness :
  groupSelectedLayersCommand answeringHost deepDocument = Promise.resolve Js.Undefined /\
  groupSelectedLayersCommand answeringHost emptyDocument = Promise.resolve Js.Undefined.
Proof.
  split.
  - apply (groupSelected_skips answeringHost deepDocument).
    right. apply Exists_cons_hd. simpl. lia.
  - apply (groupSelected_skips answeringHost emptyDocument).
    left. reflexivity.
Defined.

(** Below the limit, with a selection, the host is asked to group. *)
Lemma groupSelected_plays h document :
  LayerStructure.selected (Document.layers document) <> [] ->
  Forall (fun layer =>
            LayerStructure.maxDescendantDepth (Document.layers document) layer <= 9)
         (LayerStructure.selected (Document.layers document)) ->
  requests (Promise.effects (groupSelectedLayersCommand h document)) =
  [PlayObject GroupSelectedObj].
Proof.
  intros Hsome Hshallow. unfold groupSelectedLayersCommand.
  destruct (LayerStructure.selected (Document.layers document)) as [|l ls] eqn:Hsel;
    [contradiction|].
  simpl length. simpl Nat.eqb. cbv iota.
  replace (nestingLimitExceeded document) with false.
  - unfold Promise.andThen, ask. simpl. destruct (play h GroupSelectedObj); reflexivity.
  - symmetry. unfold nestingLimitExceeded. rewrite Hsel.
    apply not_true_is_false. intros Hex. apply existsb_exists in Hex as (x & Hin & Hx).
    rewrite Forall_forall in Hshallow. apply list_elem_of_In in Hin.
    specialize (Hshallow x Hin). unfold PS_MAX_NEST_DEPTH in Hx.
    apply Z.ltb_lt in Hx. lia.
Qed.

(** ** [resetLayersByIndex] and [_getLayerIDsForDocument] *)

Lemma requestedReferences_getLayersByRef h references :
  requestedReferences (Promise.effects (_getLayersByRef h references)) =
  flat_map (fun reference => replicate 10 reference) references ++
  flat_map (fun reference => replicate 14 reference) references.
Proof.
  rewrite getLayersByRef_effects. unfold requestedReferences. simpl.
  rewrite app_nil_r, !refObjsFor_flat_map. f_equal.
  - induction references as [|reference rest IH]; [reflexivity|].
    cbn [flat_map]. rewrite List.map_app, IH. reflexivity.
  - induction references as [|reference rest IH]; [reflexivity|].
    cbn [flat_map]. rewrite List.map_app, IH. reflexivity.
Qed.

Lemma resetLayersByIndex_effects h document layerIndexes :
  let refs := layerRefsByIndex document (indexListOf layerIndexes) in
  Promise.effects (resetLayersByIndexCommand h document layerIndexes) =
  Promise.effects (_getLayersByRef h refs) ++
  match Promise.outcome (_getLayersByRef h refs) with
  | Promise.Resolved descriptors =>
      [Dispatch (RESET_LAYERS_BY_INDEX (Document.id document) descriptors)]
  | Promise.Rejected _ => []
  end.
Proof.
  intros refs. unfold resetLayersByIndexCommand. fold refs.
  generalize (_getLayersByRef h refs). intros [effects [descriptors|reason]];
    unfold Promise.andThen; simpl.
  - reflexivity.
  - by rewrite app_nil_r.
Qed.

(** C4, as stated, fails: in a document without a background layer the
    reference for index 3 is built from 3, not from 3 - 1; and with a
    background layer it is built from 3 - 1, not from 3. *)
Lemma resetLayersByIndex_absent_background_counterexample :
  Document.hasBackgroundLayer documentWithoutBackground = false /\
  layerRefsByIndex documentWithoutBackground (indexListOf (OneIndex 3)) =
    [[DocumentById 7; LayerByIndex 3]] /\
  layerRefsByIndex documentWithoutBackground (indexListOf (OneIndex 3)) <>
    [[DocumentById 7; LayerByIndex (3 - 1)]] /\
  Document.hasBackgroundLayer flatDocument = true /\
  layerRefsByIndex flatDocument (indexListOf (OneIndex 3)) <>
    [[DocumentById 7; LayerByIndex 3]].
Proof. repeat split; discriminate. Qed.

(** C4, amended. Every property request of [resetLayersByIndex] addresses,
    in input order, the layer at host index [i - 1] when the document has
    a background layer and at [i] when it has none; so without a background
    layer an index is passed to the host unchanged, and with one the host
    index plus one gives the index back. *)
Theorem resetLayersByIndex_host_index
    (h : host) (document : Document.t) (layerIndexes : indexSpec) :
  let hostIndex i := if Document.hasBackgroundLayer document then i - 1 else i in
  let refs := map (fun i => [DocumentById (Document.id document); LayerByIndex (hostIndex i)])
                  (indexListOf layerIndexes) in
  requestedReferences (Promise.effects (resetLayersByIndexCommand h document layerIndexes)) =
    flat_map (fun reference => replicate 10 reference) refs ++
    flat_map (fun reference => replicate 14 reference) refs /\
  (Document.hasBackgroundLayer document = false ->
   forall i, adjustIndex document i = i) /\
  (Document.hasBackgroundLayer document = true ->
   forall i, adjustIndex document i + 1 = i).
Proof.
  intros hostIndex refs. split; [|split].
  - rewrite resetLayersByIndex_effects.
    unfold requestedReferences. rewrite flat_map_app.
    fold (requestedReferences (Promise.effects
            (_getLayersByRef h (layerRefsByIndex document (indexListOf layerIndexes))))).
    rewrite requestedReferences_getLayersByRef.
    replace (flat_map _ (match Promise.outcome _ with
                         | Promise.Resolved _ => _ | Promise.Rejected _ => _ end))
      with (@nil reference) by (destruct (Promise.outcome _); reflexivity).
    rewrite app_nil_r. reflexivity.
  - intros Hno i. unfold adjustIndex. rewrite Hno. reflexivity.
  - intros Hbg i. unfold adjustIndex. rewrite Hbg. lia.
Qed.

Lemma resetLayersByIndex_host_index_witness :
  adjustIndex documentWithoutBackground 3 = 3 /\ adjustIndex flatDocument 3 + 1 = 3.
Proof.
  split.
  - apply (resetLayersByIndex_host_index answeringHost documentWithoutBackground
             (OneIndex 3)). reflexivity.
  - apply (resetLayersByIndex_host_index answeringHost flatDocument (OneIndex 3)).
    reflexivity.
Defined.

(** The enumeration of [_getLayerIDsForDocument] agrees: host indices run
    from 0 when the document has a background layer and from 1 when not. *)
Lemma layerIndicesForDocument_range doc i :
  i ∈ layerIndicesForDocument doc <->
  (if doc_hasBackgroundLayer doc then 0 else 1) <= i <= numberOfLayers doc.
Proof.
  unfold layerIndicesForDocument, rangeDown.
  rewrite list_elem_of_fmap. split.
  - intros (k & -> & Hk). apply list_elem_of_In, in_seq in Hk.
    destruct (doc_hasBackgroundLayer doc); lia.
  - intros Hi. exists (Z.to_nat (numberOfLayers doc - i)). split; [lia|].
    apply list_elem_of_In, in_seq. destruct (doc_hasBackgroundLayer doc); lia.
Qed.

(** ** [selectAll] and [deselectAll] *)

(** C6. With no document, an unsupported document or a flat document
    ([deselectAll]: only a background layer; [selectAll]: no layers), both
    commands resolve without any effect. *)
Theorem selectAll_deselectAll_skip
    (h : host) (current : option Document.t) (arg : documentArg) :
  (match documentOrCurrent current arg with
   | None => True
   | Some document =>
       Document.unsupported document = true \/
       exists layer, LayerStructure.all (Document.layers document) = [layer] /\
                     Layer.isBackground layer = true
   end ->
   deselectAllLayersCommand h current arg = Promise.resolve Js.Undefined) /\
  (match documentOrCurrent current arg with
   | None => True
   | Some document =>
       Document.unsupported document = true \/
       LayerStructure.all (Document.layers document) = []
   end ->
   selectAllLayersCommand h current arg = Promise.resolve Js.Undefined).
Proof.
  split; intros Hskip.
  - unfold deselectAllLayersCommand.
    destruct (documentOrCurrent current arg) as [document|]; [|reflexivity].
    destruct Hskip as [-> | (layer & Hall & Hbg)]; [reflexivity|].
    unfold isFlat. rewrite Hall, Hbg. by rewrite orb_true_r.
  - unfold selectAllLayersCommand.
    destruct (documentOrCurrent current arg) as [document|]; [|reflexivity].
    destruct Hskip as [-> | ->]; [reflexivity|].
    by rewrite orb_true_r.
Qed.

Lemma selectAll_deselectAll_skip_witness :
  deselectAllLayersCommand answeringHost None NoArgument = Promise.resolve Js.Undefined /\
  deselectAllLayersCommand answeringHost None (Given flatDocument)
    = Promise.resolve Js.Undefined /\
  selectAllLayersCommand answeringHost None NullDocument = Promise.resolve Js.Undefined /\
  selectAllLayersCommand answeringHost (Some emptyDocument) NoArgument
    = Promise.resolve Js.Undefined.
Proof.
  split; [|split; [|split]].
  - apply (selectAll_deselectAll_skip answeringHost None NoArgument). exact I.
  - apply (selectAll_deselectAll_skip answeringHost None (Given flatDocument)).
    right. exists backgroundLayer. split; reflexivity.
  - apply (selectAll_deselectAll_skip answeringHost None NullDocument). exact I.
  - apply (selectAll_deselectAll_skip answeringHost (Some emptyDocument) NoArgument).
    right. reflexivity.
Defined.

(** Otherwise both commands reach the host and dispatch. *)
Lemma deselectAll_acts h current arg document :
  documentOrCurrent current arg = Some document ->
  Document.unsupported document = false -> isFlat document = false ->
  Promise.effects (deselectAllLayersCommand h current arg) =
  [Request (PlayObject DeselectAllObj);
   Dispatch (SELECT_LAYERS_BY_ID (Document.id document) [])].
Proof.
  intros Hdoc Hsup Hflat. unfold deselectAllLayersCommand.
  rewrite Hdoc, Hsup, Hflat. reflexivity.
Qed.

End LayersProofs.
(** * Properties of the batched property fetch *)

Module GetLayersProofs.
Import Layers Fixtures LayersProofs.

Section Grouping.
Variable props : list string.
Variable val : string -> Js.val -> option Js.val.

Let K := length props.

Local Abbreviation put := (Grouping.put props val).
Local Abbreviation collect := (Grouping.collect props val).
Local Abbreviation fill := (Grouping.fill props val).
Local Abbreviation chunks := (Grouping.chunks K).

Lemma updateLast_snoc f acc (o : Js.object) :
  updateLast f (acc ++ [o]) = acc ++ [f o].
Proof.
  unfold updateLast. rewrite length_app. simpl.
  replace (length acc + 1 - 1)%nat with (length acc + 0)%nat by lia.
  by rewrite alter_app_r.
Qed.

Lemma index_mod j p : (p < K)%nat -> ((j * K + p) mod length props = p)%nat.
Proof.
  intros Hp. fold K. rewrite Nat.add_comm, Nat.Div0.mod_add.
  by apply Nat.mod_small.
Qed.

Lemma collect_snoc acc o value j p :
  (1 <= p < K)%nat ->
  collect (acc ++ [o]) value (j * K + p) = acc ++ [put p value o].
Proof.
  intros Hp. unfold Grouping.collect, Grouping.put. rewrite index_mod by lia.
  destruct (Nat.eqb_spec p 0) as [->|_]; [lia|].
  destruct (props !! p) as [property|]; [|reflexivity].
  destruct (val property value); [|reflexivity].
  apply updateLast_snoc.
Qed.

Lemma collect_first acc value j :
  (0 < K)%nat ->
  collect acc value (j * K) = acc ++ [put 0 value ∅].
Proof.
  intros HK. unfold Grouping.collect, Grouping.put.
  replace (j * K)%nat with (j * K + 0)%nat by lia.
  rewrite index_mod by lia. simpl.
  destruct (props !! 0%nat) as [property|] eqn:Hp.
  - destruct (val property value); [|reflexivity]. apply updateLast_snoc.
  - apply lookup_ge_None in Hp. fold K in Hp. lia.
Qed.

Lemma collect_tail tail : forall acc o j p,
  (1 <= p)%nat -> (p + length tail <= K)%nat ->
  Js.reduceFrom collect (j * K + p) (acc ++ [o]) tail = acc ++ [fill p o tail].
Proof.
  induction tail as [|value rest IH]; intros acc o j p Hp Hlen; simpl in *.
  - reflexivity.
  - rewrite collect_snoc by lia.
    replace (S (j * K + p)) with (j * K + S p)%nat by lia.
    apply IH; lia.
Qed.

Lemma collect_chunk chunk acc j :
  chunk <> [] -> (length chunk <= K)%nat ->
  Js.reduceFrom collect (j * K) acc chunk = acc ++ [fill 0 ∅ chunk].
Proof.
  destruct chunk as [|value rest]; [done|]. intros _ Hlen. simpl in *.
  rewrite collect_first by lia.
  replace (S (j * K)) with (j * K + 1)%nat by lia.
  apply collect_tail; lia.
Qed.

Lemma reduceFrom_app {A B} (f : B -> A -> nat -> B) l1 : forall l2 i acc,
  Js.reduceFrom f i acc (l1 ++ l2) =
  Js.reduceFrom f (i + length l1) (Js.reduceFrom f i acc l1) l2.
Proof.
  induction l1 as [|x l1 IH]; intros l2 i acc; simpl.
  - by rewrite Nat.add_0_r.
  - rewrite IH. f_equal. lia.
Qed.

Lemma collect_chunks n : forall values acc j,
  (0 < K)%nat -> length values = (n * K)%nat ->
  Js.reduceFrom collect (j * K) acc values =
  acc ++ map (fill 0 ∅) (chunks n values).
Proof.
  induction n as [|n IH]; intros values acc j HK Hlen; simpl in *.
  - destruct values; [|discriminate]. by rewrite app_nil_r.
  - rewrite <- (take_drop K values) at 1.
    rewrite reduceFrom_app, collect_chunk.
    + rewrite length_take, Hlen.
      replace (j * K + K `min` (K + n * K))%nat with (S j * K)%nat by lia.
      rewrite IH; [|done|rewrite length_drop; lia].
      by rewrite <- app_assoc.
    + intros Hnil. apply (f_equal length) in Hnil.
      rewrite length_take in Hnil. simpl in Hnil. lia.
    + rewrite length_take. lia.
Qed.

Lemma chunks_lookup n : forall values j,
  (j < n)%nat -> chunks n values !! j = Some (take K (drop (j * K) values)).
Proof.
  induction n as [|n IH]; intros values j Hj; [lia|].
  destruct j as [|j]; simpl.
  - reflexivity.
  - rewrite IH by lia. by rewrite drop_drop, (Nat.add_comm K).
Qed.

Lemma length_chunks n values : length (chunks n values) = n.
Proof. revert values. induction n; intros; simpl; [done|]. by rewrite IHn. Qed.

(** Keys are only ever taken from [props]. *)
Lemma fill_other chunk : forall p result key,
  key ∉ props -> fill p result chunk !! key = result !! key.
Proof.
  induction chunk as [|value rest IH]; intros p result key Hkey; simpl; [done|].
  rewrite IH by done. unfold Grouping.put.
  destruct (props !! p) as [property|] eqn:Hp; [|done].
  destruct (val property value); [|done].
  apply lookup_insert_ne. intros ->. apply Hkey.
  by eapply list_elem_of_lookup_2.
Qed.

Lemma fill_lookup chunk : forall p0 result p property,
  NoDup props -> props !! p = Some property ->
  fill p0 result chunk !! property =
  if decide (p0 <= p < p0 + length chunk)%nat
  then match chunk !! (p - p0)%nat with
       | Some value =>
           match val property value with
           | Some x => Some x
           | None => result !! property
           end
       | None => result !! property
       end
  else result !! property.
Proof.
  induction chunk as [|value rest IH]; intros p0 result p property Hnd Hp; simpl.
  - case_decide; [lia|done].
  - rewrite (IH (S p0) _ p property Hnd Hp).
    destruct (decide (p = p0)) as [->|Hne].
    + rewrite decide_False by lia. rewrite decide_True by lia.
      rewrite Nat.sub_diag. simpl. unfold Grouping.put. rewrite Hp.
      destruct (val property value); [|done]. by rewrite lookup_insert_eq.
    + assert (Hput : put p0 value result !! property = result !! property).
      { unfold Grouping.put. destruct (props !! p0) as [other|] eqn:Hother; [|done].
        destruct (val other value); [|done].
        apply lookup_insert_ne. intros ->.
        apply Hne. by eapply NoDup_lookup. }
      rewrite Hput.
      destruct (decide (S p0 <= p < S p0 + length rest)%nat) as [Hin|Hout].
      * rewrite decide_True by lia.
        replace (p - p0)%nat with (S (p - S p0)) by lia. done.
      * rewrite decide_False by lia. done.
Qed.

Lemma length_chunks_each n : forall values j chunk,
  length values = (n * K)%nat -> chunks n values !! j = Some chunk -> length chunk = K.
Proof.
  induction n as [|n IH]; intros values j chunk Hlen Hj; [done|].
  destruct j as [|j]; simpl in Hj.
  - injection Hj as <-. rewrite length_take. lia.
  - eapply IH; [|exact Hj]. rewrite length_drop. lia.
Qed.

(** The whole [reduce]: one object per run of [K] values. *)
Lemma reduce_collect n values :
  (0 < K)%nat -> length values = (n * K)%nat ->
  Js.reduce collect values [] = map (fill 0%nat ∅) (chunks n values).
Proof.
  intros HK Hlen. unfold Js.reduce.
  change 0%nat with (0 * K)%nat at 1.
  by rewrite (collect_chunks n).
Qed.

End Grouping.

Lemma reduceFrom_ext {A B} (f g : B -> A -> nat -> B) l :
  (forall acc x i, f acc x i = g acc x i) ->
  forall i acc, Js.reduceFrom f i acc l = Js.reduceFrom g i acc l.
Proof.
  intros Hfg. induction l as [|x l IH]; intros i acc; simpl; [done|].
  by rewrite Hfg, IH.
Qed.

Lemma collectProperty_collect results value index :
  collectProperty results value index =
  Grouping.collect _layerProperties Grouping.required results value index.
Proof. reflexivity. Qed.

Lemma collectOptionalProperty_collect results value index :
  collectOptionalProperty results value index =
  Grouping.collect _optionalLayerProperties Grouping.optional results value index.
Proof.
  unfold collectOptionalProperty, Grouping.collect, Grouping.optional.
  destruct (_optionalLayerProperties !! _); [|reflexivity].
  destruct (Js.truthy value && Js.hasOwnProperty value s); reflexivity.
Qed.

Lemma length_refObjsFor properties references :
  length (refObjsFor properties references) =
  (length references * length properties)%nat.
Proof.
  rewrite refObjsFor_flat_map.
  induction references as [|reference rest IH]; [reflexivity|].
  cbn [flat_map length]. rewrite length_app, length_map, IH. lia.
Qed.

(** The request for property [p] of reference [j] sits at [j * K + p]. *)
Lemma refObjsFor_lookup properties references j p reference property :
  references !! j = Some reference -> properties !! p = Some property ->
  refObjsFor properties references !! (j * length properties + p)%nat =
  Some (RefObj reference property).
Proof.
  rewrite refObjsFor_flat_map. revert j.
  induction references as [|first rest IH]; intros j Hj Hp; [done|].
  cbn [flat_map]. destruct j as [|j]; simpl in Hj.
  - injection Hj as ->. simpl. rewrite lookup_app_l.
    + by rewrite list_lookup_fmap, Hp.
    + rewrite length_map. by eapply lookup_lt_Some.
  - rewrite lookup_app_r; rewrite length_map; [|lia].
    replace (S j * length properties + p - length properties)%nat
      with (j * length properties + p)%nat by lia.
    by apply IH.
Qed.

Lemma NoDup_layerProperties : NoDup _layerProperties.
Proof. apply (bool_decide_unpack _). vm_compute. exact I. Qed.

Lemma NoDup_optionalLayerProperties : NoDup _optionalLayerProperties.
Proof. apply (bool_decide_unpack _). vm_compute. exact I. Qed.

Lemma properties_disjoint property :
  property ∈ _layerProperties -> property ∈ _optionalLayerProperties -> False.
Proof.
  intros Hreq Hopt.
  assert (Hall : Forall (fun p => p ∉ _optionalLayerProperties) _layerProperties).
  { apply (bool_decide_unpack _). vm_compute. exact I. }
  rewrite Forall_forall in Hall. by apply (Hall property).
Qed.

(** One descriptor of the result, looked up by key. *)
Lemma mergeProperties_lookup allProperties allOptionalProperties j properties key :
  allProperties !! j = Some properties ->
  exists descriptor,
    mergeProperties allProperties allOptionalProperties !! j = Some descriptor /\
    descriptor !! key =
    match allOptionalProperties !! j with
    | Some optionalProperties =>
        match optionalProperties !! key with
        | Some x => Some x
        | None => properties !! key
        end
    | None => properties !! key
    end.
Proof.
  intros Hj. unfold mergeProperties. rewrite list_lookup_imap, Hj. simpl.
  eexists. split; [reflexivity|].
  destruct (allOptionalProperties !! j) as [optionalProperties|]; simpl; [|done].
  rewrite lookup_union. destruct (optionalProperties !! key), (properties !! key); done.
Qed.

(** C5. When the host answers every item of both requests, the fetch
    resolves with one descriptor per reference, in the order of the
    references: descriptor [j] holds, under every required property, the
    value the host gave for the request built from reference [j] and that
    property; and under an optional property the value found in the host's
    item for it, the key being absent when the item is falsy or lacks the
    property. *)
Theorem getLayersByRef_descriptors
    (h : host) (references : list reference) (values optionalValues : list Js.val) :
  batchGetProperties h (refObjsFor _layerProperties references) = Some values ->
  batchGetPropertiesContinue h (refObjsFor _optionalLayerProperties references)
    = Some optionalValues ->
  length values = length (refObjsFor _layerProperties references) ->
  length optionalValues = length (refObjsFor _optionalLayerProperties references) ->
  exists descriptors,
    Promise.outcome (_getLayersByRef h references) = Promise.Resolved descriptors /\
    length descriptors = length references /\
    forall j reference, references !! j = Some reference ->
      exists descriptor,
        descriptors !! j = Some descriptor /\
        (forall p property, _layerProperties !! p = Some property ->
           refObjsFor _layerProperties references !! (j * 10 + p)%nat
             = Some (RefObj reference property) /\
           exists value,
             values !! (j * 10 + p)%nat = Some value /\
             descriptor !! property = Some value) /\
        (forall q property, _optionalLayerProperties !! q = Some property ->
           refObjsFor _optionalLayerProperties references !! (j * 14 + q)%nat
             = Some (RefObj reference property) /\
           exists value,
             optionalValues !! (j * 14 + q)%nat = Some value /\
             descriptor !! property =
             if Js.truthy value && Js.hasOwnProperty value property
             then Some (Js.get value property) else None).
Proof.
  intros Hreq Hopt Hlen Hlenopt.
  rewrite length_refObjsFor in Hlen, Hlenopt.
  change (length _layerProperties) with 10%nat in Hlen.
  change (length _optionalLayerProperties) with 14%nat in Hlenopt.
  set (n := length references) in *.
  pose (allProperties := map (Grouping.fill _layerProperties Grouping.required 0%nat ∅)
                             (Grouping.chunks 10 n values)).
  pose (allOptional := map (Grouping.fill _optionalLayerProperties Grouping.optional 0%nat ∅)
                           (Grouping.chunks 14 n optionalValues)).
  assert (Hall : Js.reduce collectProperty values [] = allProperties).
  { unfold Js.reduce.
    rewrite (reduceFrom_ext _ _ _ collectProperty_collect).
    apply (reduce_collect _layerProperties Grouping.required n values); simpl; lia. }
  assert (Hallopt : Js.reduce collectOptionalProperty optionalValues [] = allOptional).
  { unfold Js.reduce.
    rewrite (reduceFrom_ext _ _ _ collectOptionalProperty_collect).
    apply (reduce_collect _optionalLayerProperties Grouping.optional n optionalValues);
      simpl; lia. }
  exists (mergeProperties allProperties allOptional). split; [|split].
  - unfold _getLayersByRef, Promise.join, Promise.andThen, ask. simpl.
    rewrite Hreq, Hopt. simpl. by rewrite Hall, Hallopt.
  - unfold mergeProperties, allProperties.
    rewrite length_imap, length_map.
    apply (length_chunks _layerProperties).
  - intros j reference Hj.
    assert (Hjn : (j < n)%nat) by (by eapply lookup_lt_Some).
    assert (Hpj : allProperties !! j =
              Some (Grouping.fill _layerProperties Grouping.required 0%nat ∅
                      (take 10 (drop (j * 10) values)))).
    { unfold allProperties. rewrite list_lookup_fmap.
      pose proof (chunks_lookup _layerProperties n values j Hjn) as Hc.
      change (length _layerProperties) with 10%nat in Hc. by rewrite Hc. }
    assert (Hoj : allOptional !! j =
              Some (Grouping.fill _optionalLayerProperties Grouping.optional 0%nat ∅
                      (take 14 (drop (j * 14) optionalValues)))).
    { unfold allOptional. rewrite list_lookup_fmap.
      pose proof (chunks_lookup _optionalLayerProperties n optionalValues j Hjn) as Hc.
      change (length _optionalLayerProperties) with 14%nat in Hc. by rewrite Hc. }
    destruct (mergeProperties_lookup allProperties allOptional j _ ""%string Hpj)
      as (descriptor & Hdesc & _).
    exists descriptor. split; [exact Hdesc|]. split.
    + intros p property Hp.
      assert (Hp10 : (p < 10)%nat) by (by apply lookup_lt_Some in Hp).
      split; [by apply (refObjsFor_lookup _layerProperties references j p)|].
      destruct (lookup_lt_is_Some_2 values (j * 10 + p)%nat) as [value Hvalue]; [lia|].
      exists value. split; [exact Hvalue|].
      destruct (mergeProperties_lookup allProperties allOptional j _ property Hpj)
        as (descriptor' & Hdesc' & Hkey).
      rewrite Hdesc in Hdesc'. injection Hdesc' as <-.
      rewrite Hkey, Hoj.
      rewrite fill_other, lookup_empty.
      * rewrite (fill_lookup _ _ _ 0%nat ∅ p property NoDup_layerProperties Hp).
        rewrite length_take, length_drop, decide_True by lia.
        rewrite Nat.sub_0_r, lookup_take_lt, lookup_drop, Hvalue by lia.
        reflexivity.
      * intros Hin. eapply properties_disjoint; [|exact Hin].
        by eapply list_elem_of_lookup_2.
    + intros q property Hq.
      assert (Hq14 : (q < 14)%nat) by (by apply lookup_lt_Some in Hq).
      split; [by apply (refObjsFor_lookup _optionalLayerProperties references j q)|].
      destruct (lookup_lt_is_Some_2 optionalValues (j * 14 + q)%nat) as [value Hvalue];
        [lia|].
      exists value. split; [exact Hvalue|].
      destruct (mergeProperties_lookup allProperties allOptional j _ property Hpj)
        as (descriptor' & Hdesc' & Hkey).
      rewrite Hdesc in Hdesc'. injection Hdesc' as <-.
      rewrite Hkey, Hoj.
      rewrite (fill_lookup _ _ _ 0%nat ∅ q property NoDup_optionalLayerProperties Hq).
      rewrite length_take, length_drop, decide_True by lia.
      rewrite Nat.sub_0_r, lookup_take_lt, lookup_drop, Hvalue by lia.
      rewrite lookup_empty. unfold Grouping.optional.
      destruct (Js.truthy value && Js.hasOwnProperty value property); [reflexivity|].
      rewrite fill_other, lookup_empty; [reflexivity|].
      intros Hin. eapply properties_disjoint; [exact Hin|].
      by eapply list_elem_of_lookup_2.
Qed.

Lemma getLayersByRef_descriptors_witness :
  exists descriptors,
    Promise.outcome (_getLayersByRef textHost twoReferences) = Promise.Resolved descriptors /\
    length descriptors = 2%nat.
Proof.
  destruct (getLayersByRef_descriptors textHost twoReferences _ _
              eq_refl eq_refl eq_refl eq_refl) as (descriptors & Hrun & Hlen & _).
  exists descriptors. split; assumption.
Defined.

(** On [textHost]: the second descriptor has the text key, the first has
    not; the [null] answer for ["artboard"] leaves no key; required keys
    are there. *)
Example getLayersByRef_omits_absent_optional :
  match Promise.outcome (_getLayersByRef textHost twoReferences) with
  | Promise.Resolved [first; second] =>
      first !! "textKey"%string = None /\
      second !! "textKey"%string = Some (Js.Str "T") /\
      second !! "artboard"%string = None /\
      first !! "layerID"%string = Some (Js.Str "layerID") /\
      second !! "mode"%string = Some (Js.Str "mode")
  | _ => False
  end.
Proof. vm_compute. repeat split. Qed.

End GetLayersProofs.

(** * Properties of [MenuItem.fromDescriptor] *)

Module MenuItemProofs.
Import MenuItem MenuItemSpec.

(** Induction on descriptors, through their sub-menus. *)
Section Induction.
Variable P : rawMenu -> Prop.
Hypothesis step : forall raw_separator raw_id raw_enabled raw_submenu raw_commandKind
                         raw_shortcut raw_debug,
    match raw_submenu with
    | Some entries => Forall P entries
    | None => True
    end ->
    P (RawMenu raw_separator raw_id raw_enabled raw_submenu raw_commandKind
               raw_shortcut raw_debug).

Fixpoint rawMenu_induction (m : rawMenu) : P m :=
  match m with
  | RawMenu raw_separator raw_id raw_enabled raw_submenu raw_commandKind
            raw_shortcut raw_debug =>
      step raw_separator raw_id raw_enabled raw_submenu raw_commandKind
           raw_shortcut raw_debug
           match raw_submenu return match raw_submenu with
                                    | Some entries => Forall P entries
                                    | None => True
                                    end with
           | Some entries =>
               (fix all (entries : list rawMenu) : Forall P entries :=
                  match entries with
                  | [] => @List.Forall_nil rawMenu P
                  | entry :: rest =>
                      @List.Forall_cons rawMenu P entry rest (rawMenu_induction entry) (all rest)
                  end) entries
           | None => I
           end
  end.
End Induction.

(** The unfolding of [fromDescriptorWith] on a descriptor with a sub-menu. *)
Lemma fromDescriptorWith_submenu e prefix table rawID raw_enabled entries
      raw_commandKind raw_shortcut raw_debug :
  let id := match prefix with
            | None => rawID
            | Some prefix => (prefix ++ "." ++ rawID)%string
            end in
  fromDescriptorWith e
    (RawMenu false (Some rawID) raw_enabled (Some entries) raw_commandKind
             raw_shortcut raw_debug) prefix table =
  match _getLabelForSubmenu e id with
  | Throws message => (table, Throws message)
  | Returns label =>
      match fromDescriptors e entries id table with
      | (table, Throws message) => (table, Throws message)
      | (table, Returns items) =>
          let commandKind := match raw_commandKind with
                             | Some kind => commandKindOf e kind
                             | None => Js.Null
                             end in
          match raw_shortcut with
          | None =>
              (table, Returns (Make None (Some id) (Some rawID) label (Some items) None
                                    commandKind None (default true raw_enabled) false))
          | Some raw =>
              match processShortcut e raw table with
              | (table, Throws message) => (table, Throws message)
              | (table, Returns shortcut) =>
                  (table, Returns (Make None (Some id) (Some rawID) label (Some items) None
                                        commandKind (Some shortcut)
                                        (default true raw_enabled) false))
              end
          end
      end
  end.
Proof.
  intros id. cbn [fromDescriptorWith]. fold id.
  destruct (_getLabelForSubmenu e id) as [label|message]; [|reflexivity].
  match goal with
  | |- context [?each entries table] => is_fix each; set (loop := each)
  end.
  assert (Hloop : forall entries table, loop entries table = fromDescriptors e entries id table).
  { clear. intros entries. induction entries as [|subMenu rest IH]; intros table.
    - reflexivity.
    - cbn [fromDescriptors]. unfold loop; fold loop.
      destruct (negb (PG_DEBUG e) && raw_debug subMenu); [apply IH|].
      destruct (fromDescriptorWith e subMenu (Some id) table) as [table' [item|message]];
        [|reflexivity].
      rewrite IH. reflexivity. }
  rewrite Hloop.
  destruct (fromDescriptors e entries id table) as [table' [items|message]]; reflexivity.
Qed.

(** ** Shortcuts *)

Lemma registered_insert_empty table key key' bits :
  table !! key = None ->
  registered (<[key := ∅]> table) key' bits = registered table key' bits.
Proof.
  intros Hnone. unfold registered.
  destruct (decide (key = key')) as [<-|Hne].
  - by rewrite lookup_insert_eq, Hnone.
  - by rewrite lookup_insert_ne.
Qed.

(** The table the duplicate check reads. *)
Lemma registered_ensure table key key' bits :
  registered match table !! key with
             | Some _ => table
             | None => <[key := ∅]> table
             end key' bits = registered table key' bits.
Proof.
  destruct (table !! key) eqn:Hkey; [reflexivity|].
  by apply registered_insert_empty.
Qed.

Lemma registered_record table key bits key' bits' :
  registered table key' bits' = true ->
  registered (<[key := <[bits := true]> (default ∅ (table !! key))]> table) key' bits' = true.
Proof.
  unfold registered. intros Hreg.
  destruct (decide (key = key')) as [<-|Hne].
  - rewrite lookup_insert_eq. simpl.
    destruct (decide (bits = bits')) as [<-|Hneb].
    + by rewrite lookup_insert_eq.
    + by rewrite lookup_insert_ne.
  - by rewrite lookup_insert_ne.
Qed.

(** What [processShortcut] does when a key is given and known. *)
Lemma processShortcut_key table key bits (shortcut : MenuShortcut) :
  match
    (let table' := match table !! key with
                   | Some _ => table
                   | None => <[key := ∅]> table
                   end in
     let entry := default ∅ (table' !! key) in
     if default false (entry !! bits)
     then (table', Throws ("Menu entry shortcut duplicate: " ++ key))
     else (<[key := <[bits := true]> entry]> table', Returns shortcut))
  with
  | (table', result) =>
      (forall key' bits', registered table key' bits' = true ->
                          registered table' key' bits' = true) /\
      (match result with Throws _ => true | Returns _ => false end
       = registered table key bits)
  end.
Proof.
  cbv zeta.
  set (table' := match table !! key with Some _ => table | None => <[key := ∅]> table end).
  assert (Hsame : forall key' bits',
             registered table' key' bits' = registered table key' bits')
    by (intros; apply registered_ensure).
  fold (registered table' key bits). rewrite Hsame.
  destruct (registered table key bits) eqn:Hreg.
  - split; [|reflexivity]. intros key' bits' H. by rewrite Hsame.
  - split; [|reflexivity]. intros key' bits' H.
    apply registered_record. by rewrite Hsame.
Qed.

(** A shortcut is rejected exactly in the listed cases, and entries once
    registered stay registered. *)
Lemma processShortcut_spec e raw table :
  throws (processShortcut e raw table) = shortcutError e raw table /\
  forall key bits, registered table key bits = true ->
                   registered (fst (processShortcut e raw table)) key bits = true.
Proof.
  unfold processShortcut, shortcutError, throws.
  set (bits := modifiersToBits e (default noModifiers (raw_modifiers raw))).
  destruct (given (keyChar raw)) eqn:Hchar, (given (keyCode raw)) eqn:Hcode; simpl.
  - split; [reflexivity|auto].
  - pose proof (processShortcut_key table ("char-" ++ default ""%string (keyChar raw)) bits
                  (MakeShortcut bits (Some (default ""%string (keyChar raw))) None)) as H.
    cbv zeta in H.
    match type of H with
    | context [if ?c then ?a else ?b] => destruct (if c then a else b) as [table' result]
    end.
    destruct H as [Hmono Hthrows]. simpl. split; [|exact Hmono].
    rewrite Hthrows. by rewrite orb_false_r.
  - destruct (eventKeyCode e !! default ""%string (keyCode raw)) as [code|] eqn:Hknown.
    + pose proof (processShortcut_key table ("code-" ++ default ""%string (keyCode raw)) bits
                    (MakeShortcut bits None (Some code))) as H.
      cbv zeta in H.
    match type of H with
    | context [if ?c then ?a else ?b] => destruct (if c then a else b) as [table' result]
    end.
      destruct H as [Hmono Hthrows]. simpl. split; [|exact Hmono].
      rewrite Hthrows. reflexivity.
    + simpl. split; [reflexivity|auto].
  - split; [reflexivity|auto].
Qed.

(** ** The shortcut table only grows *)

Lemma fromDescriptors_grows e entries id :
  Forall (fun m => forall prefix table,
              grows table (fst (fromDescriptorWith e m prefix table))) entries ->
  forall table, grows table (fst (fromDescriptors e entries id table)).
Proof.
  induction 1 as [|subMenu rest Hfirst _ IH]; intros table; cbn [fromDescriptors].
  - by intros key bits.
  - destruct (negb (PG_DEBUG e) && raw_debug subMenu); [apply IH|].
    specialize (Hfirst (Some id) table).
    destruct (fromDescriptorWith e subMenu (Some id) table) as [table1 [item|message]];
      simpl in Hfirst; [|exact Hfirst].
    specialize (IH table1).
    destruct (fromDescriptors e rest id table1) as [table2 [items|message]];
      simpl in *; intros key bits Hreg; auto.
Qed.

Lemma fromDescriptorWith_grows e m :
  forall prefix table, grows table (fst (fromDescriptorWith e m prefix table)).
Proof.
  induction m as [raw_separator raw_id raw_enabled submenu raw_commandKind
                    raw_shortcut debug IH] using rawMenu_induction.
  intros prefix table.
  destruct raw_separator; [by intros key bits|].
  destruct raw_id as [rawID|]; [|by intros key bits].
  destruct submenu as [entries|].
  - rewrite fromDescriptorWith_submenu. cbv zeta.
    destruct (_getLabelForSubmenu e _) as [label|message]; [|by intros key bits].
    pose proof (fromDescriptors_grows e entries
                  match prefix with
                  | Some prefix => (prefix ++ "." ++ rawID)%string
                  | None => rawID
                  end IH table) as Hsub.
    destruct (fromDescriptors e entries _ table) as [table1 [items|message]];
      simpl in Hsub; [|exact Hsub].
    destruct raw_shortcut as [raw|]; [|exact Hsub].
    destruct (processShortcut_spec e raw table1) as [_ Hmono].
    destruct (processShortcut e raw table1) as [table2 [shortcut|message]];
      simpl in *; intros key bits Hreg; auto.
  - cbn [fromDescriptorWith].
    destruct raw_shortcut as [raw|]; [|by intros key bits].
    destruct (processShortcut_spec e raw table) as [_ Hmono].
    destruct (processShortcut e raw table) as [table2 [shortcut|message]];
      simpl in *; exact Hmono.
Qed.

Lemma shortcutError_grows e raw table table' :
  grows table table' -> shortcutError e raw table = true ->
  shortcutError e raw table' = true.
Proof.
  intros Hgrows. unfold shortcutError.
  rewrite !orb_true_iff, !andb_true_iff.
  intros [[[[H|H]|H]|[H1 H2]]|[H1 H2]]; auto 10.
Qed.

(** ** Which descriptors are rejected *)

(** C9, as stated, fails: a sub-menu descriptor with an id and no shortcut,
    none of the listed errors, is rejected when its localized label has no
    [$MENU] entry. *)
Lemma fromDescriptor_missing_label_counterexample :
  listedError plainLabels fileMenu ∅ = false /\
  snd (fromDescriptor plainLabels fileMenu None None)
    = Throws "Missing label for menu: FILE".
Proof. split; reflexivity. Qed.

(** Which entry of a sub-menu ends the loop: the first one the debug
    filter keeps that is rejected with the table as the entries before it
    leave it. *)
Lemma fromDescriptors_throws e id entries : forall table,
  throws (fromDescriptors e entries id table) = true <->
  exists before subMenu after,
    entries = before ++ subMenu :: after /\
    negb (PG_DEBUG e) && raw_debug subMenu = false /\
    throws (fromDescriptors e before id table) = false /\
    throws (fromDescriptorWith e subMenu (Some id)
              (fst (fromDescriptors e before id table))) = true.
Proof.
  induction entries as [|first rest IH]; intros table.
  - split; [discriminate|]. intros (before & subMenu & after & Hsplit & _).
    by destruct before.
  - cbn [fromDescriptors].
    destruct (negb (PG_DEBUG e) && raw_debug first) eqn:Hskip.
    + rewrite IH. split.
      * intros (before & subMenu & after & -> & Hkept & Hbefore & Hthrows).
        exists (first :: before), subMenu, after. cbn [fromDescriptors].
        rewrite Hskip. done.
      * intros (before & subMenu & after & Hsplit & Hkept & Hbefore & Hthrows).
        destruct before as [|first' before]; simpl in Hsplit.
        { injection Hsplit as -> ->. congruence. }
        injection Hsplit as <- ->. cbn [fromDescriptors] in Hbefore, Hthrows.
        rewrite Hskip in Hbefore, Hthrows.
        by exists before, subMenu, after.
    + destruct (fromDescriptorWith e first (Some id) table) as [table1 result] eqn:Hfirst.
      destruct result as [item|message].
      * transitivity (throws (fromDescriptors e rest id table1) = true).
        { unfold throws.
          by destruct (fromDescriptors e rest id table1) as [table2 [items|message]]. }
        rewrite IH. split.
        -- intros (before & subMenu & after & -> & Hkept & Hbefore & Hthrows).
           exists (first :: before), subMenu, after. cbn [fromDescriptors].
           rewrite Hskip, Hfirst. unfold throws in *.
           destruct (fromDescriptors e before id table1) as [table2 [items|message]];
             done.
        -- intros (before & subMenu & after & Hsplit & Hkept & Hbefore & Hthrows).
           destruct before as [|first' before]; simpl in Hsplit.
           { injection Hsplit as -> ->. simpl in Hthrows.
             rewrite Hfirst in Hthrows. discriminate. }
           injection Hsplit as <- ->. cbn [fromDescriptors] in Hbefore, Hthrows.
           rewrite Hskip, Hfirst in Hbefore, Hthrows.
           exists before, subMenu, after. unfold throws in *.
           destruct (fromDescriptors e before id table1) as [table2 [items|message]];
             done.
      * split; [|done]. intros _.
        exists [], first, rest. simpl. rewrite Hfirst. done.
Qed.

(** C9, amended. A separator yields the separator item, whatever else it
    carries. Of the other descriptors, [fromDescriptor] throws on every one
    with a listed error (no id; a shortcut with both key char and key code
    or neither, with an unknown key code, or already in the shortcut
    table). A descriptor without a sub-menu is rejected in the listed cases
    only. A descriptor with an id and a sub-menu is rejected exactly when
    its localized label has no [$MENU] entry, when one of the sub-menu
    entries that the debug filter keeps is rejected, or when its shortcut
    is in error, looked up in the table as the entries leave it. On any
    other input [fromDescriptor] returns a [MenuItem]. *)
Theorem fromDescriptor_validation
    (e : env) (m : rawMenu) (prefix : option string) (table : option shortcutTable) :
  (forall raw_id raw_enabled submenu raw_commandKind raw_shortcut debug,
     m = RawMenu true raw_id raw_enabled submenu raw_commandKind raw_shortcut debug ->
     fromDescriptor e m prefix table = (default ∅ table, Returns separatorItem)) /\
  (listedError e m (default ∅ table) = true ->
   throws (fromDescriptor e m prefix table) = true) /\
  (raw_submenu m = None ->
   throws (fromDescriptor e m prefix table) = listedError e m (default ∅ table) /\
   (listedError e m (default ∅ table) = false ->
    exists item, snd (fromDescriptor e m prefix table) = Returns item)) /\
  (forall rawID raw_enabled entries raw_commandKind raw_shortcut debug,
     m = RawMenu false (Some rawID) raw_enabled (Some entries) raw_commandKind
                 raw_shortcut debug ->
     let id := match prefix with
               | None => rawID
               | Some prefix => (prefix ++ "." ++ rawID)%string
               end in
     throws (fromDescriptor e m prefix table)
       = submenuError e id entries raw_shortcut (default ∅ table) /\
     (submenuError e id entries raw_shortcut (default ∅ table) = false ->
      exists item, snd (fromDescriptor e m prefix table) = Returns item) /\
     (throws (fromDescriptors e entries id (default ∅ table)) = true <->
      exists before subMenu after,
        entries = before ++ subMenu :: after /\
        negb (PG_DEBUG e) && raw_debug subMenu = false /\
        throws (fromDescriptors e before id (default ∅ table)) = false /\
        throws (fromDescriptor e subMenu (Some id)
                  (Some (fst (fromDescriptors e before id (default ∅ table))))) = true)).
Proof.
  unfold fromDescriptor. set (t0 := default ∅ table). clearbody t0.
  split; [|split; [|split]].
  - intros raw_id raw_enabled submenu raw_commandKind raw_shortcut debug ->. reflexivity.
  - destruct m as [raw_separator raw_id raw_enabled submenu raw_commandKind
                     raw_shortcut debug].
    cbn [listedError]. destruct raw_separator; [discriminate|].
    destruct raw_id as [rawID|]; [|reflexivity].
    rewrite bool_decide_false by done. simpl negb. rewrite andb_true_l, orb_false_l.
    destruct raw_shortcut as [raw|]; [|discriminate]. intros Herr.
    destruct submenu as [entries|].
    + rewrite fromDescriptorWith_submenu. cbv zeta.
      destruct (_getLabelForSubmenu e _) as [label|message]; [|reflexivity].
      pose proof (fromDescriptors_grows e entries
                    match prefix with
                    | Some prefix => (prefix ++ "." ++ rawID)%string
                    | None => rawID
                    end) as Hsub.
      specialize (Hsub ltac:(apply Forall_forall; intros; apply fromDescriptorWith_grows) t0).
      destruct (fromDescriptors e entries _ t0) as [table1 [items|message]];
        [|reflexivity].
      simpl in Hsub.
      destruct (processShortcut_spec e raw table1) as [Hthrows _].
      rewrite (shortcutError_grows e raw t0 table1 Hsub Herr) in Hthrows.
      unfold throws in *.
      destruct (processShortcut e raw table1) as [table2 [shortcut|message]];
        simpl in *; [discriminate|reflexivity].
    + cbn [fromDescriptorWith].
      destruct (processShortcut_spec e raw t0) as [Hthrows _].
      rewrite Herr in Hthrows. unfold throws in *.
      destruct (processShortcut e raw t0) as [table2 [shortcut|message]];
        simpl in *; [discriminate|reflexivity].
  - destruct m as [raw_separator raw_id raw_enabled submenu raw_commandKind
                     raw_shortcut debug].
    cbn [raw_submenu]. intros ->. cbn [listedError fromDescriptorWith].
    destruct raw_separator; [split; [reflexivity|eauto]|].
    destruct raw_id as [rawID|]; [|split; [reflexivity|discriminate]].
    rewrite bool_decide_false by done. simpl negb. rewrite andb_true_l, orb_false_l.
    destruct raw_shortcut as [raw|]; [|split; [reflexivity|eauto]].
    destruct (processShortcut_spec e raw t0) as [Hthrows _].
    rewrite <- Hthrows. unfold throws.
    destruct (processShortcut e raw t0) as [table2 [shortcut|message]]; simpl;
      split; try reflexivity; try discriminate; eauto.
  - intros rawID raw_enabled entries raw_commandKind raw_shortcut debug Hm. subst m.
    cbv zeta.
    set (id := match prefix with Some p => _ | None => _ end).
    assert (Hthrows :
      throws (fromDescriptorWith e
                (RawMenu false (Some rawID) raw_enabled (Some entries) raw_commandKind
                         raw_shortcut debug) prefix t0)
      = submenuError e id entries raw_shortcut t0).
    { rewrite fromDescriptorWith_submenu. cbv zeta. fold id.
      unfold submenuError, _getLabelForSubmenu, _getLabelForEntry.
      destruct (Js.hasOwnProperty (localize e ("menu." ++ id)) "$MENU") eqn:Hlabel.
      - destruct (localize e ("menu." ++ id)); try discriminate. simpl negb.
        cbv iota. rewrite orb_false_l. unfold throws at 2.
        destruct (fromDescriptors e entries id t0) as [table1 [items|message]];
          [|reflexivity].
        cbn [fst snd]. rewrite orb_false_l.
        destruct raw_shortcut as [raw|]; [|reflexivity].
        destruct (processShortcut_spec e raw table1) as [<- _].
        unfold throws.
        by destruct (processShortcut e raw table1) as [table2 [shortcut|message]].
      - simpl. by destruct (localize e ("menu." ++ id)). }
    split; [exact Hthrows|]. split.
    + intros Hnone. rewrite Hnone in Hthrows. unfold throws in Hthrows.
      destruct (snd _) as [item|message]; [eauto|discriminate].
    + apply fromDescriptors_throws.
Qed.

Lemma fromDescriptor_validation_witness :
  throws (fromDescriptor keys bothKeys None None) = true /\
  (exists item, snd (fromDescriptor keys newItem None None) = Returns item) /\
  throws (fromDescriptor plainLabels fileMenu None None) = true /\
  (exists item, snd (fromDescriptor menuEntries fileWithNew None None) = Returns item) /\
  fromDescriptor keys separatorWithShortcut None None = (∅, Returns separatorItem).
Proof.
  split; [|split; [|split; [|split]]].
  - destruct (fromDescriptor_validation keys bothKeys None None) as (_ & Hlisted & _).
    apply Hlisted. reflexivity.
  - destruct (fromDescriptor_validation keys newItem None None) as (_ & _ & Hleaf & _).
    apply Hleaf; reflexivity.
  - destruct (fromDescriptor_validation plainLabels fileMenu None None)
      as (_ & _ & _ & Hsubmenu).
    destruct (Hsubmenu "FILE"%string None [] None None false eq_refl) as (-> & _).
    reflexivity.
  - destruct (fromDescriptor_validation menuEntries fileWithNew None None)
      as (_ & _ & _ & Hsubmenu).
    destruct (Hsubmenu "FILE"%string None [newItem] None None false eq_refl)
      as (_ & Hreturns & _).
    apply Hreturns. reflexivity.
  - destruct (fromDescriptor_validation keys separatorWithShortcut None None)
      as (Hseparator & _).
    by eapply Hseparator.
Defined.

(** A shortcut registered by an earlier entry rejects a later duplicate. *)
Example fromDescriptor_duplicate :
  match fromDescriptor keys newItem None None with
  | (table, Returns _) =>
      snd (fromDescriptor keys newItem None (Some table))
        = Throws "Menu entry shortcut duplicate: char-n"
  | _ => False
  end.
Proof. vm_compute. reflexivity. Qed.

End MenuItemProofs.

(** * Properties of the type tool *)

Module TypeToolProofs.
Import TypeTool TypeToolSpec.

(** ** The emitter *)

Lemma installed_app name r1 r2 :
  installed name (r1 ++ r2) = installed name r1 ++ installed name r2.
Proof. apply omap_app. Qed.

Lemma installed_cons name entry rest :
  installed name (entry :: rest) = installed name [entry] ++ installed name rest.
Proof. apply (installed_app name [entry] rest). Qed.

Lemma installed_rev name r : installed name (rev r) = rev (installed name r).
Proof.
  induction r as [|entry rest IH]; [reflexivity|].
  rewrite installed_cons, rev_app_distr, <- IH.
  cbn [rev]. rewrite installed_app. f_equal.
  destruct entry as [n [closure|closure]]; [|reflexivity].
  unfold installed. simpl. destruct (String.eqb n name); reflexivity.
Qed.

Lemma installed_addListener name name' closure r :
  installed name (addListener name' (Own closure) r) =
  installed name r ++ if String.eqb name' name then [closure] else [].
Proof.
  unfold addListener. rewrite installed_app. f_equal.
  unfold installed. simpl. destruct (String.eqb name' name); reflexivity.
Qed.

Lemma installed_one name n listener :
  installed name [(n, listener)] =
  match listener with
  | Own closure => if String.eqb n name then [closure] else []
  | Foreign _ => []
  end.
Proof.
  unfold installed. simpl. destruct listener; [|reflexivity].
  destruct (String.eqb n name); reflexivity.
Qed.

Lemma installed_removeFirst_other name name' listener r :
  name' <> name \/ (exists closure, listener = Foreign closure) ->
  installed name (removeFirst name' listener r) = installed name r.
Proof.
  intros Hother. induction r as [|entry rest IH]; [reflexivity|].
  cbn [removeFirst]. destruct (decide (entry = (name', listener))) as [->|Hne].
  - rewrite (installed_cons name _ rest), installed_one.
    destruct listener as [closure|closure]; [|reflexivity].
    destruct (String.eqb_spec name' name) as [->|_]; [|reflexivity].
    destruct Hother as [Hne|(c & Hc)]; [contradiction|discriminate].
  - rewrite (installed_cons name entry rest),
      (installed_cons name entry (removeFirst name' listener rest)), IH.
    reflexivity.
Qed.

Lemma installed_removeFirst_single name closure r :
  installed name r = [closure] ->
  installed name (removeFirst name (Own closure) r) = [].
Proof.
  induction r as [|entry rest IH]; [discriminate|].
  cbn [removeFirst]. rewrite (installed_cons name entry rest).
  destruct (decide (entry = (name, Own closure))) as [->|Hne].
  - rewrite installed_one, String.eqb_refl. simpl. congruence.
  - rewrite (installed_cons name entry (removeFirst name (Own closure) rest)).
    destruct entry as [n listener].
    rewrite installed_one. destruct listener as [c|c]; [|exact IH].
    destruct (String.eqb_spec n name) as [->|Hn]; [|exact IH].
    simpl. intros [= -> Hrest]. contradiction.
Qed.

Lemma installed_removeListener_other name name' listener r :
  name' <> name \/ (exists closure, listener = Foreign closure) ->
  installed name (removeListener name' listener r) = installed name r.
Proof.
  intros Hother. unfold removeListener.
  rewrite installed_rev, installed_removeFirst_other, installed_rev by done.
  apply rev_involutive.
Qed.

Lemma installed_removeListener_single name closure r :
  installed name r = [closure] ->
  installed name (removeListener name (Own closure) r) = [].
Proof.
  intros Hone. unfold removeListener.
  rewrite installed_rev, installed_removeFirst_single; [reflexivity|].
  by rewrite installed_rev, Hone.
Qed.

(** Removing what a handler variable holds empties the event's
    registrations, when the two agree. *)
Lemma installed_removeListenerVar name handler r :
  installed name r = closures handler ->
  installed name (removeListenerVar name handler r) = [].
Proof.
  destruct handler as [[closure|closure]|]; simpl; intros Hr.
  - by apply installed_removeListener_single.
  - rewrite installed_removeListener_other; [done|]. right. by eexists.
  - done.
Qed.

Lemma installed_removeListenerVar_other name name' handler r :
  name' <> name ->
  installed name (removeListenerVar name' handler r) = installed name r.
Proof.
  intros Hne. destruct handler as [listener|]; [|reflexivity].
  simpl. apply installed_removeListener_other. by left.
Qed.

(** ** [select], [deselect] and the events keep the registrations and the
    handler variables in step *)

Ltac event_names :=
  repeat match goal with
         | |- context [String.eqb ?a ?b] =>
             let r := eval vm_compute in (String.eqb a b) in
             change (String.eqb a b) with r
         end.

Lemma select_registers w s :
  consistent s ->
  let s' := fst (select w s) in
  let n := nextClosure s in
  installed "updateTextProperties" (listeners s') = [n] /\
  installed "createTextLayer" (listeners s') = [(n + 1)%nat] /\
  installed "deleteTextLayer" (listeners s') = [(n + 2)%nat] /\
  installed "toolModalStateChanged" (listeners s') = [(n + 3)%nat] /\
  _typeChangedHandler s' = Some (Own n) /\
  _layerCreatedHandler s' = Some (Own (n + 1)) /\
  _layerDeletedHandler s' = Some (Own (n + 2)) /\
  _toolModalStateChangedHandler s' = Some (Own (n + 3)).
Proof.
  intros (H1 & H2 & H3 & H4). cbv zeta.
  assert (Hs : exists first outcome,
    select w s =
    (State (Some (Own (nextClosure s))) (Some (Own (nextClosure s + 1)))
           (Some (Own (nextClosure s + 2))) (Some (Own (nextClosure s + 3)))
           (_layersReplaced s) (_layerDeleted s) first
           (addListener "toolModalStateChanged" (Own (nextClosure s + 3))
             (addListener "deleteTextLayer" (Own (nextClosure s + 2))
               (addListener "createTextLayer" (Own (nextClosure s + 1))
                 (addListener "updateTextProperties" (Own (nextClosure s))
                   (removeListenerVar "toolModalStateChanged"
                      (_toolModalStateChangedHandler s)
                     (removeListenerVar "deleteTextLayer" (_layerDeletedHandler s)
                       (removeListenerVar "createTextLayer" (_layerCreatedHandler s)
                         (removeListenerVar "updateTextProperties"
                            (_typeChangedHandler s) (listeners s))))))))) (nextClosure s + 4),
     outcome)).
  { unfold select. destruct (setSuppressTargetPathsOk w), (firstLaunch s); eauto. }
  destruct Hs as (first & outcome & ->). cbn [fst listeners _typeChangedHandler
    _layerCreatedHandler _layerDeletedHandler _toolModalStateChangedHandler].
  rewrite !installed_addListener. event_names.
  repeat split;
    rewrite ?app_nil_r;
    repeat first
      [ rewrite installed_removeListenerVar;
        [reflexivity
        |rewrite ?installed_removeListenerVar_other by discriminate; assumption]
      | rewrite installed_removeListenerVar_other by discriminate ].
Qed.

Lemma select_consistent w s : consistent s -> consistent (fst (select w s)).
Proof.
  intros Hs. pose proof (select_registers w s Hs) as H. cbv zeta in H.
  destruct H as (H1 & H2 & H3 & H4 & H5 & H6 & H7 & H8).
  unfold consistent. rewrite H1, H2, H3, H4, H5, H6, H7, H8. repeat split.
Qed.

Lemma select_listening w s : consistent s -> listening (fst (select w s)).
Proof.
  intros Hs. pose proof (select_registers w s Hs) as H. cbv zeta in H.
  destruct H as (H1 & H2 & H3 & H4 & _).
  unfold listening, modalEvents. repeat constructor.
  - by rewrite H1.
  - by rewrite H2.
  - by rewrite H3.
  - by rewrite H4.
Qed.

Lemma deselect_unregisters w s :
  consistent s ->
  let s' := fst (deselect w s) in
  silent s' /\
  _typeChangedHandler s' = None /\ _layerCreatedHandler s' = None /\
  _layerDeletedHandler s' = None /\ _toolModalStateChangedHandler s' = None.
Proof.
  intros (H1 & H2 & H3 & H4). cbv zeta. unfold deselect. cbn [fst].
  split; [|repeat split].
  unfold silent, modalEvents. cbn [listeners]. repeat constructor;
    repeat first
      [ rewrite installed_removeListenerVar;
        [reflexivity
        |rewrite ?installed_removeListenerVar_other by discriminate; assumption]
      | rewrite installed_removeListenerVar_other by discriminate ].
Qed.

Lemma deselect_consistent w s : consistent s -> consistent (fst (deselect w s)).
Proof.
  intros Hs. pose proof (deselect_unregisters w s Hs) as H. cbv zeta in H.
  destruct H as (Hsilent & H5 & H6 & H7 & H8).
  unfold silent, modalEvents in Hsilent.
  repeat match goal with H : Forall _ (_ :: _) |- _ => inversion_clear H end.
  unfold consistent. rewrite H5, H6, H7, H8. repeat split; assumption.
Qed.

Lemma sameListeners_refl s : sameListeners s s.
Proof. repeat split. Qed.

Lemma sameListeners_trans s1 s2 s3 :
  sameListeners s1 s2 -> sameListeners s2 s3 -> sameListeners s1 s3.
Proof.
  intros (? & ? & ? & ? & ?) (? & ? & ? & ? & ?). repeat split; congruence.
Qed.

Lemma listener_sameListeners w e s : sameListeners s (fst (listener w e s)).
Proof.
  destruct e as [event|event|event|event]; simpl.
  - apply sameListeners_refl.
  - unfold layerCreated.
    destruct (getCurrentDocument w) as [document|]; [|apply sameListeners_refl].
    destruct (LayerStructure.byID _ _); [apply sameListeners_refl|].
    destruct (Promise.outcome _); [|repeat split].
    destruct (_getPropertiesFromEvent w event); [|repeat split].
    destruct (getDocument w _); repeat split.
  - repeat split.
  - unfold toolModalStateChangedHandler.
    destruct (isTypeCancel event); [|apply sameListeners_refl].
    destruct (Js.truthy _); repeat split.
Qed.

Lemma emit_emitLoop w e s :
  emit w e s = emitLoop w e (installed (eventName e) (listeners s)) (s, []).
Proof.
  unfold emit. generalize (s, @nil effect) as acc.
  induction (installed (eventName e) (listeners s)) as [|c rest IH]; intros acc.
  - reflexivity.
  - simpl. apply IH.
Qed.

Lemma emitLoop_sameListeners w e registered : forall s effects,
  sameListeners s (fst (emitLoop w e registered (s, effects))).
Proof.
  induction registered as [|c rest IH]; intros s effects; simpl.
  - apply sameListeners_refl.
  - pose proof (listener_sameListeners w e s) as Hstep.
    destruct (listener w e s) as [s1 more]. simpl in Hstep.
    eapply sameListeners_trans; [exact Hstep|apply IH].
Qed.

Lemma emit_sameListeners w e s : sameListeners s (fst (emit w e s)).
Proof. rewrite emit_emitLoop. apply emitLoop_sameListeners. Qed.

(** With one registration the listener runs once. *)
Lemma emit_once w e s :
  length (installed (eventName e) (listeners s)) = 1%nat ->
  emit w e s = listener w e s.
Proof.
  intros Hone. rewrite emit_emitLoop.
  destruct (installed (eventName e) (listeners s)) as [|c [|c' rest]]; try discriminate.
  simpl. destruct (listener w e s). reflexivity.
Qed.

Lemma sameListeners_consistent s s' : sameListeners s s' -> consistent s -> consistent s'.
Proof.
  intros (Hl & H1 & H2 & H3 & H4). unfold consistent.
  rewrite Hl, H1, H2, H3, H4. done.
Qed.

Lemma sameListeners_listening s s' : sameListeners s s' -> listening s -> listening s'.
Proof. intros (Hl & _). unfold listening. by rewrite Hl. Qed.

Lemma step_consistent w i s : consistent s -> consistent (fst (step w i s)).
Proof.
  intros Hs. destruct i as [| |e]; unfold step.
  - pose proof (select_consistent w s Hs) as H.
    destruct (select w s) as [s1 p]. exact H.
  - pose proof (deselect_consistent w s Hs) as H.
    destruct (deselect w s) as [s1 p]. exact H.
  - eapply sameListeners_consistent; [apply emit_sameListeners|exact Hs].
Qed.

Lemma run_consistent inputs : forall s, consistent s -> consistent (fst (run inputs s)).
Proof.
  induction inputs as [|[w i] rest IH]; intros s Hs; simpl; [exact Hs|].
  pose proof (step_consistent w i s Hs) as Hstep.
  destruct (step w i s) as [s1 effects]. simpl in Hstep.
  specialize (IH s1 Hstep). destruct (run rest s1). exact IH.
Qed.

Lemma installed_foreign name others :
  installed name (map (fun '(n, c) => (n, Foreign c)) others) = [].
Proof.
  induction others as [|[n c] rest IH]; [reflexivity|].
  simpl map. rewrite installed_cons, installed_one, IH. reflexivity.
Qed.

Lemma initial_consistent others : consistent (initial others).
Proof. repeat split; apply installed_foreign. Qed.

(** C8. In every session, whatever came before: after [select] exactly
    one listener of each of the four modal events is registered, the one
    the handler variable holds; after [deselect] none is, and the four
    handler variables are cleared. *)
Theorem select_deselect_listeners
    (others : list (string * nat)) (inputs : list (world * input)) (w : world) :
  let s := fst (run inputs (initial others)) in
  (let s' := fst (select w s) in
   listening s' /\
   installed "updateTextProperties" (listeners s') = closures (_typeChangedHandler s') /\
   installed "createTextLayer" (listeners s') = closures (_layerCreatedHandler s') /\
   installed "deleteTextLayer" (listeners s') = closures (_layerDeletedHandler s') /\
   installed "toolModalStateChanged" (listeners s')
     = closures (_toolModalStateChangedHandler s')) /\
  (let s' := fst (deselect w s) in
   silent s' /\
   _typeChangedHandler s' = None /\ _layerCreatedHandler s' = None /\
   _layerDeletedHandler s' = None /\ _toolModalStateChangedHandler s' = None).
Proof.
  intros s.
  assert (Hs : consistent s) by (apply run_consistent, initial_consistent).
  split.
  - cbv zeta. split; [by apply select_listening|].
    by apply select_consistent.
  - by apply deselect_unregisters.
Qed.

(** Two [select]s in a row, on an emitter with a foreign listener: one
    registration of each, the newer closures. *)
Example select_twice :
  let w := worldOf Fixtures.placeholderDocument in
  let s := fst (run [(w, Select); (w, Select)]
                    (initial [("createTextLayer"%string, 7%nat)])) in
  map (fun name => installed name (listeners s)) modalEvents
    = [[4%nat]; [5%nat]; [6%nat]; [7%nat]] /\
  length (listeners s) = 5%nat.
Proof. vm_compute. split; reflexivity. Qed.

(** ** The deleted-layer record and the modal cancel *)

Lemma listening_event s e :
  listening s -> length (installed (eventName e) (listeners s)) = 1%nat.
Proof.
  unfold listening, modalEvents. intros H.
  repeat match goal with H : Forall _ (_ :: _) |- _ => inversion_clear H end.
  destruct e; assumption.
Qed.

Lemma emit_listening w e s : listening s -> listening (fst (emit w e s)).
Proof. apply sameListeners_listening, emit_sameListeners. Qed.

Lemma listener_neutral_layerDeleted w e s :
  neutral e -> _layerDeleted (fst (listener w e s)) = _layerDeleted s.
Proof.
  destruct e as [event|event|event|event]; simpl; intros Hneutral.
  - reflexivity.
  - unfold layerCreated.
    destruct (getCurrentDocument w) as [document|]; [|reflexivity].
    destruct (LayerStructure.byID _ _); [reflexivity|].
    destruct (Promise.outcome _); [|reflexivity].
    destruct (_getPropertiesFromEvent w event); [|reflexivity].
    destruct (getDocument w _); reflexivity.
  - contradiction.
  - unfold toolModalStateChangedHandler. rewrite Hneutral. reflexivity.
Qed.

Lemma run_neutral between : forall s,
  listening s -> Forall (fun we => neutral (snd we)) between ->
  listening (fst (run (emits between) s)) /\
  _layerDeleted (fst (run (emits between) s)) = _layerDeleted s.
Proof.
  induction between as [|[w e] rest IH]; intros s Hs Hneutral; simpl.
  - split; [exact Hs|reflexivity].
  - inversion_clear Hneutral as [|? ? He Hrest]. simpl in He.
    pose proof (emit_listening w e s Hs) as Hnext.
    pose proof (listener_neutral_layerDeleted w e s He) as Hkeep.
    rewrite <- (emit_once w e s (listening_event s e Hs)) in Hkeep.
    destruct (emit w e s) as [s1 effects]. simpl in Hnext, Hkeep.
    destruct (IH s1 Hnext Hrest) as [Hl Hd].
    destruct (run (emits rest) s1) as [s2 more]. simpl in *.
    split; [exact Hl|congruence].
Qed.

(** C7. While the tool listens: a [deleteTextLayer] event records the
    layer ID; the next type-tool cancel, whatever other events come in
    between, clears the record and does nothing else. A type-tool cancel
    that finds no record resets the selected layers of the current
    document. Layer IDs are the host's, which are not zero. *)
Theorem cancel_after_delete
    (s : state) (w1 w2 : world) (deleted : deleteTextLayerEvent)
    (cancel : toolModalStateChangedEvent) (between : list (world * hostEvent)) :
  listening s ->
  isTypeCancel cancel = true ->
  deleted_layerID deleted <> 0 ->
  Forall (fun we => neutral (snd we)) between ->
  let s1 := fst (emit w1 (deleteTextLayer deleted) s) in
  let s2 := fst (run (emits between) s1) in
  _layerDeleted s1 = Js.Num (deleted_layerID deleted) /\
  emit w2 (toolModalStateChanged cancel) s2 = (set_layerDeleted Js.Null s2, []) /\
  forall s' document,
    listening s' -> Js.truthy (_layerDeleted s') = false ->
    getCurrentDocument w2 = Some document ->
    emit w2 (toolModalStateChanged cancel) s' =
    (s', [ResetLayers document
            (LayerList (LayerStructure.selected (Document.layers document)))]).
Proof.
  intros Hs Hcancel Hid Hneutral s1 s2.
  assert (Hs1 : listening s1) by (by apply emit_listening).
  assert (Hrecord : _layerDeleted s1 = Js.Num (deleted_layerID deleted)).
  { unfold s1. rewrite (emit_once w1 (deleteTextLayer deleted) s)
      by (by apply listening_event). reflexivity. }
  destruct (run_neutral between s1 Hs1 Hneutral) as [Hs2 Hkeep]. fold s2 in Hs2, Hkeep.
  split; [exact Hrecord|]. split.
  - rewrite (emit_once w2 (toolModalStateChanged cancel) s2)
      by (by apply listening_event).
    simpl. unfold toolModalStateChangedHandler.
    rewrite Hcancel, Hkeep, Hrecord. simpl.
    destruct (Z.eqb_spec (deleted_layerID deleted) 0); [contradiction|reflexivity].
  - intros s' document Hs' Hnone Hdocument.
    rewrite (emit_once w2 (toolModalStateChanged cancel) s')
      by (by apply listening_event).
    simpl. unfold toolModalStateChangedHandler, handleTypeModalStateCanceled.
    rewrite Hcancel, Hnone, Hdocument. reflexivity.
Qed.

Lemma cancel_after_delete_witness :
  let w := worldOf artboardDocumentWithText in
  let s := fst (select w (initial [])) in
  let s1 := fst (emit w (deleteTextLayer (DeleteEvent 10)) s) in
  let s2 := fst (run (emits [(w, updateTextProperties Js.Null)]) s1) in
  _layerDeleted s1 = Js.Num 10 /\
  emit w (toolModalStateChanged cancelEvent) s2 = (set_layerDeleted Js.Null s2, []) /\
  emit w (toolModalStateChanged cancelEvent) s =
  (s, [ResetLayers artboardDocumentWithText (LayerList [textLayer])]).
Proof.
  intros w s s1 s2.
  assert (Hs : listening s) by (repeat constructor).
  destruct (cancel_after_delete s w w (DeleteEvent 10) cancelEvent
              [(w, updateTextProperties Js.Null)] Hs eq_refl)
    as (Hrecord & Hclears & Hresets).
  - simpl. lia.
  - repeat constructor.
  - split; [exact Hrecord|]. split; [exact Hclears|].
    apply (Hresets s artboardDocumentWithText Hs); reflexivity.
Defined.

(** The record is tested for truthiness: an ID of 0 would not be
    recognised. The host does not hand out such an ID. *)
Example cancel_after_delete_of_zero :
  let w := worldOf artboardDocumentWithText in
  let s := fst (run [(w, Select); (w, Emit (deleteTextLayer (DeleteEvent 0)))]
                    (initial [])) in
  actions (snd (emit w (toolModalStateChanged cancelEvent) s))
    = [ResetLayers artboardDocumentWithText (LayerList [textLayer])].
Proof. reflexivity. Qed.

(** ** The layers-replaced flag *)

(** What [handleDeletedLayer] does with the flag it is given. *)
Lemma handleDeletedLayer_by_flag w event layersReplaced document :
  getCurrentDocument w = Some document ->
  Promise.effects (handleDeletedLayer w event layersReplaced) =
  if Js.truthy layersReplaced then [UpdateDocument]
  else match LayerStructure.byID (Document.layers document) (deleted_layerID event) with
       | Some layer => [RemoveLayers document layer true]
       | None =>
           [LogWarn "Unable to handle deleted text layer because it does not exist";
            UpdateDocument]
       end.
Proof.
  intros Hdocument. unfold handleDeletedLayer. rewrite Hdocument.
  destruct (Js.truthy layersReplaced); [reflexivity|].
  destruct (LayerStructure.byID _ _); reflexivity.
Qed.

Lemma listener_layersReplaced w e s :
  Js.truthy (_layersReplaced s) = false ->
  Js.truthy (_layersReplaced (fst (listener w e s))) = false.
Proof.
  intros Hflag. destruct e as [event|event|event|event]; simpl.
  - exact Hflag.
  - unfold layerCreated.
    destruct (getCurrentDocument w) as [document|]; [|exact Hflag].
    destruct (LayerStructure.byID _ _); [exact Hflag|].
    destruct (Promise.outcome _) as [layersReplaced|reason] eqn:Houtcome;
      [|reflexivity].
    apply LayersProofs.addLayers_resolves_undefined in Houtcome as ->.
    destruct (_getPropertiesFromEvent w event); [|reflexivity].
    destruct (getDocument w _); reflexivity.
  - exact Hflag.
  - unfold toolModalStateChangedHandler.
    destruct (isTypeCancel event); [|exact Hflag].
    destruct (Js.truthy (_layerDeleted s)); exact Hflag.
Qed.

Lemma emitLoop_layersReplaced w e registered : forall s effects,
  Js.truthy (_layersReplaced s) = false ->
  Js.truthy (_layersReplaced (fst (emitLoop w e registered (s, effects)))) = false.
Proof.
  induction registered as [|c rest IH]; intros s effects Hflag; simpl; [exact Hflag|].
  pose proof (listener_layersReplaced w e s Hflag) as Hstep.
  destruct (listener w e s) as [s1 more]. simpl in Hstep. by apply IH.
Qed.

Lemma step_layersReplaced w i s :
  Js.truthy (_layersReplaced s) = false ->
  Js.truthy (_layersReplaced (fst (step w i s))) = false.
Proof.
  intros Hflag. destruct i as [| |e]; unfold step.
  - unfold select. destruct (setSuppressTargetPathsOk w), (firstLaunch s); exact Hflag.
  - exact Hflag.
  - rewrite emit_emitLoop. by apply emitLoop_layersReplaced.
Qed.

(** In no session does the flag ever become truthy: the promise of
    [addLayers] resolves with [undefined], whatever was replaced. *)
Lemma layersReplaced_never_set inputs : forall others,
  Js.truthy (_layersReplaced (fst (run inputs (initial others)))) = false.
Proof.
  intros others.
  assert (H : forall s, Js.truthy (_layersReplaced s) = false ->
                        Js.truthy (_layersReplaced (fst (run inputs s))) = false).
  { induction inputs as [|[w i] rest IH]; intros s Hflag; simpl; [exact Hflag|].
    pose proof (step_layersReplaced w i s Hflag) as Hstep.
    destruct (step w i s) as [s1 effects]. simpl in Hstep.
    specialize (IH s1 Hstep). destruct (run rest s1). exact IH. }
  apply H. reflexivity.
Qed.

(** C2, evaluated on the code: in the session of the scenario the
    [ADD_LAYERS] payload says [replace = true], yet the flag the session
    keeps is [undefined], and the [deleteTextLayer] event for layer 10 leads
    to the removal of that one layer, not to [updateDocument]. *)
Theorem replaced_then_deleted_removes_layer :
  let '(s, effects) := run replacedThenDeleted (initial []) in
  replaceFlags effects = [Js.Bool true] /\
  _layersReplaced s = Js.Undefined /\
  actions effects = [RemoveLayers artboardDocumentWithText textLayer true].
Proof. vm_compute. repeat split. Qed.

End TypeToolProofs.

(** * Properties of the menu item operations *)

Module MenuItemOpsProofs.
Import MenuItem MenuItemSpec MenuItemOps.

(** ** [submenuMap] and [byID] *)

Lemma indexEntries_lookup entries : forall start map key,
  Js.reduceFrom indexEntry start map entries !! key =
  match lastIndex key entries start with
  | Some index => Some index
  | None => map !! key
  end.
Proof.
  induction entries as [|entry rest IH]; intros start map key; simpl; [reflexivity|].
  rewrite IH. destruct (lastIndex key rest (S start)); [reflexivity|].
  unfold indexEntry. destruct (isSeparator entry); simpl; [reflexivity|].
  destruct (decide (item_itemID entry = key)) as [<-|Hne].
  - by rewrite bool_decide_true, lookup_insert_eq.
  - by rewrite bool_decide_false, lookup_insert_ne.
Qed.

Lemma lastIndex_Some key entries : forall start index,
  lastIndex key entries start = Some index ->
  exists k entry,
    index = (start + k)%nat /\ entries !! k = Some entry /\
    isSeparator entry = false /\ item_itemID entry = key /\
    forall j other, (k < j)%nat -> entries !! j = Some other ->
                    isSeparator other = true \/ item_itemID other <> key.
Proof.
  induction entries as [|entry rest IH]; intros start index; simpl; [discriminate|].
  destruct (lastIndex key rest (S start)) as [later|] eqn:Hrest.
  - intros [= <-]. destruct (IH _ _ Hrest) as (k & found & -> & Hk & Hsep & Hkey & Hlast).
    exists (S k), found. repeat split; try done; try lia.
    intros [|j] other Hj; [lia|]. simpl. apply Hlast. lia.
  - destruct (isSeparator entry) eqn:Hsep; simpl; [discriminate|].
    case_bool_decide as Hkey; [|discriminate]. intros [= <-].
    exists 0%nat, entry. repeat split; try done; try lia.
    intros [|j] other Hj Hother; [lia|]. simpl in Hother.
    destruct (isSeparator other) eqn:Hs; [by left|right]. intros Hk.
    assert (Hnone : forall l s, lastIndex key l s = None ->
              forall i x, l !! i = Some x -> isSeparator x = false ->
                          item_itemID x = key -> False).
    { clear. induction l as [|y l IHl]; intros s Hl i x Hi Hx Hxk; [done|].
      simpl in Hl. destruct (lastIndex key l (S s)) eqn:Hl'; [discriminate|].
      destruct i as [|i]; simpl in Hi.
      - injection Hi as ->. rewrite Hx, bool_decide_true in Hl by done. discriminate.
      - by eapply IHl. }
    by eapply (Hnone rest (S start) Hrest j other).
Qed.

Lemma lastIndex_None key entries : forall start,
  lastIndex key entries start = None <->
  forall other, other ∈ entries -> isSeparator other = true \/ item_itemID other <> key.
Proof.
  induction entries as [|entry rest IH]; intros start; simpl.
  - split; [|done]. intros _ other Hin. by apply elem_of_nil in Hin.
  - destruct (lastIndex key rest (S start)) as [later|] eqn:Hrest.
    + split; [discriminate|]. intros Hall.
      assert (Hnone : lastIndex key rest (S start) = None).
      { apply IH. intros other Hin. apply Hall. by right. }
      congruence.
    + pose proof (proj1 (IH (S start)) Hrest) as Hothers.
      destruct (isSeparator entry) eqn:Hsep; simpl.
      * split; [|done]. intros _ other Hin.
        apply elem_of_cons in Hin as [->|Hin]; [by left|by apply Hothers].
      * case_bool_decide as Hkey.
        -- split; [discriminate|]. intros Hall.
           destruct (Hall entry) as [H|H]; [by left|congruence|contradiction].
        -- split; [|done]. intros _ other Hin.
           apply elem_of_cons in Hin as [->|Hin]; [by right|by apply Hothers].
Qed.

(** X1. [byID] throws exactly when the item has no sub-menu. Otherwise it
    answers the last entry of the sub-menu that has the given item ID and is
    no separator, and [null] exactly when there is no such entry. *)
Theorem byID_last_entry (m : t) (menuID : string) :
  (item_submenu m = None -> byID m menuID = Throws "TypeError") /\
  forall submenu, item_submenu m = Some submenu ->
    (forall item, byID m menuID = Returns (Some item) ->
       exists index,
         submenu !! index = Some item /\
         item_itemID item = Some menuID /\ isSeparator item = false /\
         forall j other, (index < j)%nat -> submenu !! j = Some other ->
                         isSeparator other = true \/ item_itemID other <> Some menuID) /\
    (byID m menuID = Returns None <->
     forall other, other ∈ submenu ->
                   isSeparator other = true \/ item_itemID other <> Some menuID) /\
    (forall message, byID m menuID <> Throws message).
Proof.
  unfold byID, submenuMap. split.
  - intros ->. reflexivity.
  - intros submenu ->. unfold Js.reduce.
    rewrite indexEntries_lookup, lookup_empty.
    destruct (lastIndex (Some menuID) submenu 0) as [index|] eqn:Hlast.
    + destruct (lastIndex_Some _ _ _ _ Hlast) as (k & entry & -> & Hk & Hsep & Hkey & Hafter).
      simpl. rewrite Hk. split; [|split].
      * intros item [= <-]. exists k. repeat split; done.
      * split; [discriminate|]. intros Hall.
        apply lastIndex_None with (start := 0%nat) in Hall. congruence.
      * discriminate.
    + split; [discriminate|]. split; [|discriminate].
      split; [intros _|reflexivity]. by apply (lastIndex_None _ _ 0%nat).
Qed.

Lemma byID_last_entry_witness :
  byID (editItem "CUT" true) "CUT" = Throws "TypeError" /\
  (exists index,
     [editItem "CUT" true; separatorItem; editItem "PASTE" false; editItem "CUT" false]
       !! index = Some (editItem "CUT" false) /\
     item_itemID (editItem "CUT" false) = Some "CUT"%string) /\
  byID editMenu "COPY" = Returns None.
Proof.
  split; [|split].
  - apply (byID_last_entry (editItem "CUT" true) "CUT"). reflexivity.
  - destruct (byID_last_entry editMenu "CUT") as [_ H].
    destruct (H _ eq_refl) as (Hfound & _).
    destruct (Hfound (editItem "CUT" false) eq_refl) as (index & Hindex & Hid & _).
    exists index. split; assumption.
  - destruct (byID_last_entry editMenu "COPY") as [_ H].
    destruct (H _ eq_refl) as (_ & Hnone & _). apply Hnone.
    intros other Hin. unfold editMenu in Hin.
    repeat (apply elem_of_cons in Hin as [->|Hin]); try (by left); try (by right).
    by apply elem_of_nil in Hin.
Defined.

(** ** [updateSubmenuProps] *)

(** An entry's place in [submenuMap] depends on its item ID and on whether
    it is a separator, on nothing else. *)
Lemma lastIndex_ext key entries : forall entries' start,
  Forall2 (fun a b => isSeparator a = isSeparator b /\ item_itemID a = item_itemID b)
          entries entries' ->
  lastIndex key entries start = lastIndex key entries' start.
Proof.
  induction entries as [|entry rest IH]; intros entries' start Hsame;
    inversion Hsame as [|? entry' ? rest' [Hsep Hid] Hrest]; subst; simpl; [reflexivity|].
  rewrite (IH rest' (S start) Hrest), Hsep, Hid. reflexivity.
Qed.

Lemma Forall2_insert_same {A} (R : A -> A -> Prop) (l : list A) i x y :
  (forall a, R a a) -> l !! i = Some x -> R x y -> Forall2 R l (<[i := y]> l).
Proof.
  intros Hrefl. revert i. induction l as [|a l IH]; intros i Hi Hxy; [done|].
  destruct i as [|i]; simpl in *.
  - injection Hi as ->. constructor; [done|]. by apply Forall_Forall2_diag, Forall_forall.
  - constructor; [done|]. by apply IH.
Qed.

(** X2. [updateSubmenuProps] throws when no entry has the given ID;
    otherwise it answers the item with that one entry replaced by the merge:
    the sub-menu keeps its length, every other entry and every other field of
    the item stay as they were. *)
Theorem updateSubmenuProps_replaces_one
    (m : t) (submenuID : string) (p : props) (submenu : list t) :
  item_submenu m = Some submenu ->
  (byID m submenuID = Returns None ->
   updateSubmenuProps m submenuID p
     = Throws ("Unable to find submenu with ID " ++ submenuID)) /\
  (forall menuItem, byID m submenuID = Returns (Some menuItem) ->
     exists index submenu',
       submenu !! index = Some menuItem /\
       updateSubmenuProps m submenuID p = Returns (withSubmenu m (Some submenu')) /\
       length submenu' = length submenu /\
       submenu' !! index = Some (merge menuItem p) /\
       forall j, j <> index -> submenu' !! j = submenu !! j).
Proof.
  intros Hsub. unfold updateSubmenuProps. split.
  - intros ->. reflexivity.
  - intros menuItem Hfound. rewrite Hfound.
    unfold byID, submenuMap in *. rewrite Hsub in *.
    destruct (Js.reduce indexEntry submenu ∅ !! Some submenuID) as [index|] eqn:Hindex;
      [|discriminate].
    injection Hfound as Hfound.
    exists index, (<[index := merge menuItem p]> submenu).
    split; [exact Hfound|]. split; [reflexivity|].
    split; [apply length_insert|]. split.
    + apply list_lookup_insert_eq. by eapply lookup_lt_Some.
    + intros j Hj. by apply list_lookup_insert_ne.
Qed.

Lemma updateSubmenuProps_replaces_one_witness :
  updateSubmenuProps editMenu "COPY" noProps
    = Throws "Unable to find submenu with ID COPY" /\
  exists index submenu',
    updateSubmenuProps editMenu "CUT" (Props None None None None None None None
                                         (Some true) None)
      = Returns (withSubmenu editMenu (Some submenu')) /\
    submenu' !! index = Some (editItem "CUT" true).
Proof.
  split.
  - apply (updateSubmenuProps_replaces_one editMenu "COPY" noProps _ eq_refl).
    reflexivity.
  - destruct (updateSubmenuProps_replaces_one editMenu "CUT"
                (Props None None None None None None None (Some true) None) _ eq_refl)
      as [_ H].
    destruct (H (editItem "CUT" false) eq_refl)
      as (index & submenu' & _ & Hupdate & _ & Hmerged & _).
    exists index, submenu'. split; [exact Hupdate|exact Hmerged].
Defined.

Lemma byID_lastIndex m menuID submenu :
  item_submenu m = Some submenu ->
  byID m menuID =
  match lastIndex (Some menuID) submenu 0 with
  | Some index => Returns (submenu !! index)
  | None => Returns None
  end.
Proof.
  intros Hsub. unfold byID, submenuMap. rewrite Hsub. unfold Js.reduce.
  rewrite indexEntries_lookup, lookup_empty.
  destruct (lastIndex (Some menuID) submenu 0); reflexivity.
Qed.

Lemma updateSubmenuProps_lastIndex m submenuID p submenu menuItem :
  item_submenu m = Some submenu ->
  byID m submenuID = Returns (Some menuItem) ->
  exists index,
    lastIndex (Some submenuID) submenu 0 = Some index /\
    submenu !! index = Some menuItem /\
    updateSubmenuProps m submenuID p
      = Returns (withSubmenu m (Some (<[index := merge menuItem p]> submenu))).
Proof.
  intros Hsub Hfound. unfold updateSubmenuProps. rewrite Hfound.
  rewrite (byID_lastIndex m submenuID submenu Hsub) in Hfound.
  unfold submenuMap. rewrite Hsub. unfold Js.reduce.
  rewrite indexEntries_lookup, lookup_empty.
  destruct (lastIndex (Some submenuID) submenu 0) as [index|]; [|discriminate].
  injection Hfound as Hfound. exists index. repeat split; done.
Qed.

(** X3. After [updateSubmenuProps] with properties that leave [type] and
    [itemID] alone, [byID] of the same ID answers the merged entry, and [byID]
    of every other ID answers what it answered before. *)
Theorem updateSubmenuProps_then_byID
    (m m' : t) (submenuID : string) (p : props) (menuItem : t) :
  p_type p = None -> p_itemID p = None ->
  byID m submenuID = Returns (Some menuItem) ->
  updateSubmenuProps m submenuID p = Returns m' ->
  byID m' submenuID = Returns (Some (merge menuItem p)) /\
  forall other, other <> submenuID -> byID m' other = byID m other.
Proof.
  intros Htype HitemID Hfound Hupdate.
  destruct (item_submenu m) as [submenu|] eqn:Hsub;
    [|unfold byID, submenuMap in Hfound; rewrite Hsub in Hfound; discriminate].
  destruct (updateSubmenuProps_lastIndex m submenuID p submenu menuItem Hsub Hfound)
    as (index & Hlast & Hindex & Hresult).
  rewrite Hresult in Hupdate. injection Hupdate as <-.
  set (submenu' := <[index := merge menuItem p]> submenu).
  assert (Hsub' : item_submenu (withSubmenu m (Some submenu')) = Some submenu')
    by reflexivity.
  assert (Hsame : forall key, lastIndex key submenu' 0 = lastIndex key submenu 0).
  { intros key. symmetry. apply lastIndex_ext.
    apply (Forall2_insert_same _ submenu index menuItem); [done|exact Hindex|].
    destruct menuItem. unfold isSeparator, merge. simpl.
    rewrite Htype, HitemID. done. }
  split.
  - rewrite (byID_lastIndex _ submenuID submenu' Hsub'), Hsame, Hlast.
    unfold submenu'. rewrite list_lookup_insert_eq; [done|].
    by eapply lookup_lt_Some.
  - intros other Hother.
    rewrite (byID_lastIndex _ other submenu' Hsub'), (byID_lastIndex m other submenu Hsub).
    rewrite Hsame.
    destruct (lastIndex (Some other) submenu 0) as [index'|] eqn:Hlast'; [|reflexivity].
    f_equal. unfold submenu'. apply list_lookup_insert_ne. intros <-.
    destruct (lastIndex_Some _ _ _ _ Hlast) as (k & e & Hk & He & _ & Hid & _).
    destruct (lastIndex_Some _ _ _ _ Hlast') as (k' & e' & Hk' & He' & _ & Hid' & _).
    simpl in Hk, Hk'. subst k k'. rewrite He in He'. injection He' as <-.
    congruence.
Qed.

Lemma updateSubmenuProps_then_byID_witness :
  let p := Props None None None None None None None (Some true) None in
  exists m',
    updateSubmenuProps editMenu "CUT" p = Returns m' /\
    byID m' "CUT" = Returns (Some (merge (editItem "CUT" false) p)) /\
    byID m' "PASTE" = byID editMenu "PASTE".
Proof.
  intros p.
  destruct (updateSubmenuProps editMenu "CUT" p) as [m'|message] eqn:Hupdate;
    [|discriminate].
  exists m'. split; [reflexivity|].
  destruct (updateSubmenuProps_then_byID editMenu m' "CUT" p (editItem "CUT" false)
              eq_refl eq_refl eq_refl Hupdate) as [Hsame Hothers].
  split; [exact Hsame|]. apply Hothers. discriminate.
Defined.

(** ** [_update] and [exportDescriptor] *)

(** Induction on menu items, through their sub-menus. *)
Section ItemInduction.
Variable P : t -> Prop.
Hypothesis step : forall type id itemID label submenu command commandKind shortcut
                         enabled checked,
    match submenu with
    | Some items => Forall P items
    | None => True
    end ->
    P (Make type id itemID label submenu command commandKind shortcut enabled checked).

Fixpoint item_induction (m : t) : P m :=
  match m with
  | Make type id itemID label submenu command commandKind shortcut enabled checked =>
      step type id itemID label submenu command commandKind shortcut enabled checked
           match submenu return match submenu with
                                | Some items => Forall P items
                                | None => True
                                end with
           | Some items =>
               (fix all (items : list t) : Forall P items :=
                  match items with
                  | [] => @List.Forall_nil t P
                  | item :: rest =>
                      @List.Forall_cons t P item rest (item_induction item) (all rest)
                  end) items
           | None => I
           end
  end.
End ItemInduction.






Lemma update_key enablers rules m :
  isSeparator (_update enablers rules m) = isSeparator m /\
  item_itemID (_update enablers rules m) = item_itemID m.
Proof. destruct m. split; reflexivity. Qed.

Lemma update_submenu enablers rules m :
  item_submenu (_update enablers rules m)
  = map (_update enablers rules) <$> item_submenu m.
Proof. destruct m as [? ? ? ? [items|] ? ? ? ? ?]; reflexivity. Qed.

(** X5. [_update] keeps the lookup: [byID] on the updated item answers the
    update of what [byID] answered before, and throws when it threw. *)
Theorem update_then_byID
    (enablers : gmap string (list string)) (rules : string -> bool) (m : t)
    (menuID : string) :
  byID (_update enablers rules m) menuID =
  match byID m menuID with
  | Returns found => Returns (_update enablers rules <$> found)
  | Throws message => Throws message
  end.
Proof.
  destruct (item_submenu m) as [submenu|] eqn:Hsub.
  - assert (Hsub' : item_submenu (_update enablers rules m)
                    = Some (map (_update enablers rules) submenu))
      by (by rewrite update_submenu, Hsub).
    rewrite (byID_lastIndex _ menuID _ Hsub'), (byID_lastIndex m menuID submenu Hsub).
    replace (lastIndex (Some menuID) (map (_update enablers rules) submenu) 0)
      with (lastIndex (Some menuID) submenu 0).
    + destruct (lastIndex (Some menuID) submenu 0) as [index|]; [|reflexivity].
      f_equal. apply list_lookup_fmap.
    + apply lastIndex_ext. apply Forall2_fmap_r, Forall_Forall2_diag, Forall_forall.
      intros item _. unfold compose.
      destruct (update_key enablers rules item) as [-> ->]. done.
  - unfold byID, submenuMap. rewrite update_submenu, Hsub. reflexivity.
Qed.

(** X6. Neither [_update] nor [exportDescriptor] adds, drops or moves an
    entry: the menu keeps its shape at every level; and a sub-menu without
    entries is exported disabled, whatever the rules say. *)
Theorem update_export_shape
    (enablers : gmap string (list string)) (rules : string -> bool)
    (exportShortcut : MenuShortcut -> Js.val) (m : t) :
  shapeOf (_update enablers rules m) = shapeOf m /\
  shapeOfExported (exportDescriptor exportShortcut m) = shapeOf m /\
  (item_submenu m = Some [] ->
   e_enabled (exportDescriptor exportShortcut (_update enablers rules m)) = false).
Proof.
  split; [|split].
  - induction m as [type id itemID label submenu command commandKind shortcut enabled
                      checked IH] using item_induction.
    cbn [_update shapeOf]. f_equal.
    destruct submenu as [items|]; [|reflexivity]. f_equal.
    rewrite List.map_map. apply List.map_ext_in. intros item Hin.
    rewrite Forall_forall in IH. apply IH. by apply list_elem_of_In.
  - induction m as [type id itemID label submenu command commandKind shortcut enabled
                      checked IH] using item_induction.
    cbn [exportDescriptor shapeOfExported shapeOf]. f_equal.
    destruct submenu as [items|]; [|reflexivity]. f_equal.
    rewrite List.map_map. apply List.map_ext_in. intros item Hin.
    rewrite Forall_forall in IH. apply IH. by apply list_elem_of_In.
  - destruct m. simpl. intros ->. reflexivity.
Qed.

Lemma update_export_shape_witness :
  let emptyMenu := Make None (Some "HELP"%string) (Some "HELP"%string) (Js.Str "Help")
                        (Some []) None Js.Null None true false in
  e_enabled (exportDescriptor (fun _ => Js.Null)
               (_update {[ "HELP"%string := ["always"%string] ]}
                        (fun rule => String.eqb rule "always") emptyMenu)) = false.
Proof.
  intros emptyMenu.
  apply (update_export_shape {[ "HELP"%string := ["always"%string] ]}
           (fun rule => String.eqb rule "always") (fun _ => Js.Null) emptyMenu).
  reflexivity.
Defined.

(** ** [fromDescriptor]: paths, kept entries and registered shortcuts *)

Lemma pathsFrom_unfold prefix type id itemID label submenu command commandKind shortcut
      enabled checked :
  pathsFrom prefix (Make type id itemID label submenu command commandKind shortcut
                         enabled checked) <->
  Make type id itemID label submenu command commandKind shortcut enabled checked
    = separatorItem \/
  exists rawID,
    itemID = Some rawID /\ id = Some (path prefix rawID) /\
    match submenu with
    | Some items => Forall (pathsFrom (Some (path prefix rawID))) items
    | None => True
    end.
Proof.
  cbn [pathsFrom].
  assert (Hall : forall p items,
            (fix all (items : list t) : Prop :=
               match items with
               | [] => True
               | item :: rest => pathsFrom p item /\ all rest
               end) items <-> Forall (pathsFrom p) items).
  { intros p items. induction items as [|item rest IH].
    - split; [constructor|done].
    - rewrite Forall_cons, IH. done. }
  split; (intros [Hsep|(rawID & H1 & H2 & H3)]; [by left|right]);
    exists rawID; repeat split; try done;
    destruct submenu as [items|]; try done; by apply Hall.
Qed.

Lemma length_kept_cons e entry rest :
  length (kept e (entry :: rest)) =
  ((if negb (PG_DEBUG e) && raw_debug entry then 0 else 1) + length (kept e rest))%nat.
Proof. unfold kept. simpl. destruct (negb (PG_DEBUG e) && raw_debug entry); reflexivity. Qed.

Lemma fromDescriptors_items e entries id :
  Forall (fun m => forall prefix table item,
              snd (fromDescriptorWith e m prefix table) = Returns item ->
              pathsFrom prefix item) entries ->
  forall table items,
    snd (fromDescriptors e entries id table) = Returns items ->
    Forall (pathsFrom (Some id)) items /\ length items = length (kept e entries).
Proof.
  induction 1 as [|subMenu rest Hfirst _ IH]; intros table items; cbn [fromDescriptors].
  - intros [= <-]. split; [constructor|reflexivity].
  - rewrite length_kept_cons.
    destruct (negb (PG_DEBUG e) && raw_debug subMenu); [apply IH|].
    specialize (Hfirst (Some id) table).
    destruct (fromDescriptorWith e subMenu (Some id) table) as [table1 [item|message]];
      [|discriminate].
    specialize (IH table1).
    destruct (fromDescriptors e rest id table1) as [table2 [more|message]];
      [|discriminate].
    intros [= <-]. destruct (IH more eq_refl) as [Hmore Hlen].
    split; [constructor; [by apply Hfirst|exact Hmore]|]. simpl. by rewrite Hlen.
Qed.

Lemma fromDescriptorWith_paths e m :
  forall prefix table item,
    snd (fromDescriptorWith e m prefix table) = Returns item ->
    pathsFrom prefix item.
Proof.
  induction m as [raw_separator raw_id raw_enabled submenu raw_commandKind
                    raw_shortcut debug IH] using MenuItemProofs.rawMenu_induction.
  intros prefix table item.
  destruct raw_separator; [intros [= <-]; by left|].
  destruct raw_id as [rawID|]; [|discriminate].
  destruct submenu as [entries|].
  - rewrite MenuItemProofs.fromDescriptorWith_submenu. cbv zeta.
    destruct (_getLabelForSubmenu e _) as [label|message]; [|discriminate].
    pose proof (fromDescriptors_items e entries
                  match prefix with
                  | Some prefix => (prefix ++ "." ++ rawID)%string
                  | None => rawID
                  end IH table) as Hitems.
    destruct (fromDescriptors e entries _ table) as [table1 [items|message]];
      [|discriminate].
    destruct (Hitems items eq_refl) as [Hpaths _].
    destruct raw_shortcut as [raw|].
    + destruct (processShortcut e raw table1) as [table2 [shortcut|message]];
        [|discriminate].
      intros [= <-]. apply pathsFrom_unfold. right. exists rawID.
      repeat split; try done; by destruct prefix.
    + intros [= <-]. apply pathsFrom_unfold. right. exists rawID.
      repeat split; try done; by destruct prefix.
  - cbn [fromDescriptorWith].
    destruct raw_shortcut as [raw|].
    + destruct (processShortcut e raw table) as [table2 [shortcut|message]];
        [|discriminate].
      intros [= <-]. apply pathsFrom_unfold. right. exists rawID.
      repeat split; try done; by destruct prefix.
    + intros [= <-]. apply pathsFrom_unfold. right. exists rawID.
      repeat split; try done; by destruct prefix.
Qed.

(** X7. A menu built by [fromDescriptor] carries its paths: every item's
    [id] is its parent's [id], a dot and its own [itemID], from the given
    prefix down. A descriptor without sub-menu gives an item whose command is
    its [id]; one with a sub-menu gives a sub-menu with one item for each entry
    the debug filter keeps. *)
Theorem fromDescriptor_paths
    (e : env) (m : rawMenu) (prefix : option string) (table : option shortcutTable)
    (item : t) :
  snd (fromDescriptor e m prefix table) = Returns item ->
  pathsFrom prefix item /\
  (raw_submenu m = None ->
   item_submenu item = None /\ item_command item = item_id item) /\
  (forall entries, raw_separator_of m = false -> raw_submenu m = Some entries ->
     item_command item = None /\
     exists items, item_submenu item = Some items /\
                   length items = length (kept e entries)).
Proof.
  unfold fromDescriptor. set (t0 := default ∅ table). clearbody t0.
  intros Hitem. split; [by eapply fromDescriptorWith_paths|].
  destruct m as [raw_separator raw_id raw_enabled submenu raw_commandKind
                   raw_shortcut debug].
  cbn [raw_submenu raw_separator_of]. split.
  - intros ->. cbn [fromDescriptorWith] in Hitem.
    destruct raw_separator; [injection Hitem as <-; done|].
    destruct raw_id as [rawID|]; [|discriminate].
    destruct raw_shortcut as [raw|].
    + destruct (processShortcut e raw t0) as [table2 [shortcut|message]];
        [|discriminate].
      injection Hitem as <-. done.
    + injection Hitem as <-. done.
  - intros entries -> ->.
    destruct raw_id as [rawID|]; [|discriminate].
    rewrite MenuItemProofs.fromDescriptorWith_submenu in Hitem. cbv zeta in Hitem.
    destruct (_getLabelForSubmenu e _) as [label|message]; [|discriminate].
    pose proof (fromDescriptors_items e entries
                  match prefix with
                  | Some prefix => (prefix ++ "." ++ rawID)%string
                  | None => rawID
                  end) as Hitems.
    specialize (Hitems ltac:(apply Forall_forall; intros; by eapply fromDescriptorWith_paths) t0).
    destruct (fromDescriptors e entries _ t0) as [table1 [items|message]];
      [|discriminate].
    destruct (Hitems items eq_refl) as [_ Hlen].
    destruct raw_shortcut as [raw|].
    + destruct (processShortcut e raw table1) as [table2 [shortcut|message]];
        [|discriminate].
      injection Hitem as <-. split; [done|]. by exists items.
    + injection Hitem as <-. split; [done|]. by exists items.
Qed.

Lemma fromDescriptor_paths_witness :
  exists item items,
    snd (fromDescriptor menuLabels fileTree None None) = Returns item /\
    pathsFrom None item /\
    item_submenu item = Some items /\ length items = 2%nat.
Proof.
  destruct (fromDescriptor menuLabels fileTree None None) as [table [item|message]] eqn:Hrun;
    [|discriminate].
  assert (Hitem : snd (fromDescriptor menuLabels fileTree None None) = Returns item)
    by (by rewrite Hrun).
  destruct (fromDescriptor_paths menuLabels fileTree None None item Hitem)
    as (Hpaths & _ & Hsub).
  destruct (Hsub _ eq_refl eq_refl) as (_ & items & Hitems & Hlen).
  exists item, items. repeat split; assumption.
Defined.

(** A shortcut that was accepted is in the table afterwards. *)
Lemma processShortcut_registers e raw table table' shortcut :
  processShortcut e raw table = (table', Returns shortcut) ->
  shortcutError e raw table' = true.
Proof.
  unfold processShortcut, shortcutError.
  set (bits := modifiersToBits e (default noModifiers (raw_modifiers raw))).
  assert (Hreg : forall key (t0 : shortcutTable),
    registered (<[key := <[bits := true]>
                  (default ∅ (match t0 !! key with
                              | Some _ => t0
                              | None => <[key := ∅]> t0
                              end !! key))]>
                  match t0 !! key with
                  | Some _ => t0
                  | None => <[key := ∅]> t0
                  end) key bits = true).
  { intros key t0. unfold registered. by rewrite lookup_insert_eq; simpl;
      rewrite lookup_insert_eq. }
  destruct (given (keyChar raw)) eqn:Hchar, (given (keyCode raw)) eqn:Hcode; simpl;
    try discriminate.
  - destruct (default false _); [discriminate|]. intros [= <- _].
    rewrite Hreg. rewrite ?orb_true_r. reflexivity.
  - destruct (eventKeyCode e !! default ""%string (keyCode raw)); [|discriminate].
    simpl. destruct (default false _); [discriminate|]. intros [= <- _].
    rewrite Hreg. rewrite ?orb_true_r. reflexivity.
Qed.

(** Every descriptor with one of the listed errors is rejected. *)
Lemma listedError_throws e m prefix table :
  listedError e m table = true -> throws (fromDescriptorWith e m prefix table) = true.
Proof.
  destruct m as [raw_separator raw_id raw_enabled submenu raw_commandKind
                   raw_shortcut debug].
  cbn [listedError]. destruct raw_separator; [discriminate|].
  destruct raw_id as [rawID|]; [|reflexivity].
  rewrite bool_decide_false by done. simpl negb. rewrite andb_true_l, orb_false_l.
  destruct raw_shortcut as [raw|]; [|discriminate]. intros Herr.
  destruct submenu as [entries|].
  - rewrite MenuItemProofs.fromDescriptorWith_submenu. cbv zeta.
    destruct (_getLabelForSubmenu e _) as [label|message]; [|reflexivity].
    pose proof (MenuItemProofs.fromDescriptors_grows e entries
                  match prefix with
                  | Some prefix => (prefix ++ "." ++ rawID)%string
                  | None => rawID
                  end) as Hsub.
    specialize (Hsub ltac:(apply Forall_forall; intros;
                           apply MenuItemProofs.fromDescriptorWith_grows) table).
    destruct (fromDescriptors e entries _ table) as [table1 [items|message]];
      [|reflexivity].
    simpl in Hsub.
    destruct (MenuItemProofs.processShortcut_spec e raw table1) as [Hthrows _].
    rewrite (MenuItemProofs.shortcutError_grows e raw table table1 Hsub Herr) in Hthrows.
    unfold throws in *.
    destruct (processShortcut e raw table1) as [table2 [shortcut|message]];
      simpl in *; [discriminate|reflexivity].
  - cbn [fromDescriptorWith].
    destruct (MenuItemProofs.processShortcut_spec e raw table) as [Hthrows _].
    rewrite Herr in Hthrows. unfold throws in *.
    destruct (processShortcut e raw table) as [table2 [shortcut|message]];
      simpl in *; [discriminate|reflexivity].
Qed.

(** X8. A descriptor with a shortcut is accepted once: when [fromDescriptor]
    has returned an item for it, the same descriptor given again with the
    table as it is then, under whatever prefix, is rejected. *)
Theorem fromDescriptor_accepts_once
    (e : env) (m : rawMenu) (prefix prefix' : option string)
    (table : option shortcutTable) (table' : shortcutTable) (item : t)
    (raw : rawShortcut) :
  raw_separator_of m = false ->
  raw_shortcut_of m = Some raw ->
  fromDescriptor e m prefix table = (table', Returns item) ->
  throws (fromDescriptor e m prefix' (Some table')) = true.
Proof.
  unfold fromDescriptor. set (t0 := default ∅ table). clearbody t0. simpl default.
  intros Hsep Hshortcut Hfirst. apply listedError_throws.
  destruct m as [raw_separator raw_id raw_enabled submenu raw_commandKind
                   raw_shortcut debug].
  cbn [raw_separator_of raw_shortcut_of] in *. subst. cbn [listedError]. simpl negb.
  rewrite andb_true_l. destruct raw_id as [rawID|]; [|reflexivity].
  rewrite bool_decide_false by done. rewrite orb_false_l.
  destruct submenu as [entries|].
  - rewrite MenuItemProofs.fromDescriptorWith_submenu in Hfirst. cbv zeta in Hfirst.
    destruct (_getLabelForSubmenu e _) as [label|message]; [|discriminate].
    destruct (fromDescriptors e entries _ t0) as [table1 [items|message]];
      [|discriminate].
    destruct (processShortcut e raw table1) as [table2 [shortcut|message]] eqn:Hprocess;
      [|discriminate].
    injection Hfirst as <- _. by eapply processShortcut_registers.
  - cbn [fromDescriptorWith] in Hfirst.
    destruct (processShortcut e raw t0) as [table2 [shortcut|message]] eqn:Hprocess;
      [|discriminate].
    injection Hfirst as <- _. by eapply processShortcut_registers.
Qed.

Lemma fromDescriptor_accepts_once_witness :
  exists table' item,
    fromDescriptor keys newItem None None = (table', Returns item) /\
    throws (fromDescriptor keys newItem (Some "FILE"%string) (Some table')) = true.
Proof.
  destruct (fromDescriptor keys newItem None None) as [table' [item|message]] eqn:Hrun;
    [|discriminate].
  exists table', item. split; [reflexivity|].
  apply (fromDescriptor_accepts_once keys newItem None (Some "FILE"%string) None table' item
           (RawShortcut (Some "n"%string) None None)); [reflexivity|reflexivity|exact Hrun].
Defined.

End MenuItemOpsProofs.

(** * Properties of the further layer actions *)

Module LayerCommandsProofs.
Import Layers LayerCommands.

(** ** Promises *)

Lemma effects_andThen {E A B} (p : Promise.run E A) (k : A -> Promise.run E B) :
  Promise.effects (Promise.andThen p k) =
  Promise.effects p ++ match Promise.outcome p with
                       | Promise.Resolved x => Promise.effects (k x)
                       | Promise.Rejected _ => []
                       end.
Proof.
  unfold Promise.andThen. destruct (Promise.outcome p); simpl; [done|].
  by rewrite app_nil_r.
Qed.

Lemma outcome_andThen {E A B} (p : Promise.run E A) (k : A -> Promise.run E B) :
  Promise.outcome (Promise.andThen p k) =
  match Promise.outcome p with
  | Promise.Resolved x => Promise.outcome (k x)
  | Promise.Rejected reason => Promise.Rejected reason
  end.
Proof. unfold Promise.andThen. by destruct (Promise.outcome p). Qed.

Lemma dispatched_app l1 l2 : dispatched (l1 ++ l2) = dispatched l1 ++ dispatched l2.
Proof. apply omap_app. Qed.

Lemma requests_app l1 l2 : requests (l1 ++ l2) = requests l1 ++ requests l2.
Proof. apply omap_app. Qed.

Lemma dispatchedOfLayers_app l1 l2 :
  dispatchedOfLayers (l1 ++ l2) = dispatchedOfLayers l1 ++ dispatchedOfLayers l2.
Proof. unfold dispatchedOfLayers, Layers.dispatched. by rewrite !omap_app. Qed.

Lemma omap_OfLayers (effects : list Layers.effect) :
  omap (fun e => match e with OfLayers e => Some e | _ => None end)
       (map OfLayers effects) = effects /\
  dispatched (map OfLayers effects) = [] /\
  requests (map OfLayers effects) = [].
Proof.
  induction effects as [|e rest (IH1 & IH2 & IH3)]; [done|].
  unfold dispatched, requests in *. simpl.
  split; [f_equal; exact IH1|]. split; [exact IH2 | exact IH3].
Qed.

(** A command of the first part run from here keeps its dispatches apart. *)
Lemma dispatchedOfLayers_ofLayers {A} (c : Layers.command A) :
  dispatchedOfLayers (Promise.effects (ofLayers c)) = Layers.dispatched (Promise.effects c) /\
  dispatched (Promise.effects (ofLayers c)) = [] /\
  requests (Promise.effects (ofLayers c)) = [].
Proof.
  unfold ofLayers, dispatchedOfLayers. cbn [Promise.effects].
  destruct (omap_OfLayers (Promise.effects c)) as (-> & -> & ->). done.
Qed.

Lemma getLayersByRef_dispatches_nothing h references :
  Layers.dispatched (Promise.effects (_getLayersByRef h references)) = [].
Proof. by rewrite LayersProofs.getLayersByRef_effects. Qed.

(** A fetch of descriptors followed by one dispatch. *)
Lemma fetch_then_dispatch h references (mk : list Js.object -> payload) :
  let c := (let* descriptors := ofLayers (_getLayersByRef h references) in
            let* _ := dispatch (mk descriptors) in
            Promise.resolve Js.Undefined) in
  dispatched (Promise.effects c) =
    match Promise.outcome (_getLayersByRef h references) with
    | Promise.Resolved descriptors => [mk descriptors]
    | Promise.Rejected _ => []
    end /\
  rejected c = match Promise.outcome (_getLayersByRef h references) with
               | Promise.Resolved _ => false
               | Promise.Rejected _ => true
               end.
Proof.
  intros c. unfold c, rejected. rewrite effects_andThen, outcome_andThen, dispatched_app.
  destruct (dispatchedOfLayers_ofLayers (_getLayersByRef h references)) as (_ & -> & _).
  unfold ofLayers. cbn [Promise.outcome].
  destruct (Promise.outcome (_getLayersByRef h references)); done.
Qed.

Lemma layers_fetch_then_dispatch h references (mk : list Js.object -> Layers.payload) :
  let c := (let* descriptors := _getLayersByRef h references in
            let* _ := Layers.dispatch (mk descriptors) in
            Promise.resolve Js.Undefined) in
  Layers.dispatched (Promise.effects c) =
    match Promise.outcome (_getLayersByRef h references) with
    | Promise.Resolved descriptors => [mk descriptors]
    | Promise.Rejected _ => []
    end /\
  Promise.outcome c = match Promise.outcome (_getLayersByRef h references) with
                      | Promise.Resolved _ => Promise.Resolved Js.Undefined
                      | Promise.Rejected reason => Promise.Rejected reason
                      end.
Proof.
  intros c. unfold c. rewrite effects_andThen, outcome_andThen.
  unfold Layers.dispatched. rewrite omap_app.
  fold (Layers.dispatched (Promise.effects (_getLayersByRef h references))).
  rewrite getLayersByRef_dispatches_nothing.
  destruct (Promise.outcome (_getLayersByRef h references)); done.
Qed.

(** ** Commands that ask first *)

(** X9. The commands that ask the host before they dispatch ([addLayers],
    [resetLayersByIndex], [groupSelected], [resetLayers], [resetBounds],
    [reorder], [duplicate]) dispatch nothing when they reject: a failed
    query leaves the stores as they were. *)
Theorem rejected_query_dispatches_nothing
    (m : models) (h : host) (document fromDocument : Document.t) (layers : list Layer.t)
    (spec : layerSpec) (selected : option bool) (replace : Js.val)
    (layerIndexes : indexSpec) (targetIndex : Z) :
  (forall reason,
     Promise.outcome (addLayersCommand (layersHost h) document spec selected replace)
       = Promise.Rejected reason ->
     Layers.dispatched
       (Promise.effects (addLayersCommand (layersHost h) document spec selected replace))
       = []) /\
  (forall reason,
     Promise.outcome (resetLayersByIndexCommand (layersHost h) document layerIndexes)
       = Promise.Rejected reason ->
     Layers.dispatched
       (Promise.effects (resetLayersByIndexCommand (layersHost h) document layerIndexes))
       = []) /\
  (forall reason,
     Promise.outcome (groupSelectedLayersCommand (layersHost h) document)
       = Promise.Rejected reason ->
     Layers.dispatched (Promise.effects (groupSelectedLayersCommand (layersHost h) document))
       = []) /\
  (rejected (resetLayersCommand h document layers) = true ->
   dispatched (Promise.effects (resetLayersCommand h document layers)) = []) /\
  (rejected (resetBoundsCommand m h document layers) = true ->
   dispatched (Promise.effects (resetBoundsCommand m h document layers)) = []) /\
  (rejected (reorderLayersCommand h (Document.id document) spec targetIndex) = true ->
   dispatched (Promise.effects
                 (reorderLayersCommand h (Document.id document) spec targetIndex)) = []) /\
  (rejected (duplicateCommand h document fromDocument layers) = true ->
   dispatchedOfLayers (Promise.effects (duplicateCommand h document fromDocument layers))
     = []).
Proof.
  repeat apply conj.
  - intros reason. unfold addLayersCommand.
    match goal with |- context [_getLayersByRef ?h0 ?refs] =>
      destruct (layers_fetch_then_dispatch h0 refs
                  (fun descriptors =>
                     ADD_LAYERS (Document.id document) (layerIDsOf spec) descriptors
                                (default true selected)
                                (replaceOrDefault document (layerIDsOf spec) replace)))
        as (-> & ->);
      destruct (Promise.outcome (_getLayersByRef h0 refs)); done
    end.
  - intros reason. unfold resetLayersByIndexCommand.
    match goal with |- context [_getLayersByRef ?h0 ?refs] =>
      destruct (layers_fetch_then_dispatch h0 refs
                  (fun descriptors =>
                     RESET_LAYERS_BY_INDEX (Document.id document) descriptors))
        as (-> & ->);
      destruct (Promise.outcome (_getLayersByRef h0 refs)); done
    end.
  - intros reason. unfold groupSelectedLayersCommand.
    destruct (_ =? _)%nat; [discriminate|].
    destruct (nestingLimitExceeded document); [discriminate|].
    unfold Promise.andThen, Layers.ask. simpl.
    destruct (play (layersHost h) GroupSelectedObj); [discriminate|reflexivity].
  - unfold resetLayersCommand.
    match goal with |- context [_getLayersByRef ?h0 ?refs] =>
      destruct (fetch_then_dispatch h0 refs
                  (fun descriptors =>
                     RESET_LAYERS (Document.id document)
                       (pairWith (fun index => descriptors !! index) layers)))
        as (-> & ->);
      destruct (Promise.outcome (_getLayersByRef h0 refs)); done
    end.
  - unfold rejected, resetBoundsCommand, Promise.andThen, ask. simpl.
    destruct (batchGetAnswer h _); [discriminate|reflexivity].
  - unfold rejected, reorderLayersCommand, Promise.andThen, ask, _getLayerIDsForDocument,
      ofLayers, Layers.ask. simpl.
    destruct (playAnswer h _); simpl; [|reflexivity].
    destruct (documentAnswer h _); simpl; [|reflexivity].
    destruct (batchGetProperty (layersHost h) _ _); simpl; [discriminate|reflexivity].
  - unfold rejected, duplicateCommand.
    destruct layers as [|layer rest]; [discriminate|].
    rewrite effects_andThen, outcome_andThen, dispatchedOfLayers_app.
    unfold ask at 1 2 3. cbn [Promise.outcome Promise.effects].
    destruct (batchPlayAnswer h _) as [results|]; [|reflexivity].
    match goal with |- context [ofLayers ?c] =>
      destruct (dispatchedOfLayers_ofLayers c) as (-> & _ & _)
    end.
    unfold ofLayers. cbn [Promise.outcome]. unfold addLayersCommand.
    match goal with |- context [_getLayersByRef ?h0 ?refs] =>
      destruct (layers_fetch_then_dispatch h0 refs
                  (fun descriptors =>
                     ADD_LAYERS (Document.id document)
                                (layerIDsOf (IDs (fold_left (fun a b => a ++ b) results [])))
                                descriptors (default true None)
                                (replaceOrDefault document
                                   (layerIDsOf (IDs (fold_left (fun a b => a ++ b)
                                                               results [])))
                                   Js.Undefined)))
        as (-> & ->);
      destruct (Promise.outcome (_getLayersByRef h0 refs)); done
    end.
Qed.

Lemma rejected_query_dispatches_nothing_witness :
  dispatched (Promise.effects
                (resetLayersCommand deafHost mixedDocument
                   (LayerStructure.all (Document.layers mixedDocument)))) = [] /\
  dispatched (Promise.effects
                (reorderLayersCommand deafHost (Document.id mixedDocument) (OneID 9) 2))
    = [] /\
  dispatchedOfLayers
    (Promise.effects
       (duplicateCommand deafHost mixedDocument mixedDocument
          (LayerStructure.all (Document.layers mixedDocument)))) = [].
Proof.
  destruct (rejected_query_dispatches_nothing someModels deafHost mixedDocument
              mixedDocument (LayerStructure.all (Document.layers mixedDocument))
              (OneID 9) None Js.Undefined (OneIndex 1) 2)
    as (_ & _ & _ & Hreset & _ & Hreorder & Hduplicate).
  split; [|split].
  - apply Hreset. reflexivity.
  - apply Hreorder. reflexivity.
  - apply Hduplicate. reflexivity.
Defined.

(** ** Commands that dispatch first *)



(** ** [resetLayers] *)

(** With complete answers the fetch resolves with one descriptor per
    reference. *)
Lemma getLayersByRef_complete h references values optionalValues :
  batchGetProperties h (refObjsFor _layerProperties references) = Some values ->
  batchGetPropertiesContinue h (refObjsFor _optionalLayerProperties references)
    = Some optionalValues ->
  length values = length (refObjsFor _layerProperties references) ->
  length optionalValues = length (refObjsFor _optionalLayerProperties references) ->
  exists descriptors,
    Promise.outcome (_getLayersByRef h references) = Promise.Resolved descriptors /\
    length descriptors = length references.
Proof.
  intros Hreq Hopt Hlen Hlenopt.
  rewrite GetLayersProofs.length_refObjsFor in Hlen, Hlenopt.
  unfold _getLayersByRef, Promise.join, Promise.andThen, Layers.ask. simpl.
  rewrite Hreq, Hopt. simpl. eexists. split; [reflexivity|].
  unfold mergeProperties. rewrite length_imap. unfold Js.reduce.
  rewrite (GetLayersProofs.reduceFrom_ext _ _ _ GetLayersProofs.collectProperty_collect).
  pose proof (GetLayersProofs.reduce_collect _layerProperties Grouping.required
                (length references) values) as Hreduce.
  unfold Js.reduce in Hreduce. rewrite Hreduce; [|simpl; lia|exact Hlen].
  rewrite length_map. apply GetLayersProofs.length_chunks.
Qed.

Lemma pairWith_zip {B} (at_ : nat -> option B) (items : list B) : forall layers,
  (forall index item, items !! index = Some item -> at_ index = Some item) ->
  length items = length layers ->
  pairWith at_ layers = zip (map Layer.id layers) (map Some items).
Proof.
  unfold pairWith. revert at_.
  induction items as [|item items IH]; intros at_ [|layer layers] Hat Hlen;
    try discriminate; [reflexivity|].
  simpl. rewrite (Hat 0%nat item eq_refl). f_equal.
  apply IH; [|by injection Hlen].
  intros index item' Hitem. by apply (Hat (S index)).
Qed.

Lemma pairWith_ids {B} (layers : list Layer.t) : forall at_ : nat -> B,
  map fst (pairWith at_ layers) = map Layer.id layers.
Proof.
  unfold pairWith. induction layers as [|layer layers IH]; intros at_; [reflexivity|].
  simpl. f_equal. apply IH.
Qed.

(** X11. When the host answers every item, [resetLayers] dispatches one
    entry per layer, in the order of the layers: the layer's ID with the
    descriptor fetched for it; no entry is left without a descriptor. *)
Theorem resetLayers_pairs_in_order
    (h : host) (document : Document.t) (layers : list Layer.t)
    (values optionalValues : list Js.val) :
  let references := map (layerRefOf document) layers in
  batchGetProperties (layersHost h) (refObjsFor _layerProperties references)
    = Some values ->
  batchGetPropertiesContinue (layersHost h)
    (refObjsFor _optionalLayerProperties references) = Some optionalValues ->
  length values = length (refObjsFor _layerProperties references) ->
  length optionalValues = length (refObjsFor _optionalLayerProperties references) ->
  exists descriptors,
    Promise.outcome (_getLayersByRef (layersHost h) references)
      = Promise.Resolved descriptors /\
    length descriptors = length layers /\
    dispatched (Promise.effects (resetLayersCommand h document layers))
      = [RESET_LAYERS (Document.id document)
           (zip (map Layer.id layers) (map Some descriptors))].
Proof.
  intros references Hreq Hopt Hlen Hlenopt.
  destruct (getLayersByRef_complete _ _ _ _ Hreq Hopt Hlen Hlenopt)
    as (descriptors & Hrun & Hlength).
  unfold references in Hlength. rewrite length_map in Hlength.
  exists descriptors. split; [exact Hrun|]. split; [exact Hlength|].
  unfold resetLayersCommand.
  destruct (fetch_then_dispatch (layersHost h) references
              (fun descriptors =>
                 RESET_LAYERS (Document.id document)
                   (pairWith (fun index => descriptors !! index) layers)))
    as (Hdispatched & _).
  fold references. rewrite Hdispatched, Hrun.
  by rewrite (pairWith_zip _ descriptors).
Qed.

Lemma resetLayers_pairs_in_order_witness :
  exists descriptors,
    length descriptors = 4%nat /\
    dispatched (Promise.effects
                  (resetLayersCommand someHost mixedDocument
                     (LayerStructure.all (Document.layers mixedDocument))))
      = [RESET_LAYERS 3 (zip [9; 8; 4; 1] (map Some descriptors))].
Proof.
  destruct (resetLayers_pairs_in_order someHost mixedDocument
              (LayerStructure.all (Document.layers mixedDocument)) _ _
              eq_refl eq_refl eq_refl eq_refl) as (descriptors & _ & Hlength & Hdispatched).
  exists descriptors. split; [exact Hlength | exact Hdispatched].
Defined.

(** ** [resetLinkedLayers] *)

(** X12. [resetLinkedLayers] asks for and resets the smart objects of the
    document, all of them and nothing else. When there is one, its single
    request names every smart object, in document order, under ["artboard"]
    when it is an artboard and ["boundsNoEffects"] otherwise, never
    ["pathBounds"]; when the host answers, the one [RESET_BOUNDS] event has
    an entry for every smart object, in the same order, with the bounds
    answered for it; when the host refuses, nothing is dispatched. Without
    a smart object there is no effect at all. *)
Theorem resetLinkedLayers_only_smart_objects
    (m : models) (h : host) (document : Document.t) :
  let all := LayerStructure.all (Document.layers document) in
  let linked := List.filter (isSmartObject m) all in
  let propertyRefs :=
    map (fun layer =>
           PropertyRef (layerRefOf document layer)
                       (if isArtboard (detailsOf m layer)
                        then "artboard" else "boundsNoEffects")) linked in
  let c := resetLinkedLayersCommand m h (Some document) in
  (forall layer, layer ∈ linked <->
                 layer ∈ all /\ kind_of (detailsOf m layer) = SMARTOBJECT) /\
  (linked = [] -> Promise.effects c = []) /\
  (linked <> [] ->
   requests (Promise.effects c) = [BatchGet propertyRefs] /\
   match batchGetAnswer h propertyRefs with
   | None => dispatched (Promise.effects c) = []
   | Some bounds =>
       exists entries,
         dispatched (Promise.effects c) = [RESET_BOUNDS (Document.id document) entries] /\
         map fst entries = map Layer.id linked /\
         (forall index layer, linked !! index = Some layer ->
            entries !! index
              = Some (Layer.id layer, default Js.Undefined (bounds !! index))) /\
         (length bounds = length linked ->
          entries = zip (map Layer.id linked) bounds)
   end).
Proof.
  intros all linked propertyRefs c.
  assert (Hlinked : forall layer, layer ∈ linked <->
                      layer ∈ all /\ kind_of (detailsOf m layer) = SMARTOBJECT).
  { intros layer. unfold linked. rewrite !list_elem_of_In, filter_In.
    unfold isSmartObject. destruct (kind_of (detailsOf m layer)); intuition congruence. }
  split; [exact Hlinked|].
  assert (Hrefs : map (fun layer => PropertyRef (layerRefOf document layer)
                                                (boundsProperty m layer)) linked
                  = propertyRefs).
  { unfold propertyRefs. apply List.map_ext_in. intros layer Hin.
    apply list_elem_of_In, Hlinked in Hin. destruct Hin as [_ Hkind].
    unfold boundsProperty. by rewrite Hkind. }
  unfold c, resetLinkedLayersCommand. fold all. fold linked.
  destruct linked as [|first rest] eqn:Hfilter; [by split|].
  split; [discriminate|]. intros _.
  set (layers := first :: rest) in *.
  unfold resetBoundsCommand. rewrite Hrefs.
  rewrite effects_andThen, requests_app, dispatched_app.
  unfold ask. cbn [Promise.outcome Promise.effects].
  destruct (batchGetAnswer h propertyRefs) as [bounds|]; [|by split].
  split; [reflexivity|].
  eexists. split; [reflexivity|]. split; [apply pairWith_ids|]. split.
  - intros index layer Hlayer. unfold pairWith.
    by rewrite list_lookup_imap, Hlayer.
  - intros Hlength. clear -Hlength. unfold pairWith.
    revert bounds Hlength. generalize layers. clear.
    intros layers. induction layers as [|layer layers IH]; intros [|b bounds] Hlength;
      try discriminate; [reflexivity|].
    simpl. f_equal.
    rewrite <- (IH bounds) by (by injection Hlength).
    apply imap_ext. intros index other _. reflexivity.
Qed.

Lemma resetLinkedLayers_only_smart_objects_witness :
  Promise.effects (resetLinkedLayersCommand someModels someHost
                     (Some Fixtures.placeholderDocument)) = [] /\
  requests (Promise.effects (resetLinkedLayersCommand someModels someHost
                               (Some mixedDocument)))
    = [BatchGet [PropertyRef [DocumentById 3; LayerById 4] "boundsNoEffects"]] /\
  exists entries,
    dispatched (Promise.effects (resetLinkedLayersCommand someModels someHost
                                   (Some mixedDocument)))
      = [RESET_BOUNDS 3 entries] /\
    entries = [(4, Js.Null)].
Proof.
  split; [|split].
  - destruct (resetLinkedLayers_only_smart_objects someModels someHost
                Fixtures.placeholderDocument) as (_ & Hnone & _).
    apply Hnone. reflexivity.
  - destruct (resetLinkedLayers_only_smart_objects someModels someHost mixedDocument)
      as (_ & _ & Hsome).
    destruct Hsome as [Hrequests _]; [discriminate|]. exact Hrequests.
  - destruct (resetLinkedLayers_only_smart_objects someModels someHost mixedDocument)
      as (_ & _ & Hsome).
    destruct Hsome as [_ (entries & Hdispatched & _ & _ & Hzip)]; [discriminate|].
    exists entries. split; [exact Hdispatched|]. apply Hzip. reflexivity.
Defined.

(** On [mixedDocument] only layer 4 is asked for and reset. *)
Example resetLinkedLayers_mixed :
  Promise.effects (resetLinkedLayersCommand someModels someHost (Some mixedDocument)) =
  [Request (BatchGet [PropertyRef [DocumentById 3; LayerById 4] "boundsNoEffects"]);
   Dispatch (RESET_BOUNDS 3 [(4, Js.Null)])].
Proof. reflexivity. Qed.

(** ** [select] and [selectAll] *)

(** X13. With a modifier other than ["select"], [select] dispatches nothing
    ahead of the host: it rejects exactly when the host refuses the
    selection, and the only event is [SELECT_LAYERS_BY_INDEX] with the
    indices of the follow-up query. When that query fails nothing is
    dispatched and the command resolves all the same. *)
Theorem select_with_modifier
    (h : Layers.host) (document : Document.t) (layerSpec : list Layer.t)
    (modifier : option string) :
  Document.unsupported document = false ->
  plainSelect modifier = false ->
  let documentID := Document.id document in
  let selectObj :=
    SelectObj (DocumentById documentID :: map (fun layer => LayerById (Layer.id layer))
                                              layerSpec) false modifier in
  let c := selectLayerCommand h document layerSpec modifier in
  Promise.outcome c = match play h selectObj with
                      | Some _ => Promise.Resolved Js.Undefined
                      | None => Promise.Rejected "host request failed"
                      end /\
  Layers.dispatched (Promise.effects c) =
    match play h selectObj, targetLayers h documentID with
    | Some _, Some indices => [SELECT_LAYERS_BY_INDEX documentID indices]
    | _, _ => []
    end.
Proof.
  intros Hsupported Hmodifier documentID selectObj c.
  unfold c, selectLayerCommand. rewrite Hsupported, Hmodifier.
  fold documentID. fold selectObj.
  unfold Promise.join, Promise.andThen, Layers.ask. simpl.
  destruct (play h selectObj); simpl; [|done].
  destruct (targetLayers h documentID); done.
Qed.

Lemma select_with_modifier_witness :
  Promise.outcome (selectLayerCommand (layersHost deafHost) mixedDocument []
                                      (Some "add"%string))
    = Promise.Rejected "host request failed" /\
  Layers.dispatched
    (Promise.effects (selectLayerCommand (layersHost deafHost) mixedDocument []
                                         (Some "add"%string))) = [].
Proof.
  apply (select_with_modifier (layersHost deafHost) mixedDocument [] (Some "add"%string));
    reflexivity.
Defined.

(** X14. On a supported document with layers, [selectAll] plays one
    selection that names every layer of the document in document order, and
    dispatches [SELECT_LAYERS_BY_ID] with all their IDs, whether or not the
    host accepts the selection. *)
Theorem selectAll_selects_every_layer
    (h : Layers.host) (current : option Document.t) (arg : documentArg)
    (document : Document.t) :
  documentOrCurrent current arg = Some document ->
  Document.unsupported document = false ->
  LayerStructure.all (Document.layers document) <> [] ->
  let ids := map Layer.id (LayerStructure.all (Document.layers document)) in
  let c := selectAllLayersCommand h current arg in
  Layers.requests (Promise.effects c) =
    [PlayObject (SelectObj (DocumentById (Document.id document) :: map LayerById ids)
                           false None)] /\
  Layers.dispatched (Promise.effects c) =
    [SELECT_LAYERS_BY_ID (Document.id document) ids].
Proof.
  intros Hdocument Hsupported Hlayers ids c.
  unfold c, selectAllLayersCommand, selectLayerCommand.
  rewrite Hdocument, Hsupported, bool_decide_false by done. simpl.
  unfold ids. rewrite map_map.
  destruct (play h _); done.
Qed.

Lemma selectAll_selects_every_layer_witness :
  Layers.dispatched
    (Promise.effects (selectAllLayersCommand (layersHost deafHost) (Some mixedDocument)
                                             NoArgument))
    = [SELECT_LAYERS_BY_ID 3 [9; 8; 4; 1]].
Proof.
  apply (selectAll_selects_every_layer (layersHost deafHost) (Some mixedDocument)
           NoArgument mixedDocument); [reflexivity|reflexivity|discriminate].
Defined.

(** ** [setLocking] *)

Lemma addLayers_dispatched h document spec selected replace :
  Layers.dispatched (Promise.effects (addLayersCommand h document spec selected replace)) =
  match Promise.outcome
          (_getLayersByRef h
             (map (fun layerID => [DocumentById (Document.id document); LayerById layerID])
                  (layerIDsOf spec))) with
  | Promise.Resolved descriptors =>
      [ADD_LAYERS (Document.id document) (layerIDsOf spec) descriptors
                  (default true selected)
                  (replaceOrDefault document (layerIDsOf spec) replace)]
  | Promise.Rejected _ => []
  end.
Proof.
  unfold addLayersCommand.
  match goal with |- context [_getLayersByRef ?h0 ?refs] =>
    destruct (layers_fetch_then_dispatch h0 refs
                (fun descriptors =>
                   ADD_LAYERS (Document.id document) (layerIDsOf spec) descriptors
                              (default true selected)
                              (replaceOrDefault document (layerIDsOf spec) replace)))
      as (-> & _)
  end.
  reflexivity.
Qed.

(** X15. For the background layer [setLocking] never asks the host to set
    the lock, whatever [locked] is: its one request unlocks the background,
    and the layer the host reports is then added in place of the old one
    ([replace] true, selected). [LOCK_CHANGED] is dispatched with [locked]
    as given. *)
Theorem setLocking_background_unlocks
    (h : host) (document : Document.t) (layer : Layer.t) (locked : bool) :
  Layer.isBackground layer = true ->
  let c := setLockingCommand h document layer locked in
  requests (Promise.effects c) = [Play (UnlockBackground (Layer.id layer))] /\
  dispatched (Promise.effects c)
    = [LOCK_CHANGED (Document.id document) (Layer.id layer) locked] /\
  Forall (fun p =>
            exists event newID descriptors,
              playAnswer h (UnlockBackground (Layer.id layer)) = Some event /\
              Js.get event "layerID" = Js.Num newID /\
              p = ADD_LAYERS (Document.id document) [newID] descriptors true
                             (Js.Bool true))
         (dispatchedOfLayers (Promise.effects c)).
Proof.
  intros Hbackground c. unfold c, setLockingCommand. rewrite Hbackground.
  unfold Promise.join. cbn [Promise.effects].
  rewrite requests_app, dispatched_app, dispatchedOfLayers_app.
  unfold _unlockBackgroundLayer. rewrite effects_andThen.
  rewrite requests_app, dispatched_app, dispatchedOfLayers_app.
  unfold ask. cbn [Promise.effects Promise.outcome].
  destruct (playAnswer h (UnlockBackground (Layer.id layer))) as [event|];
    [|by repeat split; constructor].
  unfold addUnlockedLayer.
  destruct (Js.get event "layerID") as [| |b|newID|str|fields] eqn:Hget;
    try (by repeat split; constructor).
  match goal with |- context [ofLayers ?c] =>
    destruct (dispatchedOfLayers_ofLayers c) as (-> & -> & ->)
  end.
  split; [reflexivity|]. split; [reflexivity|].
  rewrite addLayers_dispatched. cbn [layerIDsOf default].
  destruct (Promise.outcome (_getLayersByRef _ _)) as [descriptors|];
    constructor; [|constructor].
  exists event, newID, descriptors. done.
Qed.

Lemma setLocking_background_unlocks_witness :
  requests (Promise.effects (setLockingCommand someHost mixedDocument
                               Fixtures.backgroundLayer true))
    = [Play (UnlockBackground 1)] /\
  dispatched (Promise.effects (setLockingCommand someHost mixedDocument
                                 Fixtures.backgroundLayer true))
    = [LOCK_CHANGED 3 1 true].
Proof.
  destruct (setLocking_background_unlocks someHost mixedDocument Fixtures.backgroundLayer
              true eq_refl) as (Hrequests & Hdispatched & _).
  split; [exact Hrequests | exact Hdispatched].
Defined.

(** On [someHost] the host reports layer 12, which replaces the background. *)
Example setLocking_background_adds :
  exists descriptors,
    dispatchedOfLayers (Promise.effects (setLockingCommand someHost mixedDocument
                                           Fixtures.backgroundLayer true))
    = [ADD_LAYERS 3 [12] descriptors true (Js.Bool true)].
Proof. eexists. vm_compute. reflexivity. Qed.

(** ** [lockSelectedInCurrentDocument], [unlockSelectedInCurrentDocument] *)

Lemma setLocking_own_effects h document layer locked :
  requests (Promise.effects (setLockingCommand h document layer locked))
    = [Play (if Layer.isBackground layer then UnlockBackground (Layer.id layer)
             else SetLocking (layerRefOf document layer) locked)] /\
  dispatched (Promise.effects (setLockingCommand h document layer locked))
    = [LOCK_CHANGED (Document.id document) (Layer.id layer) locked].
Proof.
  unfold setLockingCommand, Promise.join. cbn [Promise.effects].
  rewrite requests_app, dispatched_app.
  destruct (Layer.isBackground layer); [|done].
  unfold _unlockBackgroundLayer. rewrite effects_andThen, requests_app, dispatched_app.
  unfold ask. cbn [Promise.effects Promise.outcome].
  destruct (playAnswer h _) as [event|]; [|done].
  unfold addUnlockedLayer.
  destruct (Js.get event "layerID"); try done.
  match goal with |- context [ofLayers ?c] =>
    destruct (dispatchedOfLayers_ofLayers c) as (_ & -> & ->)
  end.
  done.
Qed.

Lemma effects_all {A} (promises : list (command A)) :
  Promise.effects (all promises) = concat (map Promise.effects promises).
Proof.
  induction promises as [|p rest IH]; [reflexivity|].
  simpl. by rewrite IH.
Qed.

Lemma rejected_all {A} (promises : list (command A)) :
  rejected (all promises) = existsb rejected promises.
Proof.
  induction promises as [|p rest IH]; [reflexivity|].
  unfold rejected in *. simpl. rewrite <- IH.
  destruct (Promise.outcome p), (Promise.outcome (all rest)); reflexivity.
Qed.

Lemma requestsOfLayers_app l1 l2 :
  requestsOfLayers (l1 ++ l2) = requestsOfLayers l1 ++ requestsOfLayers l2.
Proof. unfold requestsOfLayers, Layers.requests. by rewrite !omap_app. Qed.

Lemma requestsOfLayers_ofLayers {A} (c : Layers.command A) :
  requestsOfLayers (Promise.effects (ofLayers c)) = Layers.requests (Promise.effects c).
Proof.
  unfold ofLayers, requestsOfLayers. cbn [Promise.effects].
  by destruct (omap_OfLayers (Promise.effects c)) as (-> & _ & _).
Qed.

Lemma addLayers_requests h document spec selected replace :
  let references :=
    map (fun layerID => [DocumentById (Document.id document); LayerById layerID])
        (layerIDsOf spec) in
  Layers.requests (Promise.effects (addLayersCommand h document spec selected replace)) =
  [BatchGetProperties (refObjsFor _layerProperties references) false;
   BatchGetProperties (refObjsFor _optionalLayerProperties references) true].
Proof.
  intros references.
  pose proof (LayersProofs.addLayers_effects h document spec selected replace) as Heffects.
  cbv zeta in Heffects. fold references in Heffects. rewrite Heffects.
  unfold Layers.requests. rewrite omap_app, LayersProofs.getLayersByRef_effects.
  destruct (Promise.outcome (_getLayersByRef h references)); reflexivity.
Qed.

(** The requests by which [setLocking] adds an unlocked background layer
    again. *)
Lemma setLocking_transferred_requests h document layer locked :
  requestsOfLayers (Promise.effects (setLockingCommand h document layer locked)) =
  if Layer.isBackground layer then
    match playAnswer h (UnlockBackground (Layer.id layer)) with
    | Some event =>
        match Js.get event "layerID" with
        | Js.Num newID =>
            let references := [[DocumentById (Document.id document); LayerById newID]] in
            [BatchGetProperties (refObjsFor _layerProperties references) false;
             BatchGetProperties (refObjsFor _optionalLayerProperties references) true]
        | _ => []
        end
    | None => []
    end
  else [].
Proof.
  unfold setLockingCommand, Promise.join. cbn [Promise.effects].
  rewrite requestsOfLayers_app.
  destruct (Layer.isBackground layer); [|reflexivity].
  unfold _unlockBackgroundLayer. rewrite effects_andThen, requestsOfLayers_app.
  unfold ask. cbn [Promise.effects Promise.outcome].
  destruct (playAnswer h _) as [event|]; [|reflexivity].
  unfold addUnlockedLayer.
  destruct (Js.get event "layerID"); try reflexivity.
  rewrite requestsOfLayers_ofLayers, addLayers_requests. reflexivity.
Qed.

Lemma setLocking_each h document locked (layers : list Layer.t) :
  let effects :=
    concat (map Promise.effects
              (map (fun layer => setLockingCommand h document layer locked) layers)) in
  dispatched effects
    = map (fun layer => LOCK_CHANGED (Document.id document) (Layer.id layer) locked)
          layers /\
  requests effects
    = map (fun layer =>
             Play (if Layer.isBackground layer then UnlockBackground (Layer.id layer)
                   else SetLocking (layerRefOf document layer) locked))
          layers /\
  requestsOfLayers effects
    = flat_map
        (fun layer =>
           if Layer.isBackground layer then
             match playAnswer h (UnlockBackground (Layer.id layer)) with
             | Some event =>
                 match Js.get event "layerID" with
                 | Js.Num newID =>
                     let references :=
                       [[DocumentById (Document.id document); LayerById newID]] in
                     [BatchGetProperties (refObjsFor _layerProperties references) false;
                      BatchGetProperties (refObjsFor _optionalLayerProperties references)
                                         true]
                 | _ => []
                 end
             | None => []
             end
           else [])
        layers.
Proof.
  induction layers as [|layer rest (IH1 & IH2 & IH3)]; [done|].
  cbn [map concat flat_map].
  rewrite dispatched_app, requests_app, requestsOfLayers_app, IH1, IH2, IH3.
  destruct (setLocking_own_effects h document layer locked) as (-> & ->).
  rewrite setLocking_transferred_requests. done.
Qed.

(** X16. Locking or unlocking the selection of the current document
    changes every selected layer, in the order of the selection, also after
    one of them has failed: one [LOCK_CHANGED] for each, and one request of
    this command for each, which sets the lock or, for the background
    layer, unlocks it. The only further host requests are the two property
    fetches by which a background layer the host has unlocked is added
    again; a selection without background layer costs exactly one host
    request for each layer. The command rejects exactly when the command of
    one of the layers does. *)
Theorem setLockingInCurrentDocument_each
    (h : host) (document : Document.t) (locked : bool) :
  let selected := LayerStructure.selected (Document.layers document) in
  let c := _setLockingInCurrentDocument h (Some document) locked in
  let transferred := fun layer =>
    if Layer.isBackground layer then
      match playAnswer h (UnlockBackground (Layer.id layer)) with
      | Some event =>
          match Js.get event "layerID" with
          | Js.Num newID =>
              let references :=
                [[DocumentById (Document.id document); LayerById newID]] in
              [BatchGetProperties (refObjsFor _layerProperties references) false;
               BatchGetProperties (refObjsFor _optionalLayerProperties references) true]
          | _ => []
          end
      | None => []
      end
    else [] in
  dispatched (Promise.effects c)
    = map (fun layer => LOCK_CHANGED (Document.id document) (Layer.id layer) locked)
          selected /\
  requests (Promise.effects c)
    = map (fun layer =>
             Play (if Layer.isBackground layer then UnlockBackground (Layer.id layer)
                   else SetLocking (layerRefOf document layer) locked))
          selected /\
  requestsOfLayers (Promise.effects c) = flat_map transferred selected /\
  (Forall (fun layer => Layer.isBackground layer = false) selected ->
   requestsOfLayers (Promise.effects c) = [] /\
   length (requests (Promise.effects c)) = length selected) /\
  rejected c
    = existsb (fun layer => rejected (setLockingCommand h document layer locked))
              selected /\
  lockSelectedInCurrentDocumentCommand h (Some document)
    = _setLockingInCurrentDocument h (Some document) true /\
  unlockSelectedInCurrentDocumentCommand h (Some document)
    = _setLockingInCurrentDocument h (Some document) false.
Proof.
  intros selected c transferred. unfold c, _setLockingInCurrentDocument. fold selected.
  rewrite effects_all, rejected_all.
  destruct (setLocking_each h document locked selected)
    as (Hdispatched & Hrequests & Htransferred).
  fold transferred in Htransferred.
  split; [exact Hdispatched|]. split; [exact Hrequests|]. split; [exact Htransferred|].
  split; [|split; [|split; reflexivity]].
  - intros Hnone. rewrite Htransferred, Hrequests, length_map. split; [|reflexivity].
    clear -Hnone. induction Hnone as [|layer rest Hlayer _ IH]; [reflexivity|].
    cbn [flat_map]. rewrite IH. unfold transferred. by rewrite Hlayer.
  - clear. generalize selected. clear. intros layers.
    induction layers as [|layer rest IH]; [reflexivity|].
    simpl. by rewrite IH.
Qed.

Lemma setLockingInCurrentDocument_each_witness :
  requestsOfLayers
    (Promise.effects
       (_setLockingInCurrentDocument someHost (Some Fixtures.deepDocument) true)) = [] /\
  length (requests
            (Promise.effects
               (_setLockingInCurrentDocument someHost (Some Fixtures.deepDocument) true)))
    = 1%nat.
Proof.
  destruct (setLockingInCurrentDocument_each someHost Fixtures.deepDocument true)
    as (_ & _ & _ & Hplain & _).
  apply Hplain. repeat constructor.
Defined.

(** On [mixedDocument], whose selection is layer 9 and the background
    layer: two requests of the command and the two fetches for layer 12,
    which the host reports for the unlocked background. *)
Example setLockingInCurrentDocument_background :
  requests (Promise.effects
              (_setLockingInCurrentDocument someHost (Some mixedDocument) true))
    = [Play (SetLocking [DocumentById 3; LayerById 9] true); Play (UnlockBackground 1)] /\
  length (requestsOfLayers
            (Promise.effects
               (_setLockingInCurrentDocument someHost (Some mixedDocument) true)))
    = 2%nat.
Proof. split; reflexivity. Qed.

(** ** [duplicate] *)

Lemma fold_left_concat {A} (lists : list (list A)) : forall start,
  fold_left (fun all items => all ++ items) lists start = start ++ concat lists.
Proof.
  induction lists as [|items rest IH]; intros start; simpl.
  - by rewrite app_nil_r.
  - by rewrite IH, app_assoc.
Qed.

(** X17. [duplicate] sends one batch with one duplication per source layer,
    in order, each from the layer in its source document to the target
    document. When the host answers, the layers added to the target are
    the IDs of all results, concatenated in the order of the results; they
    are added selected and with the default replacement logic. *)
Theorem duplicate_adds_all_copies
    (h : host) (document fromDocument : Document.t) (fromLayers : list Layer.t)
    (results : list (list Z)) :
  let duplicatePlayObjects :=
    map (fun fromLayer =>
           Duplicate [LayerById (Layer.id fromLayer);
                      DocumentById (Document.id fromDocument)]
                     (DocumentById (Document.id document))) fromLayers in
  fromLayers <> [] ->
  batchPlayAnswer h duplicatePlayObjects = Some results ->
  let c := duplicateCommand h document fromDocument fromLayers in
  let allLayerIDs := concat results in
  requests (Promise.effects c) = [BatchPlay duplicatePlayObjects "DUPLICATE_LAYERS"] /\
  dispatchedOfLayers (Promise.effects c) =
    match Promise.outcome
            (_getLayersByRef (layersHost h)
               (map (fun layerID => [DocumentById (Document.id document);
                                     LayerById layerID]) allLayerIDs)) with
    | Promise.Resolved descriptors =>
        [ADD_LAYERS (Document.id document) allLayerIDs descriptors true
                    (defaultReplace document allLayerIDs)]
    | Promise.Rejected _ => []
    end.
Proof.
  intros duplicatePlayObjects Hlayers Hanswer c allLayerIDs.
  unfold c, duplicateCommand. fold duplicatePlayObjects.
  destruct fromLayers as [|layer rest]; [done|].
  rewrite Hanswer, effects_andThen, requests_app, dispatchedOfLayers_app.
  unfold ask. cbn [Promise.effects Promise.outcome].
  rewrite fold_left_concat. cbn [app]. fold allLayerIDs.
  match goal with |- context [ofLayers ?c] =>
    destruct (dispatchedOfLayers_ofLayers c) as (-> & _ & ->)
  end.
  split; [reflexivity|].
  rewrite addLayers_dispatched. reflexivity.
Qed.

Lemma duplicate_adds_all_copies_witness :
  exists descriptors,
    dispatchedOfLayers
      (Promise.effects
         (duplicateCommand someHost Fixtures.placeholderDocument mixedDocument
            [Fixtures.emptyLayer 9 true; Fixtures.emptyLayer 4 false]))
    = [ADD_LAYERS 1 [20; 21; 20; 21] descriptors true (Js.Bool false)].
Proof.
  destruct (duplicate_adds_all_copies someHost Fixtures.placeholderDocument mixedDocument
              [Fixtures.emptyLayer 9 true; Fixtures.emptyLayer 4 false]
              [[20; 21]; [20; 21]]) as (_ & Hadded); [discriminate|reflexivity|].
  eexists. rewrite Hadded. vm_compute. reflexivity.
Defined.

(** ** [createArtboard] *)

(** The artboard picked by the [reduce]: the first of those that reach
    furthest to the right. *)
Lemma rightmost_spec (artboards : list bounds) : forall first,
  (rightmost first artboards = first /\
   Forall (fun other => right other <= right first) artboards) \/
  (exists index,
     artboards !! index = Some (rightmost first artboards) /\
     right first < right (rightmost first artboards) /\
     forall j other, artboards !! j = Some other ->
       right other <= right (rightmost first artboards) /\
       ((j < index)%nat -> right other < right (rightmost first artboards))).
Proof.
  unfold rightmost.
  induction artboards as [|current rest IH]; intros first; simpl.
  - left. split; [reflexivity|constructor].
  - destruct (Z.ltb_spec (right first) (right current)) as [Hlt|Hge].
    + right. destruct (IH current) as [[Hsame Hall] | (index & Hindex & Hmore & Hothers)].
      * exists 0%nat. rewrite Hsame. split; [reflexivity|]. split; [exact Hlt|].
        intros [|j] other Hother; simpl in Hother.
        -- injection Hother as <-. split; lia.
        -- rewrite Forall_forall in Hall. split; [|lia].
           apply Hall. by eapply list_elem_of_lookup_2.
      * exists (S index). split; [exact Hindex|]. split; [lia|].
        intros [|j] other Hother; simpl in Hother.
        -- injection Hother as <-. split; [lia|]. intros _. lia.
        -- destruct (Hothers j other Hother) as [Hle Hless]. split; [exact Hle|].
           intros Hj. apply Hless. lia.
    + destruct (IH first) as [[Hsame Hall] | (index & Hindex & Hmore & Hothers)].
      * left. split; [exact Hsame|]. by constructor.
      * right. exists (S index). split; [exact Hindex|]. split; [exact Hmore|].
        intros [|j] other Hother; simpl in Hother.
        -- injection Hother as <-. split; [lia|]. intros _. lia.
        -- destruct (Hothers j other Hother) as [Hle Hless]. split; [exact Hle|].
           intros Hj. apply Hless. lia.
Qed.

(** X18. Without bounds given and with artboards in the document,
    [createArtboard] builds on the artboard that reaches furthest to the
    right, the first of them in document order when several reach as far:
    it asks for an artboard that starts 100 px to the right of that one,
    with its top, bottom and width; so the new artboard lies to the right of
    every existing one. (The bounds model's [width] is [right - left].) *)
Theorem createArtboard_right_of_all
    (m : models) (h : host) (document : Document.t) :
  let boundsOf := fun layer => bounds_of (detailsOf m layer) in
  let artboards :=
    List.filter (fun layer => isArtboard (detailsOf m layer))
                (LayerStructure.all (Document.layers document)) in
  artboards <> [] ->
  Forall (fun layer => width (boundsOf layer) = right (boundsOf layer) - left (boundsOf layer))
         artboards ->
  exists index layer,
    artboards !! index = Some layer /\
    (forall j other, artboards !! j = Some other ->
       right (boundsOf other) <= right (boundsOf layer) /\
       ((j < index)%nat -> right (boundsOf other) < right (boundsOf layer))) /\
    requests (Promise.effects (createArtboardCommand m h (Some document) None)) =
      [Play (MakeArtboard TargetNone
               (Box (top (boundsOf layer)) (bottom (boundsOf layer))
                    (right (boundsOf layer) + 100)
                    (right (boundsOf layer) + 100 + width (boundsOf layer))))].
Proof.
  intros boundsOf artboards Hartboards Hwidth.
  unfold createArtboardCommand. fold artboards.
  destruct artboards as [|firstLayer rest] eqn:Hfilter; [done|].
  set (layers := firstLayer :: rest) in *.
  assert (Hchosen : exists index layer,
            layers !! index = Some layer /\
            rightmost (boundsOf firstLayer) (map boundsOf layers) = boundsOf layer /\
            forall j other, layers !! j = Some other ->
              right (boundsOf other) <= right (boundsOf layer) /\
              ((j < index)%nat -> right (boundsOf other) < right (boundsOf layer))).
  { destruct (rightmost_spec (map boundsOf layers) (boundsOf firstLayer))
      as [[Hsame Hall] | (index & Hindex & Hmore & Hothers)].
    - exists 0%nat, firstLayer. split; [reflexivity|]. split; [exact Hsame|].
      intros j other Hother. split; [|lia].
      rewrite Forall_fmap, Forall_forall in Hall.
      apply (Hall other). by eapply list_elem_of_lookup_2.
    - apply list_lookup_fmap_Some in Hindex. destruct Hindex as (layer & Hbounds & Hlayer).
      exists index, layer. split; [exact Hlayer|]. split; [exact Hbounds|].
      intros j other Hother. rewrite <- Hbounds. apply Hothers.
      by rewrite list_lookup_fmap, Hother. }
  destruct Hchosen as (index & layer & Hmember & Hlayer & Hothers).
  exists index, layer. split; [exact Hmember|]. split; [exact Hothers|].
  unfold artboardPlacement. fold boundsOf.
  unfold layers in Hlayer |- *. cbn [map] in Hlayer |- *. rewrite Hlayer.
  rewrite Forall_forall in Hwidth.
  specialize (Hwidth layer (list_elem_of_lookup_2 _ _ _ Hmember)).
  rewrite effects_andThen, requests_app. unfold ask.
  cbn [Promise.effects Promise.outcome].
  replace (left (boundsOf layer) + (width (boundsOf layer) + 100))
    with (right (boundsOf layer) + 100) by lia.
  replace (right (boundsOf layer) + (width (boundsOf layer) + 100))
    with (right (boundsOf layer) + 100 + width (boundsOf layer)) by lia.
  by destruct (playAnswer h _).
Qed.

Lemma createArtboard_right_of_all_witness :
  exists index layer,
    [Layer.Make 8 false (Some (Bounds.Make 10)) false;
     Layer.Make 7 false (Some (Bounds.Make 10)) false;
     Layer.Make 6 false (Some (Bounds.Make 10)) false] !! index = Some layer /\
    requests (Promise.effects (createArtboardCommand wideModels someHost
                                 (Some threeArtboards) None)) =
      [Play (MakeArtboard TargetNone
               (Box (top (bounds_of (detailsOf wideModels layer)))
                    (bottom (bounds_of (detailsOf wideModels layer)))
                    (right (bounds_of (detailsOf wideModels layer)) + 100)
                    (right (bounds_of (detailsOf wideModels layer)) + 100
                     + width (bounds_of (detailsOf wideModels layer)))))].
Proof.
  destruct (createArtboard_right_of_all wideModels someHost threeArtboards)
    as (index & layer & Hmember & _ & Hrequests).
  - simpl. discriminate.
  - simpl. repeat constructor.
  - exists index, layer. split; [exact Hmember | exact Hrequests].
Defined.

(** On [threeArtboards], whose artboards reach 100, 150 and 150: the new
    one is built on the first that reaches 150, which starts at 0, and so
    spans 250 to 400. *)
Example createArtboard_next_to_artboard :
  requests (Promise.effects (createArtboardCommand wideModels someHost
                               (Some threeArtboards) None)) =
  [Play (MakeArtboard TargetNone (Box 0 100 250 400))].
Proof. reflexivity. Qed.

(** ** [reorder] *)

Lemma rangeDown_lookup start end_ k i :
  rangeDown start end_ !! k = Some i <->
  i = start - Z.of_nat k /\ (k < Z.to_nat (start - end_))%nat.
Proof.
  unfold rangeDown. rewrite list_lookup_fmap. split.
  - intros Hk. destruct (seq 0 (Z.to_nat (start - end_)) !! k) as [j|] eqn:Hj;
      [|discriminate].
    apply lookup_seq in Hj. destruct Hj as [-> Hlt]. injection Hk as <-.
    split; [reflexivity|exact Hlt].
  - intros [-> Hlt]. by rewrite lookup_seq_lt.
Qed.

(** X19. After the host has moved the layers, [reorder] reads the new order
    from the host's own document descriptor: it asks for the layer ID at
    every index from [numberOfLayers] down to 0 (1 without a background
    layer), each index once, top first, and dispatches the IDs as
    answered. *)
Theorem reorder_reads_every_index
    (h : host) (documentID : Z) (spec : layerSpec) (targetIndex : Z)
    (played : Js.val) (doc : documentDescriptor) :
  let reorderObj :=
    Reorder (DocumentById documentID :: map LayerById (layerIDsOf spec))
            (LayerByIndex targetIndex) in
  playAnswer h reorderObj = Some played ->
  documentAnswer h documentID = Some doc ->
  let c := reorderLayersCommand h documentID spec targetIndex in
  let indices := layerIndicesForDocument doc in
  let layerRefs :=
    map (fun i => [DocumentById (Layers.documentID doc); LayerByIndex i]) indices in
  (forall k i,
     indices !! k = Some i <->
     i = numberOfLayers doc - Z.of_nat k /\
     (if doc_hasBackgroundLayer doc then 0 else 1) <= i) /\
  requests (Promise.effects c) = [Play reorderObj; GetDocument (DocumentById documentID)] /\
  requestsOfLayers (Promise.effects c) = [BatchGetProperty layerRefs "layerID"] /\
  dispatched (Promise.effects c) =
    match batchGetProperty (layersHost h) layerRefs "layerID" with
    | Some layerIDs => [REORDER_LAYERS documentID layerIDs]
    | None => []
    end.
Proof.
  intros reorderObj Hplayed Hdoc c indices layerRefs. split.
  - intros k i. unfold indices, layerIndicesForDocument. rewrite rangeDown_lookup.
    destruct (doc_hasBackgroundLayer doc); lia.
  - unfold c, reorderLayersCommand. fold reorderObj.
    rewrite Hplayed, Hdoc.
    unfold Promise.andThen, ask, _getLayerIDsForDocument, ofLayers, Layers.ask.
    cbn [Promise.outcome Promise.effects map app]. fold indices. fold layerRefs.
    destruct (batchGetProperty (layersHost h) layerRefs "layerID"); done.
Qed.

Lemma reorder_reads_every_index_witness :
  requestsOfLayers
    (Promise.effects (reorderLayersCommand someHost 3 (OneID 9) 2)) =
    [BatchGetProperty [[DocumentById 3; LayerByIndex 3]; [DocumentById 3; LayerByIndex 2];
                       [DocumentById 3; LayerByIndex 1]] "layerID"] /\
  dispatched (Promise.effects (reorderLayersCommand someHost 3 (OneID 9) 2)) =
    [REORDER_LAYERS 3 [Js.Num 1; Js.Num 1; Js.Num 1]].
Proof.
  destruct (reorder_reads_every_index someHost 3 (OneID 9) 2 _ _ eq_refl eq_refl)
    as (_ & _ & Hrequest & Hdispatched).
  split; [exact Hrequest | exact Hdispatched].
Defined.

(** ** Commands that have nothing to do *)

(** X20. [deleteSelected] resolves without any effect when there is no
    document, the document is unsupported or has no layers, or the
    selection cannot be deleted; and the commands on the current document
    ([groupSelectedInCurrentDocument], locking and unlocking the selection,
    [resetLinkedLayers]) resolve without any effect when there is none. *)
Theorem nothing_without_document
    (m : models) (h : host) (current : option Document.t) (arg : documentArg) :
  (match documentOrCurrent current arg with
   | None => True
   | Some document =>
       Document.unsupported document = true \/
       LayerStructure.all (Document.layers document) = [] \/
       selectedLayersDeletable m (Document.layers document) = false
   end ->
   deleteSelectedLayersCommand m h current arg = Promise.resolve Js.Undefined) /\
  (current = None ->
   groupSelectedLayersInCurrentDocumentCommand h current = Promise.resolve Js.Undefined /\
   lockSelectedInCurrentDocumentCommand h current = Promise.resolve [] /\
   unlockSelectedInCurrentDocumentCommand h current = Promise.resolve [] /\
   resetLinkedLayersCommand m h current = Promise.resolve Js.Undefined).
Proof.
  split.
  - intros Hskip. unfold deleteSelectedLayersCommand.
    destruct (documentOrCurrent current arg) as [document|]; [|reflexivity].
    destruct Hskip as [-> | [-> | ->]]; [reflexivity| |].
    + by rewrite orb_true_r.
    + by rewrite orb_true_r.
  - intros ->. repeat split.
Qed.

Lemma nothing_without_document_witness :
  deleteSelectedLayersCommand someModels someHost None NoArgument
    = Promise.resolve Js.Undefined /\
  deleteSelectedLayersCommand someModels someHost (Some Fixtures.emptyDocument) NoArgument
    = Promise.resolve Js.Undefined /\
  lockSelectedInCurrentDocumentCommand someHost None = Promise.resolve [].
Proof.
  split; [|split].
  - destruct (nothing_without_document someModels someHost None NoArgument)
      as [Hdelete _]. apply Hdelete. exact I.
  - destruct (nothing_without_document someModels someHost
                (Some Fixtures.emptyDocument) NoArgument) as [Hdelete _].
    apply Hdelete. right. left. reflexivity.
  - destruct (nothing_without_document someModels someHost None NoArgument)
      as [_ Hcurrent]. apply Hcurrent. reflexivity.
Defined.

End LayerCommandsProofs.

(** * Properties of type-tool sessions *)

Module TypeToolSessionsProofs.
Import TypeTool TypeToolSpec TypeToolSessions.

(** ** Other modules' listeners *)

Lemma foreign_app r1 r2 : foreign (r1 ++ r2) = foreign r1 ++ foreign r2.
Proof. apply omap_app. Qed.

Lemma foreign_rev r : foreign (rev r) = rev (foreign r).
Proof.
  induction r as [|[name [closure|closure]] rest IH]; [reflexivity| |].
  - cbn [rev]. rewrite foreign_app, IH. simpl. by rewrite app_nil_r.
  - cbn [rev]. rewrite foreign_app, IH. reflexivity.
Qed.

Lemma foreign_removeFirst name closure r :
  foreign (removeFirst name (Own closure) r) = foreign r.
Proof.
  induction r as [|entry rest IH]; [reflexivity|].
  cbn [removeFirst]. destruct (decide (entry = (name, Own closure))) as [->|Hne].
  - reflexivity.
  - change (entry :: removeFirst name (Own closure) rest)
      with ([entry] ++ removeFirst name (Own closure) rest).
    change (entry :: rest) with ([entry] ++ rest).
    by rewrite !foreign_app, IH.
Qed.

Lemma foreign_removeListenerVar name handler r :
  own handler -> foreign (removeListenerVar name handler r) = foreign r.
Proof.
  destruct handler as [[closure|closure]|]; simpl; [|contradiction|done].
  intros _. unfold removeListener.
  by rewrite foreign_rev, foreign_removeFirst, foreign_rev, rev_involutive.
Qed.

Lemma foreign_addListener name closure r :
  foreign (addListener name (Own closure) r) = foreign r.
Proof. unfold addListener. rewrite foreign_app. simpl. apply app_nil_r. Qed.

Lemma foreign_removed s :
  ownHandlers s ->
  foreign
    (removeListenerVar "toolModalStateChanged" (_toolModalStateChangedHandler s)
       (removeListenerVar "deleteTextLayer" (_layerDeletedHandler s)
          (removeListenerVar "createTextLayer" (_layerCreatedHandler s)
             (removeListenerVar "updateTextProperties" (_typeChangedHandler s)
                (listeners s))))) = foreign (listeners s).
Proof.
  intros (H1 & H2 & H3 & H4). by rewrite !foreign_removeListenerVar.
Qed.

Lemma select_foreign w s :
  ownHandlers s ->
  foreign (listeners (fst (select w s))) = foreign (listeners s) /\
  ownHandlers (fst (select w s)).
Proof.
  intros Hs. unfold select.
  destruct (setSuppressTargetPathsOk w), (firstLaunch s); cbn [fst listeners];
    (split; [by rewrite !foreign_addListener, foreign_removed|repeat split]).
Qed.

Lemma deselect_foreign w s :
  ownHandlers s ->
  foreign (listeners (fst (deselect w s))) = foreign (listeners s) /\
  ownHandlers (fst (deselect w s)).
Proof.
  intros Hs. unfold deselect. cbn [fst listeners].
  split; [by rewrite foreign_removed|repeat split].
Qed.

Lemma step_foreign w i s :
  ownHandlers s ->
  foreign (listeners (fst (step w i s))) = foreign (listeners s) /\
  ownHandlers (fst (step w i s)).
Proof.
  intros Hs. destruct i as [| |e]; unfold step.
  - pose proof (select_foreign w s Hs) as H. by destruct (select w s).
  - pose proof (deselect_foreign w s Hs) as H. by destruct (deselect w s).
  - destruct (TypeToolProofs.emit_sameListeners w e s) as (Hl & H1 & H2 & H3 & H4).
    destruct Hs as (? & ? & ? & ?).
    unfold ownHandlers. rewrite Hl, H1, H2, H3, H4. done.
Qed.

Lemma run_foreign inputs : forall s,
  ownHandlers s ->
  foreign (listeners (fst (run inputs s))) = foreign (listeners s).
Proof.
  induction inputs as [|[w i] rest IH]; intros s Hs; simpl; [reflexivity|].
  destruct (step_foreign w i s Hs) as [Hstep Hown].
  destruct (step w i s) as [s1 effects]. simpl in Hstep, Hown.
  specialize (IH s1 Hown). destruct (run rest s1) as [s2 more]. simpl in *.
  congruence.
Qed.

(** X21. In every session the listeners that other modules have on the
    emitter stay as they were, all of them and in their order: selecting
    and deselecting the type tool add and remove this module's listeners
    only. *)
Theorem foreign_listeners_untouched
    (others : list (string * nat)) (inputs : list (world * input)) :
  foreign (listeners (fst (run inputs (initial others)))) = others.
Proof.
  rewrite run_foreign by repeat split.
  unfold initial. cbn [listeners].
  induction others as [|[name closure] rest IH]; [reflexivity|].
  simpl. f_equal. exact IH.
Qed.

(** ** The reset of the type tool's defaults *)

Lemma resets_app l1 l2 : resets (l1 ++ l2) = (resets l1 + resets l2)%nat.
Proof. unfold resets. by rewrite List.filter_app, length_app. Qed.

Lemma resets_OfLayers effects : resets (map OfLayers effects) = 0%nat.
Proof. induction effects as [|e rest IH]; [reflexivity|exact IH]. Qed.

Lemma listener_resets w e s :
  resets (snd (listener w e s)) = 0%nat /\
  firstLaunch (fst (listener w e s)) = firstLaunch s.
Proof.
  destruct e as [event|event|event|event]; simpl.
  - done.
  - unfold layerCreated.
    destruct (getCurrentDocument w) as [document|]; [|done].
    destruct (LayerStructure.byID _ _); [done|].
    destruct (Promise.outcome _); cbn [fst snd]; [|by rewrite resets_OfLayers].
    destruct (_getPropertiesFromEvent w event); cbn [fst snd];
      [|by rewrite resets_OfLayers].
    destruct (getDocument w _); cbn [fst snd];
      by rewrite ?resets_app, resets_OfLayers.
  - unfold layerDeleted, handleDeletedLayer. cbn [fst snd].
    destruct (getCurrentDocument w) as [document|]; [|done].
    cbn [_layersReplaced set_layerDeleted].
    destruct (Js.truthy (_layersReplaced s)); [done|].
    destruct (LayerStructure.byID _ _); done.
  - unfold toolModalStateChangedHandler, handleTypeModalStateCanceled.
    destruct (isTypeCancel event); [|done].
    destruct (Js.truthy (_layerDeleted s)); [done|].
    destruct (getCurrentDocument w); done.
Qed.

Lemma emitLoop_resets w e registered : forall s effects,
  resets (snd (emitLoop w e registered (s, effects))) = resets effects /\
  firstLaunch (fst (emitLoop w e registered (s, effects))) = firstLaunch s.
Proof.
  induction registered as [|c rest IH]; intros s effects; simpl; [done|].
  destruct (listener_resets w e s) as [Hnone Hfirst].
  destruct (listener w e s) as [s1 more]. simpl in Hnone, Hfirst.
  destruct (IH s1 (effects ++ more)) as [-> ->].
  rewrite resets_app, Hnone, Hfirst. split; [lia|reflexivity].
Qed.

Lemma step_resets w i s :
  resets (snd (step w i s))
    = (if firstLaunch s && completedSelect (w, i) then 1 else 0)%nat /\
  firstLaunch (fst (step w i s)) = firstLaunch s && negb (completedSelect (w, i)).
Proof.
  destruct i as [| |e]; unfold step, completedSelect.
  - unfold select. destruct (setSuppressTargetPathsOk w), (firstLaunch s); done.
  - unfold deselect. cbn [fst snd firstLaunch Promise.effects].
    by rewrite !andb_false_r, andb_true_r.
  - rewrite TypeToolProofs.emit_emitLoop.
    destruct (emitLoop_resets w e (installed (eventName e) (listeners s)) s [])
      as [-> ->].
    by rewrite !andb_false_r, andb_true_r.
Qed.

Lemma run_resets inputs : forall s,
  resets (snd (run inputs s))
    = (if firstLaunch s && existsb completedSelect inputs then 1 else 0)%nat.
Proof.
  induction inputs as [|[w i] rest IH]; intros s; cbn [run existsb].
  - by rewrite andb_false_r.
  - destruct (step_resets w i s) as [Hstep Hfirst].
    destruct (step w i s) as [s1 effects]. cbn [fst snd] in Hstep, Hfirst.
    specialize (IH s1). destruct (run rest s1) as [s2 more]. cbn [snd] in *.
    rewrite resets_app, Hstep, IH, Hfirst.
    destruct (firstLaunch s), (completedSelect (w, i)), (existsb completedSelect rest);
      reflexivity.
Qed.

(** X22. In every session the defaults of the type tool are reset at most
    once: with the first [select] whose [setSuppressTargetPaths] call
    succeeds, and never again, whether or not that reset itself succeeded.
    Without such a [select] they are never reset. *)
Theorem type_tool_reset_once
    (others : list (string * nat)) (inputs : list (world * input)) :
  resets (snd (run inputs (initial others)))
    = (if existsb completedSelect inputs then 1 else 0)%nat.
Proof. by rewrite run_resets. Qed.

(** ** The deleted-layer record across sessions *)

Lemma emitLoop_neutral_layerDeleted w e registered : forall s effects,
  neutral e ->
  _layerDeleted (fst (emitLoop w e registered (s, effects))) = _layerDeleted s.
Proof.
  induction registered as [|c rest IH]; intros s effects Hneutral; simpl; [done|].
  pose proof (TypeToolProofs.listener_neutral_layerDeleted w e s Hneutral) as Hkeep.
  destruct (listener w e s) as [s1 more]. simpl in Hkeep.
  by rewrite IH.
Qed.

Lemma step_quiet w i s :
  quiet i -> _layerDeleted (fst (step w i s)) = _layerDeleted s.
Proof.
  intros Hquiet. destruct i as [| |e]; unfold step.
  - unfold select. destruct (setSuppressTargetPathsOk w), (firstLaunch s); reflexivity.
  - reflexivity.
  - rewrite TypeToolProofs.emit_emitLoop. by apply emitLoop_neutral_layerDeleted.
Qed.

Lemma run_quiet inputs : forall s,
  Forall (fun wi => quiet (snd wi)) inputs ->
  _layerDeleted (fst (run inputs s)) = _layerDeleted s.
Proof.
  induction inputs as [|[w i] rest IH]; intros s Hquiet; simpl; [reflexivity|].
  inversion_clear Hquiet as [|? ? Hi Hrest]. simpl in Hi.
  pose proof (step_quiet w i s Hi) as Hstep.
  destruct (step w i s) as [s1 effects]. simpl in Hstep.
  specialize (IH s1 Hrest). destruct (run rest s1) as [s2 more]. simpl in *.
  congruence.
Qed.

(** X23. The record of a deleted text layer outlives the session it was
    made in: when no type-tool cancel follows the [deleteTextLayer] event,
    the record is still there after the tool has been deselected and
    selected again, any number of times, and the first cancel of the later
    session is taken for the one of the deleted layer: it clears the
    record and resets nothing. *)
Theorem stale_delete_record_swallows_cancel
    (others : list (string * nat)) (before between : list (world * input))
    (w1 w2 w3 : world) (deleted : deleteTextLayerEvent)
    (cancel : toolModalStateChangedEvent) :
  let s := fst (run before (initial others)) in
  listening s ->
  deleted_layerID deleted <> 0 ->
  isTypeCancel cancel = true ->
  Forall (fun wi => quiet (snd wi)) between ->
  let s1 := fst (emit w1 (deleteTextLayer deleted) s) in
  let s2 := fst (run between s1) in
  let s3 := fst (select w2 s2) in
  _layerDeleted s3 = Js.Num (deleted_layerID deleted) /\
  emit w3 (toolModalStateChanged cancel) s3 = (set_layerDeleted Js.Null s3, []).
Proof.
  intros s Hlistening Hid Hcancel Hquiet s1 s2 s3.
  assert (Hs : consistent s)
    by apply TypeToolProofs.run_consistent, TypeToolProofs.initial_consistent.
  assert (Hs1 : consistent s1).
  { eapply TypeToolProofs.sameListeners_consistent;
      [apply TypeToolProofs.emit_sameListeners|exact Hs]. }
  assert (Hs2 : consistent s2) by (by apply TypeToolProofs.run_consistent).
  assert (Hs3 : listening s3) by (by apply TypeToolProofs.select_listening).
  assert (Hrecord1 : _layerDeleted s1 = Js.Num (deleted_layerID deleted)).
  { unfold s1. rewrite (TypeToolProofs.emit_once w1 (deleteTextLayer deleted) s)
      by (by apply TypeToolProofs.listening_event). reflexivity. }
  assert (Hrecord3 : _layerDeleted s3 = Js.Num (deleted_layerID deleted)).
  { rewrite <- Hrecord1. unfold s3. rewrite <- (run_quiet between s1 Hquiet).
    fold s2. unfold select.
    destruct (setSuppressTargetPathsOk w2), (firstLaunch s2); reflexivity. }
  split; [exact Hrecord3|].
  rewrite (TypeToolProofs.emit_once w3 (toolModalStateChanged cancel) s3)
    by (by apply TypeToolProofs.listening_event).
  simpl. unfold toolModalStateChangedHandler. rewrite Hcancel, Hrecord3. simpl.
  destruct (Z.eqb_spec (deleted_layerID deleted) 0); [contradiction|reflexivity].
Qed.

Lemma stale_delete_record_swallows_cancel_witness :
  let w := worldOf artboardDocumentWithText in
  let s3 := fst (run deletedThenReselected (initial [])) in
  _layerDeleted s3 = Js.Num 10 /\
  emit w (toolModalStateChanged cancelEvent) s3 = (set_layerDeleted Js.Null s3, []).
Proof.
  intros w s3.
  apply (stale_delete_record_swallows_cancel [] [(w, Select)]
           [(worldOf Fixtures.artboardDocument, Deselect)]
           w (worldOf Fixtures.artboardDocument) w (DeleteEvent 10) cancelEvent).
  - repeat constructor.
  - simpl. lia.
  - reflexivity.
  - repeat constructor.
Defined.

(** ** A deleted text layer *)

(** X24. In every session, while the tool listens, a [deleteTextLayer]
    event for a layer of the current document ends in the removal of that
    one layer and never in [updateDocument], whatever [createTextLayer]
    events came before and whatever they replaced: the flag the listener
    passes on is never truthy, since the promise of [addLayers] resolves
    with [undefined]. *)
Theorem deleted_text_layer_is_removed
    (others : list (string * nat)) (inputs : list (world * input)) (w : world)
    (deleted : deleteTextLayerEvent) (document : Document.t) (layer : Layer.t) :
  let s := fst (run inputs (initial others)) in
  listening s ->
  getCurrentDocument w = Some document ->
  LayerStructure.byID (Document.layers document) (deleted_layerID deleted) = Some layer ->
  snd (emit w (deleteTextLayer deleted) s) = [RemoveLayers document layer true].
Proof.
  intros s Hlistening Hdocument Hlayer.
  rewrite (TypeToolProofs.emit_once w (deleteTextLayer deleted) s)
    by (by apply TypeToolProofs.listening_event).
  simpl. unfold layerDeleted. cbn [snd _layersReplaced set_layerDeleted].
  rewrite (TypeToolProofs.handleDeletedLayer_by_flag w deleted _ document Hdocument).
  unfold s. rewrite TypeToolProofs.layersReplaced_never_set, Hlayer. reflexivity.
Qed.

Lemma deleted_text_layer_is_removed_witness :
  snd (emit (worldOf artboardDocumentWithText) (deleteTextLayer (DeleteEvent 10))
         (fst (run [(worldOf Fixtures.artboardDocument, Select);
                    (worldOf Fixtures.artboardDocument,
                     Emit (createTextLayer (CreateEvent 10 Js.Undefined)))]
                   (initial []))))
  = [RemoveLayers artboardDocumentWithText textLayer true].
Proof.
  apply (deleted_text_layer_is_removed []
           [(worldOf Fixtures.artboardDocument, Select);
            (worldOf Fixtures.artboardDocument,
             Emit (createTextLayer (CreateEvent 10 Js.Undefined)))]
           (worldOf artboardDocumentWithText) (DeleteEvent 10)
           artboardDocumentWithText textLayer).
  - repeat constructor.
  - reflexivity.
  - reflexivity.
Defined.

End TypeToolSessionsProofs.
